(** * Rep counting state machines of the workout tracker

    A shallow embedding of [utils/workoutUtils.js] (the eight exercise state
    machines) and of the session handlers of [components/WorkoutTracker.js],
    followed by the properties established about them. *)

From Stdlib Require Import QArith Qabs Lqa Bool List String Arith Lia.
From Stdlib Require Import DecimalString.
Import ListNotations.

Local Open Scope string_scope.

(* ================================================================== *)
(** ** JavaScript numbers and values *)
(* ================================================================== *)

(** A JavaScript number: every finite double is a rational, so finite
    values are carried as [Q]; the three special values are kept apart.
    Comparisons are exact; [+], [-] and [/] round their result to the
    nearest double ([round]).  The sign of a zero is not kept. *)
Inductive number : Type :=
  | NaN
  | NegInf
  | Fin (q : Q)
  | PosInf.

(** What an angle or distance slot of an object can hold: nothing
    ([undefined], a property never assigned), [null], or a number. *)
Inductive value : Type :=
  | Undefined
  | Null
  | Num (n : number).

Definition Qltb (x y : Q) : bool := negb (Qle_bool y x).

(** [a < b] on numbers. *)
Definition num_lt (a b : number) : bool :=
  match a, b with
  | NaN, _ | _, NaN => false
  | NegInf, NegInf => false
  | NegInf, _ => true
  | _, NegInf => false
  | PosInf, _ => false
  | Fin _, PosInf => true
  | Fin x, Fin y => Qltb x y
  end.

(** [a >= b] on numbers. *)
Definition num_ge (a b : number) : bool :=
  match a, b with
  | NaN, _ | _, NaN => false
  | _, NegInf => true
  | NegInf, _ => false
  | PosInf, _ => true
  | Fin _, PosInf => false
  | Fin x, Fin y => Qle_bool y x
  end.

Definition num_opp (a : number) : number :=
  match a with
  | NaN => NaN
  | NegInf => PosInf
  | PosInf => NegInf
  | Fin x => Fin (- x)
  end.

(** The double nearest to the positive rational [n / d]: round to
    nearest, ties to the even significand, 53 bits of significand,
    exponents from -1022 (below that the spacing stays [2^-1074]) to
    1023 (beyond that the result is [Infinity]). *)
Definition round_pos (n d : positive) : number :=
  let e0 := (Z.log2 (Zpos n) - Z.log2 (Zpos d))%Z in
  let under :=
    if (0 <=? e0)%Z then (Zpos n <? Z.shiftl (Zpos d) e0)%Z
    else (Z.shiftl (Zpos n) (- e0) <? Zpos d)%Z in
  (* [2^e <= n / d < 2^(e + 1)] *)
  let e := if under then (e0 - 1)%Z else e0 in
  if (1023 <? e)%Z then PosInf
  else
    (* the spacing of the doubles around [n / d] is [2^s] *)
    let s := (Z.max e (-1022) - 52)%Z in
    let N := if (0 <=? s)%Z then Zpos n else Z.shiftl (Zpos n) (- s) in
    let D := if (0 <=? s)%Z then Z.shiftl (Zpos d) s else Zpos d in
    let q := (N / D)%Z in
    let r := (N mod D)%Z in
    let m :=
      match (2 * r ?= D)%Z with
      | Lt => q
      | Gt => (q + 1)%Z
      | Eq => if Z.even q then q else (q + 1)%Z
      end in
    if (e =? 1023)%Z && (Z.shiftl 1 53 <=? m)%Z then PosInf
    else if (0 <=? s)%Z then Fin (Qred (inject_Z (Z.shiftl m s)))
    else Fin (Qred (m # Pos.shiftl 1 (Z.to_N (- s)))).

(** The double nearest to a rational. *)
Definition round (q : Q) : number :=
  match Qnum (Qred q) with
  | Z0 => Fin 0
  | Zpos n => round_pos n (Qden (Qred q))
  | Zneg n => num_opp (round_pos n (Qden (Qred q)))
  end.

Definition num_add (a b : number) : number :=
  match a, b with
  | NaN, _ | _, NaN => NaN
  | PosInf, NegInf | NegInf, PosInf => NaN
  | PosInf, _ | _, PosInf => PosInf
  | NegInf, _ | _, NegInf => NegInf
  | Fin x, Fin y => round (x + y)
  end.

Definition num_sub (a b : number) : number := num_add a (num_opp b).

(** [Math.abs] *)
Definition num_abs (a : number) : number :=
  match a with
  | NaN => NaN
  | NegInf | PosInf => PosInf
  | Fin x => Fin (Qabs x)
  end.

(** [a / 2] *)
Definition num_half (a : number) : number :=
  match a with
  | Fin x => round (x / 2)
  | other => other
  end.

(** [a / b].  The sign of a zero is not kept, so a positive dividend
    over zero is taken as [Infinity]. *)
Definition num_div (a b : number) : number :=
  match a, b with
  | NaN, _ | _, NaN => NaN
  | (PosInf | NegInf), (PosInf | NegInf) => NaN
  | Fin _, (PosInf | NegInf) => Fin 0
  | PosInf, Fin y => if Qltb y 0 then NegInf else PosInf
  | NegInf, Fin y => if Qltb y 0 then PosInf else NegInf
  | Fin x, Fin y =>
      if Qeq_bool y 0 then
        if Qeq_bool x 0 then NaN
        else if Qltb x 0 then NegInf else PosInf
      else round (x / y)
  end.

(** ToNumber, as the relational operators apply it to their operands. *)
Definition toNumber (v : value) : number :=
  match v with
  | Undefined => NaN
  | Null => Fin 0
  | Num n => n
  end.

(** ToBoolean: [undefined], [null], [NaN] and zero are falsy. *)
Definition truthy (v : value) : bool :=
  match v with
  | Undefined | Null => false
  | Num NaN => false
  | Num (Fin q) => negb (Qeq_bool q 0)
  | Num _ => true
  end.

(** [v < t] and [v > t] against a numeric threshold. *)
Definition js_lt (v : value) (t : Q) : bool := num_lt (toNumber v) (Fin t).
Definition js_gt (v : value) (t : Q) : bool := num_lt (Fin t) (toNumber v).

(** [a || b] on values. *)
Definition js_or (a b : value) : value := if truthy a then a else b.

(** A degree value written as an integer literal. *)
Definition deg (z : Z) : value := Num (Fin (inject_Z z)).

(* ================================================================== *)
(** ** Data handed to the machines *)
(* ================================================================== *)

(** [{x, y}] *)
Record point : Type := { x : number; y : number }.

(** The [angles] object built by [updateExerciseState]; a slot that was
    never assigned reads as [Undefined]. *)
Record AngleSet : Type := {
  knee : value;
  hip : value;
  torsoLean : value;
  backAngle : value;
  elbow : value;
  leftElbow : value;
  rightElbow : value;
  shoulder : value
}.

(** [{}] *)
Definition noAngles : AngleSet :=
  {| knee := Undefined; hip := Undefined; torsoLean := Undefined;
     backAngle := Undefined; elbow := Undefined; leftElbow := Undefined;
     rightElbow := Undefined; shoulder := Undefined |}.

(** The second argument of [update]: squat distances, or the joint
    positions passed for the shoulder press. *)
Record DistanceSet : Type := {
  kneeToe : value;
  legLength : value;
  leftWrist : option point;
  rightWrist : option point;
  leftShoulder : option point;
  rightShoulder : option point
}.

Definition noDistances : DistanceSet :=
  {| kneeToe := Undefined; legLength := Undefined;
     leftWrist := None; rightWrist := None;
     leftShoulder := None; rightShoulder := None |}.

(** [{type, text}] *)
Record FeedbackMessage : Type := { type : string; text : string }.

Definition warning (s : string) : FeedbackMessage := {| type := "warning"; text := s |}.
Definition success (s : string) : FeedbackMessage := {| type := "success"; text := s |}.
Definition error (s : string) : FeedbackMessage := {| type := "error"; text := s |}.

(** One call of [update]: the reading of [Date.now()] during the call,
    and the two arguments ([distances] may be left out). *)
Record frame : Type := {
  now : nat;
  angles : AngleSet;
  distances : option DistanceSet
}.

(** [distances || {}] *)
Definition orEmpty (d : option DistanceSet) : DistanceSet :=
  match d with
  | Some d => d
  | None => noDistances
  end.

(* ================================================================== *)
(** ** 2. Squat state machine *)
(* ================================================================== *)

Module SquatStateMachine.

Inductive phase : Type := standing | descending | bottom | ascending.

Record Thresholds : Type := {
  descendKneeAngle : Q;
  descendHipAngle : Q;
  bottomKneeAngle : Q;
  bottomHipAngle : Q;
  ascendKneeAngle : Q;
  depthKneeAngle : Q;
  kneeToeRatio : Q;
  torsoLeanAngle : Q
}.

(** Assigned once by the constructor and never written again. *)
Definition thresholds : Thresholds :=
  {| descendKneeAngle := 150;
     descendHipAngle := 150;
     bottomKneeAngle := 110;
     bottomHipAngle := 120;
     ascendKneeAngle := 150;
     depthKneeAngle := 130;
     kneeToeRatio := 20 # 100;
     torsoLeanAngle := 50 |}.

Record t : Type := {
  state : phase;
  repCount : nat;
  feedbackMessages : list FeedbackMessage;
  lastRepTime : nat;
  minDepthReached : bool
}.

(** [constructor()] *)
Definition new : t :=
  {| state := standing;
     repCount := 0;
     feedbackMessages := [];
     lastRepTime := 0;
     minDepthReached := false |}.

Definition set_state (p : phase) (this : t) : t :=
  {| state := p; repCount := repCount this;
     feedbackMessages := feedbackMessages this;
     lastRepTime := lastRepTime this;
     minDepthReached := minDepthReached this |}.

Definition set_repCount (n : nat) (this : t) : t :=
  {| state := state this; repCount := n;
     feedbackMessages := feedbackMessages this;
     lastRepTime := lastRepTime this;
     minDepthReached := minDepthReached this |}.

Definition set_feedbackMessages (l : list FeedbackMessage) (this : t) : t :=
  {| state := state this; repCount := repCount this;
     feedbackMessages := l;
     lastRepTime := lastRepTime this;
     minDepthReached := minDepthReached this |}.

Definition set_lastRepTime (n : nat) (this : t) : t :=
  {| state := state this; repCount := repCount this;
     feedbackMessages := feedbackMessages this;
     lastRepTime := n;
     minDepthReached := minDepthReached this |}.

Definition set_minDepthReached (b : bool) (this : t) : t :=
  {| state := state this; repCount := repCount this;
     feedbackMessages := feedbackMessages this;
     lastRepTime := lastRepTime this;
     minDepthReached := b |}.

(** [this.feedbackMessages.push(m)] *)
Definition push (m : FeedbackMessage) (this : t) : t :=
  set_feedbackMessages (feedbackMessages this ++ [m]) this.

(** [update(angles, distances)].  [hip], [torsoLean], [kneeToe] and
    [legLength] are read and never used; [checkSquatForm] is not
    called. *)
Definition update (f : frame) (this : t) : t :=
  let this := set_feedbackMessages [] this in
  if negb (truthy (knee (angles f))) then
    push (warning "Cannot detect legs") this
  else
    let knee := knee (angles f) in
    match state this with
    | standing =>
        if js_lt knee (descendKneeAngle thresholds) then
          set_minDepthReached false (set_state descending this)
        else this
    | descending =>
        let this :=
          if js_lt knee (depthKneeAngle thresholds) then
            set_minDepthReached true this
          else this in
        if js_lt knee (bottomKneeAngle thresholds) then
          set_state bottom this
        else this
    | bottom =>
        if js_gt knee (bottomKneeAngle thresholds + 15) then
          set_state ascending this
        else this
    | ascending =>
        if js_gt knee (ascendKneeAngle thresholds) then
          let this :=
            if minDepthReached this then
              let this := set_repCount (S (repCount this)) this in
              let this := push (success "Good rep!") this in
              set_lastRepTime (now f) this
            else
              push (error "Too shallow") this in
          set_minDepthReached false (set_state standing this)
        else this
    end.

(** [checkSquatForm(torsoLean, kneeToe, legLength)] *)
Definition checkSquatForm (torsoLean kneeToe legLength : value) (this : t) : t :=
  let this :=
    if truthy legLength
       && num_lt (Fin (kneeToeRatio thresholds))
                 (num_div (toNumber kneeToe) (toNumber legLength))
    then push (warning "Keep knees behind toes") this
    else this in
  if truthy torsoLean && js_gt torsoLean (torsoLeanAngle thresholds)
  then push (warning "Keep torso more upright") this
  else this.

(** [reset()] *)
Definition reset (this : t) : t :=
  set_minDepthReached false (set_state standing (set_repCount 0 this)).

Definition phase_name (p : phase) : string :=
  match p with
  | standing => "standing"
  | descending => "descending"
  | bottom => "bottom"
  | ascending => "ascending"
  end.

End SquatStateMachine.

(* ================================================================== *)
(** ** The fields shared by the classes without extra state *)
(* ================================================================== *)

(** Bench press, deadlift, push-up, pull-up, lateral raise and lunge all
    carry [state], [repCount] and [feedbackMessages] (and constant
    [thresholds]); only the phase names differ. *)
Module Fields.

Record t (phase : Type) : Type := {
  state : phase;
  repCount : nat;
  feedbackMessages : list FeedbackMessage
}.
Arguments state {phase} _.
Arguments repCount {phase} _.
Arguments feedbackMessages {phase} _.

Section Setters.
Context {phase : Type}.

Definition set_state (p : phase) (this : t phase) : t phase :=
  {| state := p; repCount := repCount this;
     feedbackMessages := feedbackMessages this |}.

Definition set_repCount (n : nat) (this : t phase) : t phase :=
  {| state := state this; repCount := n;
     feedbackMessages := feedbackMessages this |}.

Definition set_feedbackMessages (l : list FeedbackMessage) (this : t phase)
  : t phase :=
  {| state := state this; repCount := repCount this;
     feedbackMessages := l |}.

Definition push (m : FeedbackMessage) (this : t phase) : t phase :=
  set_feedbackMessages (feedbackMessages this ++ [m]) this.

(** The rep-completing branch: [repCount++], push 'Good rep!', then
    write the phase. *)
Definition countRep (p : phase) (this : t phase) : t phase :=
  set_state p (push (success "Good rep!") (set_repCount (S (repCount this)) this)).
End Setters.

End Fields.

(* ================================================================== *)
(** ** 3. Bench press state machine *)
(* ================================================================== *)

Module BenchPressStateMachine.
Import Fields.

Inductive phase : Type := extended | descending | bottom | ascending.

Record Thresholds : Type := {
  extendedAngle : Q;
  descendingAngle : Q;
  bottomAngle : Q;
  ascendingAngle : Q
}.

Definition thresholds : Thresholds :=
  {| extendedAngle := 160; descendingAngle := 120;
     bottomAngle := 90; ascendingAngle := 120 |}.

Definition t : Type := Fields.t phase.

Definition new : t :=
  {| state := extended; repCount := 0; feedbackMessages := [] |}.

Definition update (f : frame) (this : t) : t :=
  let this := set_feedbackMessages [] this in
  if negb (truthy (elbow (angles f))) then
    push (warning "Cannot detect pose") this
  else
    let elbow := elbow (angles f) in
    match state this with
    | extended =>
        if js_lt elbow (descendingAngle thresholds) then set_state descending this
        else this
    | descending =>
        if js_lt elbow (bottomAngle thresholds) then set_state bottom this
        else this
    | bottom =>
        if js_gt elbow (bottomAngle thresholds + 10) then set_state ascending this
        else this
    | ascending =>
        if js_gt elbow (extendedAngle thresholds) then countRep extended this
        else this
    end.

Definition reset (this : t) : t := set_state extended (set_repCount 0 this).

Definition phase_name (p : phase) : string :=
  match p with
  | extended => "extended"
  | descending => "descending"
  | bottom => "bottom"
  | ascending => "ascending"
  end.

End BenchPressStateMachine.

(* ================================================================== *)
(** ** 4. Deadlift state machine *)
(* ================================================================== *)

Module DeadliftStateMachine.
Import Fields.

Inductive phase : Type := standing | bending | bottom | lifting.

Record Thresholds : Type := {
  standingHipAngle : Q;
  bendingHipAngle : Q;
  bottomHipAngle : Q;
  liftingHipAngle : Q
}.

Definition thresholds : Thresholds :=
  {| standingHipAngle := 160; bendingHipAngle := 120;
     bottomHipAngle := 90; liftingHipAngle := 120 |}.

Definition t : Type := Fields.t phase.

Definition new : t :=
  {| state := standing; repCount := 0; feedbackMessages := [] |}.

Definition update (f : frame) (this : t) : t :=
  let this := set_feedbackMessages [] this in
  if negb (truthy (hip (angles f))) then
    push (warning "Cannot detect pose") this
  else
    let hip := hip (angles f) in
    match state this with
    | standing =>
        if js_lt hip (bendingHipAngle thresholds) then set_state bending this
        else this
    | bending =>
        if js_lt hip (bottomHipAngle thresholds) then set_state bottom this
        else this
    | bottom =>
        if js_gt hip (bottomHipAngle thresholds + 10) then set_state lifting this
        else this
    | lifting =>
        if js_gt hip (standingHipAngle thresholds) then countRep standing this
        else this
    end.

Definition reset (this : t) : t := set_state standing (set_repCount 0 this).

Definition phase_name (p : phase) : string :=
  match p with
  | standing => "standing"
  | bending => "bending"
  | bottom => "bottom"
  | lifting => "lifting"
  end.

End DeadliftStateMachine.

(* ================================================================== *)
(** ** 5. Push-up state machine *)
(* ================================================================== *)

Module PushUpStateMachine.
Import Fields.

Inductive phase : Type := up | descending | bottom | ascending.

Record Thresholds : Type := {
  upAngle : Q;
  descendingAngle : Q;
  bottomAngle : Q;
  ascendingAngle : Q
}.

Definition thresholds : Thresholds :=
  {| upAngle := 160; descendingAngle := 120;
     bottomAngle := 90; ascendingAngle := 120 |}.

Definition t : Type := Fields.t phase.

Definition new : t :=
  {| state := up; repCount := 0; feedbackMessages := [] |}.

Definition update (f : frame) (this : t) : t :=
  let this := set_feedbackMessages [] this in
  if negb (truthy (elbow (angles f))) then
    push (warning "Cannot detect pose") this
  else
    let elbow := elbow (angles f) in
    match state this with
    | up =>
        if js_lt elbow (descendingAngle thresholds) then set_state descending this
        else this
    | descending =>
        if js_lt elbow (bottomAngle thresholds) then set_state bottom this
        else this
    | bottom =>
        if js_gt elbow (bottomAngle thresholds + 10) then set_state ascending this
        else this
    | ascending =>
        if js_gt elbow (upAngle thresholds) then countRep up this
        else this
    end.

Definition reset (this : t) : t := set_state up (set_repCount 0 this).

Definition phase_name (p : phase) : string :=
  match p with
  | up => "up"
  | descending => "descending"
  | bottom => "bottom"
  | ascending => "ascending"
  end.

End PushUpStateMachine.

(* ================================================================== *)
(** ** 6. Pull-up state machine *)
(* ================================================================== *)

Module PullUpStateMachine.
Import Fields.

Inductive phase : Type := hanging | pulling | top | descending.

Record Thresholds : Type := {
  hangingAngle : Q;
  pullingAngle : Q;
  topAngle : Q;
  descendingAngle : Q
}.

Definition thresholds : Thresholds :=
  {| hangingAngle := 160; pullingAngle := 120;
     topAngle := 90; descendingAngle := 120 |}.

Definition t : Type := Fields.t phase.

Definition new : t :=
  {| state := hanging; repCount := 0; feedbackMessages := [] |}.

Definition update (f : frame) (this : t) : t :=
  let this := set_feedbackMessages [] this in
  if negb (truthy (elbow (angles f))) then
    push (warning "Cannot detect pose") this
  else
    let elbow := elbow (angles f) in
    match state this with
    | hanging =>
        if js_lt elbow (pullingAngle thresholds) then set_state pulling this
        else this
    | pulling =>
        if js_lt elbow (topAngle thresholds) then set_state top this
        else this
    | top =>
        if js_gt elbow (topAngle thresholds + 10) then set_state descending this
        else this
    | descending =>
        if js_gt elbow (hangingAngle thresholds) then countRep hanging this
        else this
    end.

Definition reset (this : t) : t := set_state hanging (set_repCount 0 this).

Definition phase_name (p : phase) : string :=
  match p with
  | hanging => "hanging"
  | pulling => "pulling"
  | top => "top"
  | descending => "descending"
  end.

End PullUpStateMachine.

(* ================================================================== *)
(** ** 7. Shoulder press state machine *)
(* ================================================================== *)

Module ShoulderPressStateMachine.

Inductive phase : Type := down | up.

Record Thresholds : Type := {
  downElbowAngle : Q;
  upElbowAngle : Q;
  armBalanceTolerance : Q
}.

Definition thresholds : Thresholds :=
  {| downElbowAngle := 100; upElbowAngle := 160; armBalanceTolerance := 20 |}.

Record t : Type := {
  state : phase;
  repCount : nat;
  feedbackMessages : list FeedbackMessage;
  lastRepTime : nat
}.

Definition new : t :=
  {| state := down; repCount := 0; feedbackMessages := []; lastRepTime := 0 |}.

Definition set_state (p : phase) (this : t) : t :=
  {| state := p; repCount := repCount this;
     feedbackMessages := feedbackMessages this;
     lastRepTime := lastRepTime this |}.

Definition set_repCount (n : nat) (this : t) : t :=
  {| state := state this; repCount := n;
     feedbackMessages := feedbackMessages this;
     lastRepTime := lastRepTime this |}.

Definition set_feedbackMessages (l : list FeedbackMessage) (this : t) : t :=
  {| state := state this; repCount := repCount this;
     feedbackMessages := l;
     lastRepTime := lastRepTime this |}.

Definition set_lastRepTime (n : nat) (this : t) : t :=
  {| state := state this; repCount := repCount this;
     feedbackMessages := feedbackMessages this;
     lastRepTime := n |}.

Definition push (m : FeedbackMessage) (this : t) : t :=
  set_feedbackMessages (feedbackMessages this ++ [m]) this.

(** [wrist.y < shoulder.y] when both points are there. *)
Definition above (wrist shoulder : option point) : bool :=
  match wrist, shoulder with
  | Some w, Some s => num_lt (y w) (y s)
  | _, _ => false
  end.

Definition both (a b : option point) : bool :=
  match a, b with
  | Some _, Some _ => true
  | _, _ => false
  end.

(** The local [wristsAboveShoulder]; [update] computes it and does not
    read it afterwards. *)
Definition wristsAboveShoulder (positions : DistanceSet) : bool :=
  let lw := leftWrist positions in
  let ls := leftShoulder positions in
  let rw := rightWrist positions in
  let rs := rightShoulder positions in
  if both lw ls && both rw rs then above lw ls && above rw rs
  else if both lw ls || both rw rs then above lw ls || above rw rs
  else false.

(** [avgElbow]: the mean when both sides are truthy, the sum and its
    half each rounded as the code's doubles are, else whichever side is
    ([leftElbow || rightElbow]). *)
Definition avgElbow (a : AngleSet) : value :=
  if truthy (leftElbow a) && truthy (rightElbow a) then
    Num (num_half (num_add (toNumber (leftElbow a)) (toNumber (rightElbow a))))
  else js_or (leftElbow a) (rightElbow a).

(** [Math.abs(leftElbow - rightElbow) > armBalanceTolerance], on the
    rounded difference. *)
Definition unbalanced (a : AngleSet) : bool :=
  num_lt (Fin (armBalanceTolerance thresholds))
         (num_abs (num_sub (toNumber (leftElbow a)) (toNumber (rightElbow a)))).

(** [update(angles, positions)] *)
Definition update (f : frame) (this : t) : t :=
  let this := set_feedbackMessages [] this in
  let a := angles f in
  if negb (truthy (leftElbow a)) && negb (truthy (rightElbow a)) then
    push (warning "Face camera - ensure arms visible") this
  else
    let positions := orEmpty (distances f) in
    let this :=
      if truthy (leftElbow a) && truthy (rightElbow a) then
        if unbalanced a then push (warning "Balance both arms evenly") this
        else this
      else this in
    let avgElbow := avgElbow a in
    let wristsAboveShoulder := wristsAboveShoulder positions in
    match state this with
    | down =>
        if js_gt avgElbow (upElbowAngle thresholds) then set_state up this
        else this
    | up =>
        if js_lt avgElbow (downElbowAngle thresholds) then
          let this := set_repCount (S (repCount this)) this in
          let this := push (success "Good rep!") this in
          let this := set_state down this in
          set_lastRepTime (now f) this
        else this
    end.

Definition reset (this : t) : t := set_state down (set_repCount 0 this).

Definition phase_name (p : phase) : string :=
  match p with
  | down => "down"
  | up => "up"
  end.

End ShoulderPressStateMachine.

(* ================================================================== *)
(** ** 8. Lateral raise state machine *)
(* ================================================================== *)

Module LateralRaiseStateMachine.
Import Fields.

Inductive phase : Type := down | raising | top | lowering.

Record Thresholds : Type := {
  downAngle : Q;
  raisingAngle : Q;
  topAngle : Q;
  loweringAngle : Q
}.

Definition thresholds : Thresholds :=
  {| downAngle := 30; raisingAngle := 60; topAngle := 90; loweringAngle := 60 |}.

Definition t : Type := Fields.t phase.

Definition new : t :=
  {| state := down; repCount := 0; feedbackMessages := [] |}.

Definition update (f : frame) (this : t) : t :=
  let this := set_feedbackMessages [] this in
  if negb (truthy (shoulder (angles f))) then
    push (warning "Cannot detect pose") this
  else
    let shoulder := shoulder (angles f) in
    match state this with
    | down =>
        if js_gt shoulder (raisingAngle thresholds) then set_state raising this
        else this
    | raising =>
        if js_gt shoulder (topAngle thresholds) then set_state top this
        else this
    | top =>
        if js_lt shoulder (topAngle thresholds - 10) then set_state lowering this
        else this
    | lowering =>
        if js_lt shoulder (downAngle thresholds) then countRep down this
        else this
    end.

Definition reset (this : t) : t := set_state down (set_repCount 0 this).

Definition phase_name (p : phase) : string :=
  match p with
  | down => "down"
  | raising => "raising"
  | top => "top"
  | lowering => "lowering"
  end.

End LateralRaiseStateMachine.

(* ================================================================== *)
(** ** 9. Lunge state machine *)
(* ================================================================== *)

Module LungeStateMachine.
Import Fields.

Inductive phase : Type := standing | descending | bottom | ascending.

Record Thresholds : Type := {
  standingKneeAngle : Q;
  descendingKneeAngle : Q;
  bottomKneeAngle : Q;
  ascendingKneeAngle : Q
}.

Definition thresholds : Thresholds :=
  {| standingKneeAngle := 160; descendingKneeAngle := 120;
     bottomKneeAngle := 90; ascendingKneeAngle := 120 |}.

Definition t : Type := Fields.t phase.

Definition new : t :=
  {| state := standing; repCount := 0; feedbackMessages := [] |}.

Definition update (f : frame) (this : t) : t :=
  let this := set_feedbackMessages [] this in
  if negb (truthy (knee (angles f))) then
    push (warning "Cannot detect pose") this
  else
    let knee := knee (angles f) in
    match state this with
    | standing =>
        if js_lt knee (descendingKneeAngle thresholds) then set_state descending this
        else this
    | descending =>
        if js_lt knee (bottomKneeAngle thresholds) then set_state bottom this
        else this
    | bottom =>
        if js_gt knee (bottomKneeAngle thresholds + 10) then set_state ascending this
        else this
    | ascending =>
        if js_gt knee (standingKneeAngle thresholds) then countRep standing this
        else this
    end.

Definition reset (this : t) : t := set_state standing (set_repCount 0 this).

Definition phase_name (p : phase) : string :=
  match p with
  | standing => "standing"
  | descending => "descending"
  | bottom => "bottom"
  | ascending => "ascending"
  end.

End LungeStateMachine.

(* ================================================================== *)
(** ** The eight machines behind one reference *)
(* ================================================================== *)

(** The keys of [EXERCISES] and of the roster in [stateMachinesRef]. *)
Inductive exerciseKind : Type :=
  | squat | bench | deadlift | pushup | pullup
  | shoulderpress | lateralraise | lunge.

Definition exerciseKind_eqb (a b : exerciseKind) : bool :=
  match a, b with
  | squat, squat | bench, bench | deadlift, deadlift | pushup, pushup
  | pullup, pullup | shoulderpress, shoulderpress
  | lateralraise, lateralraise | lunge, lunge => true
  | _, _ => false
  end.

Module Machine.

(** What [stateMachineRef.current] can point to: an instance of one of
    the eight classes.  A method call on it dispatches on the class. *)
Inductive t : Type :=
  | Squat (m : SquatStateMachine.t)
  | BenchPress (m : BenchPressStateMachine.t)
  | Deadlift (m : DeadliftStateMachine.t)
  | PushUp (m : PushUpStateMachine.t)
  | PullUp (m : PullUpStateMachine.t)
  | ShoulderPress (m : ShoulderPressStateMachine.t)
  | LateralRaise (m : LateralRaiseStateMachine.t)
  | Lunge (m : LungeStateMachine.t).

(** [new XStateMachine()] for the class registered under each key. *)
Definition new (k : exerciseKind) : t :=
  match k with
  | squat => Squat SquatStateMachine.new
  | bench => BenchPress BenchPressStateMachine.new
  | deadlift => Deadlift DeadliftStateMachine.new
  | pushup => PushUp PushUpStateMachine.new
  | pullup => PullUp PullUpStateMachine.new
  | shoulderpress => ShoulderPress ShoulderPressStateMachine.new
  | lateralraise => LateralRaise LateralRaiseStateMachine.new
  | lunge => Lunge LungeStateMachine.new
  end.

Definition kind (sm : t) : exerciseKind :=
  match sm with
  | Squat _ => squat
  | BenchPress _ => bench
  | Deadlift _ => deadlift
  | PushUp _ => pushup
  | PullUp _ => pullup
  | ShoulderPress _ => shoulderpress
  | LateralRaise _ => lateralraise
  | Lunge _ => lunge
  end.

(** [sm.update(angles, distances)] *)
Definition update (f : frame) (sm : t) : t :=
  match sm with
  | Squat m => Squat (SquatStateMachine.update f m)
  | BenchPress m => BenchPress (BenchPressStateMachine.update f m)
  | Deadlift m => Deadlift (DeadliftStateMachine.update f m)
  | PushUp m => PushUp (PushUpStateMachine.update f m)
  | PullUp m => PullUp (PullUpStateMachine.update f m)
  | ShoulderPress m => ShoulderPress (ShoulderPressStateMachine.update f m)
  | LateralRaise m => LateralRaise (LateralRaiseStateMachine.update f m)
  | Lunge m => Lunge (LungeStateMachine.update f m)
  end.

(** [sm.reset()] *)
Definition reset (sm : t) : t :=
  match sm with
  | Squat m => Squat (SquatStateMachine.reset m)
  | BenchPress m => BenchPress (BenchPressStateMachine.reset m)
  | Deadlift m => Deadlift (DeadliftStateMachine.reset m)
  | PushUp m => PushUp (PushUpStateMachine.reset m)
  | PullUp m => PullUp (PullUpStateMachine.reset m)
  | ShoulderPress m => ShoulderPress (ShoulderPressStateMachine.reset m)
  | LateralRaise m => LateralRaise (LateralRaiseStateMachine.reset m)
  | Lunge m => Lunge (LungeStateMachine.reset m)
  end.

(** [sm.state], the phase as the string the class stores. *)
Definition state (sm : t) : string :=
  match sm with
  | Squat m => SquatStateMachine.phase_name (SquatStateMachine.state m)
  | BenchPress m => BenchPressStateMachine.phase_name (Fields.state m)
  | Deadlift m => DeadliftStateMachine.phase_name (Fields.state m)
  | PushUp m => PushUpStateMachine.phase_name (Fields.state m)
  | PullUp m => PullUpStateMachine.phase_name (Fields.state m)
  | ShoulderPress m =>
      ShoulderPressStateMachine.phase_name (ShoulderPressStateMachine.state m)
  | LateralRaise m => LateralRaiseStateMachine.phase_name (Fields.state m)
  | Lunge m => LungeStateMachine.phase_name (Fields.state m)
  end.

(** [sm.repCount] *)
Definition repCount (sm : t) : nat :=
  match sm with
  | Squat m => SquatStateMachine.repCount m
  | ShoulderPress m => ShoulderPressStateMachine.repCount m
  | BenchPress m | Deadlift m | PushUp m | PullUp m
  | LateralRaise m | Lunge m => Fields.repCount m
  end.

(** [sm.feedbackMessages] *)
Definition feedbackMessages (sm : t) : list FeedbackMessage :=
  match sm with
  | Squat m => SquatStateMachine.feedbackMessages m
  | ShoulderPress m => ShoulderPressStateMachine.feedbackMessages m
  | BenchPress m | Deadlift m | PushUp m | PullUp m
  | LateralRaise m | Lunge m => Fields.feedbackMessages m
  end.

(** [sm.minDepthReached]; only the squat class has the field. *)
Definition minDepthReached (sm : t) : option bool :=
  match sm with
  | Squat m => Some (SquatStateMachine.minDepthReached m)
  | _ => None
  end.

(** [sm.lastRepTime]; only squat and shoulder press have the field. *)
Definition lastRepTime (sm : t) : option nat :=
  match sm with
  | Squat m => Some (SquatStateMachine.lastRepTime m)
  | ShoulderPress m => Some (ShoulderPressStateMachine.lastRepTime m)
  | _ => None
  end.

(** A machine driven through a list of [update] calls, first to last. *)
Definition run (fs : list frame) (sm : t) : t :=
  fold_left (fun m f => update f m) fs sm.

(** The machines seen after each call of [run]. *)
Fixpoint trace (fs : list frame) (sm : t) : list t :=
  match fs with
  | [] => []
  | f :: fs => let sm' := update f sm in sm' :: trace fs sm'
  end.

End Machine.

(** Calls that carry a single angle, as the threshold examples do. *)
Definition justKnee (v : value) : AngleSet :=
  {| knee := v; hip := Undefined; torsoLean := Undefined;
     backAngle := Undefined; elbow := Undefined; leftElbow := Undefined;
     rightElbow := Undefined; shoulder := Undefined |}.

Definition justElbow (v : value) : AngleSet :=
  {| knee := Undefined; hip := Undefined; torsoLean := Undefined;
     backAngle := Undefined; elbow := v; leftElbow := Undefined;
     rightElbow := Undefined; shoulder := Undefined |}.

Definition kneeFrame (z : Z) : frame :=
  {| now := 1; angles := justKnee (deg z); distances := None |}.

Definition elbowFrame (z : Z) : frame :=
  {| now := 1; angles := justElbow (deg z); distances := None |}.

(* ================================================================== *)
(** ** components/WorkoutTracker.js *)
(* ================================================================== *)

Module WorkoutTracker.

(** [EXERCISES[k].name] *)
Definition EXERCISES_name (k : exerciseKind) : string :=
  match k with
  | squat => "Squats"
  | bench => "Bench Press"
  | deadlift => "Deadlift"
  | pushup => "Push-ups"
  | pullup => "Pull-ups"
  | shoulderpress => "Shoulder Press"
  | lateralraise => "Lateral Raises"
  | lunge => "Lunges"
  end.

(** *** Keypoints and [getPoint] *)

(** One element of [pose.keypoints]: [{x, y, score, name}]. *)
Record Keypoint : Type := {
  kp_x : number;
  kp_y : number;
  score : number;
  name : string
}.

(** What [getPoint] is called with: an array index such as [5], or a
    keypoint name such as ['left_shoulder'].  The names the source
    passes are not array indices. *)
Inductive index : Type :=
  | Idx (i : nat)
  | Name (s : string).

(** [keypoints[index]] on the array [pose.keypoints]: an element for an
    index in range, [undefined] out of range and for a name, which is
    not a property of an array. *)
Definition at_index (keypoints : list Keypoint) (i : index) : option Keypoint :=
  match i with
  | Idx n => nth_error keypoints n
  | Name _ => None
  end.

(** The default of [getPoint]'s second parameter; no call passes another. *)
Definition minConfidence : Q := 3 # 10.

Definition getPoint (keypoints : list Keypoint) (i : index) : option point :=
  match at_index keypoints i with
  | None => None
  | Some kp =>
      if num_ge (score kp) (Fin minConfidence)
      then Some {| x := kp_x kp; y := kp_y kp |}
      else None
  end.

(** [a || b] on points: an object is always truthy. *)
Definition orElse (a b : option point) : option point :=
  match a with
  | Some p => Some p
  | None => b
  end.

Definition set_knee (v : value) (a : AngleSet) : AngleSet :=
  {| knee := v; hip := hip a; torsoLean := torsoLean a; backAngle := backAngle a;
     elbow := elbow a; leftElbow := leftElbow a; rightElbow := rightElbow a;
     shoulder := shoulder a |}.
Definition set_hip (v : value) (a : AngleSet) : AngleSet :=
  {| knee := knee a; hip := v; torsoLean := torsoLean a; backAngle := backAngle a;
     elbow := elbow a; leftElbow := leftElbow a; rightElbow := rightElbow a;
     shoulder := shoulder a |}.
Definition set_torsoLean (v : value) (a : AngleSet) : AngleSet :=
  {| knee := knee a; hip := hip a; torsoLean := v; backAngle := backAngle a;
     elbow := elbow a; leftElbow := leftElbow a; rightElbow := rightElbow a;
     shoulder := shoulder a |}.
Definition set_backAngle (v : value) (a : AngleSet) : AngleSet :=
  {| knee := knee a; hip := hip a; torsoLean := torsoLean a; backAngle := v;
     elbow := elbow a; leftElbow := leftElbow a; rightElbow := rightElbow a;
     shoulder := shoulder a |}.
Definition set_elbow (v : value) (a : AngleSet) : AngleSet :=
  {| knee := knee a; hip := hip a; torsoLean := torsoLean a; backAngle := backAngle a;
     elbow := v; leftElbow := leftElbow a; rightElbow := rightElbow a;
     shoulder := shoulder a |}.
Definition set_leftElbow (v : value) (a : AngleSet) : AngleSet :=
  {| knee := knee a; hip := hip a; torsoLean := torsoLean a; backAngle := backAngle a;
     elbow := elbow a; leftElbow := v; rightElbow := rightElbow a;
     shoulder := shoulder a |}.
Definition set_rightElbow (v : value) (a : AngleSet) : AngleSet :=
  {| knee := knee a; hip := hip a; torsoLean := torsoLean a; backAngle := backAngle a;
     elbow := elbow a; leftElbow := leftElbow a; rightElbow := v;
     shoulder := shoulder a |}.
Definition set_shoulder (v : value) (a : AngleSet) : AngleSet :=
  {| knee := knee a; hip := hip a; torsoLean := torsoLean a; backAngle := backAngle a;
     elbow := elbow a; leftElbow := leftElbow a; rightElbow := rightElbow a;
     shoulder := v |}.

(** *** The angles of the active exercise *)

Section Geometry.

(** The trigonometry of [calculateAngle] and [calculateVerticalAngle]
    on points that are all present ([Math.atan2], the scaling by
    [180 / Math.PI], the fold at 180): floating point, kept abstract. *)
Variable angleDegrees : point -> point -> point -> number.
Variable verticalDegrees : point -> point -> number.

Definition calculateAngle (pointA pointB pointC : option point) : value :=
  match pointA, pointB, pointC with
  | Some a, Some b, Some c => Num (angleDegrees a b c)
  | _, _, _ => Null
  end.

Definition calculateVerticalAngle (point1 point2 : option point) : value :=
  match point1, point2 with
  | Some p1, Some p2 => Num (verticalDegrees p1 p2)
  | _, _ => Null
  end.

Definition calculateHorizontalDistance (point1 point2 : option point) : value :=
  match point1, point2 with
  | Some p1, Some p2 => Num (num_abs (num_sub (x p1) (x p2)))
  | _, _ => Null
  end.

(** The [switch (currentExerciseRef.current)] of [updateExerciseState];
    [angles] and [distances] both start as [{}]. *)
Definition computeAngles (k : exerciseKind) (keypoints : list Keypoint)
  : AngleSet * DistanceSet :=
  let getPoint := getPoint keypoints in
  match k with
  | squat =>
      let leftShoulder := getPoint (Idx 5) in
      let leftHip := getPoint (Idx 11) in
      let leftKnee := getPoint (Idx 13) in
      let leftAnkle := getPoint (Idx 15) in
      let rightShoulder := getPoint (Idx 6) in
      let rightHip := getPoint (Idx 12) in
      let rightKnee := getPoint (Idx 14) in
      let rightAnkle := getPoint (Idx 16) in
      let shoulder := orElse leftShoulder rightShoulder in
      let hip := orElse leftHip rightHip in
      let knee := orElse leftKnee rightKnee in
      let ankle := orElse leftAnkle rightAnkle in
      match hip, knee, ankle, shoulder with
      | Some h, Some _, Some a, Some _ =>
          (set_torsoLean (calculateVerticalAngle shoulder hip)
             (set_hip (calculateAngle shoulder hip knee)
                (set_knee (calculateAngle hip knee ankle) noAngles)),
           {| kneeToe := calculateHorizontalDistance knee ankle;
              legLength := Num (num_abs (num_sub (y h) (y a)));
              leftWrist := None; rightWrist := None;
              leftShoulder := None; rightShoulder := None |})
      | _, _, _, _ => (noAngles, noDistances)
      end
  | bench | pushup =>
      let shoulder := orElse (getPoint (Name "left_shoulder"))
                             (getPoint (Name "right_shoulder")) in
      let elbow := orElse (getPoint (Name "left_elbow"))
                          (getPoint (Name "right_elbow")) in
      let wrist := orElse (getPoint (Name "left_wrist"))
                          (getPoint (Name "right_wrist")) in
      match shoulder, elbow, wrist with
      | Some _, Some _, Some _ =>
          (set_elbow (calculateAngle shoulder elbow wrist) noAngles, noDistances)
      | _, _, _ => (noAngles, noDistances)
      end
  | deadlift =>
      let shoulder := getPoint (Name "left_shoulder") in
      let hip := getPoint (Name "left_hip") in
      let knee := getPoint (Name "left_knee") in
      let ankle := getPoint (Name "left_ankle") in
      match shoulder, hip, knee, ankle with
      | Some _, Some _, Some _, Some _ =>
          (set_backAngle (calculateVerticalAngle shoulder hip)
             (set_knee (calculateAngle hip knee ankle)
                (set_hip (calculateAngle shoulder hip knee) noAngles)),
           noDistances)
      | _, _, _, _ => (noAngles, noDistances)
      end
  | pullup =>
      let shoulder := orElse (getPoint (Idx 5)) (getPoint (Idx 6)) in
      let elbow := orElse (getPoint (Idx 7)) (getPoint (Idx 8)) in
      let wrist := orElse (getPoint (Idx 9)) (getPoint (Idx 10)) in
      match shoulder, elbow, wrist with
      | Some _, Some _, Some _ =>
          (set_elbow (calculateAngle shoulder elbow wrist) noAngles, noDistances)
      | _, _, _ => (noAngles, noDistances)
      end
  | shoulderpress =>
      let leftShoulder := getPoint (Idx 5) in
      let leftElbow := getPoint (Idx 7) in
      let leftWrist := getPoint (Idx 9) in
      let rightShoulder := getPoint (Idx 6) in
      let rightElbow := getPoint (Idx 8) in
      let rightWrist := getPoint (Idx 10) in
      let angles :=
        match leftShoulder, leftElbow, leftWrist with
        | Some _, Some _, Some _ =>
            set_leftElbow (calculateAngle leftShoulder leftElbow leftWrist) noAngles
        | _, _, _ => noAngles
        end in
      let angles :=
        match rightShoulder, rightElbow, rightWrist with
        | Some _, Some _, Some _ =>
            set_rightElbow (calculateAngle rightShoulder rightElbow rightWrist) angles
        | _, _, _ => angles
        end in
      (angles,
       {| kneeToe := Undefined; legLength := Undefined;
          leftWrist := leftWrist; rightWrist := rightWrist;
          leftShoulder := leftShoulder; rightShoulder := rightShoulder |})
  | lateralraise =>
      let shoulder := orElse (getPoint (Idx 5)) (getPoint (Idx 6)) in
      let elbow := orElse (getPoint (Idx 7)) (getPoint (Idx 8)) in
      let hip := orElse (getPoint (Idx 11)) (getPoint (Idx 12)) in
      match shoulder, elbow, hip with
      | Some _, Some _, Some _ =>
          (set_shoulder (calculateAngle hip shoulder elbow) noAngles, noDistances)
      | _, _, _ => (noAngles, noDistances)
      end
  | lunge =>
      let hip := orElse (getPoint (Idx 11)) (getPoint (Idx 12)) in
      let knee := orElse (getPoint (Idx 13)) (getPoint (Idx 14)) in
      let ankle := orElse (getPoint (Idx 15)) (getPoint (Idx 16)) in
      match hip, knee, ankle with
      | Some _, Some _, Some _ =>
          (set_knee (calculateAngle hip knee ankle) noAngles, noDistances)
      | _, _, _ => (noAngles, noDistances)
      end
  end.

End Geometry.

(** *** Session state *)

(** One element of [workoutLog]: [{exercise, reps, name}]. *)
Record LogEntry : Type := {
  exercise : exerciseKind;
  reps : nat;
  log_name : string
}.

(** The object [initializeStateMachines] stores in [stateMachinesRef]:
    one instance per key. *)
Record Roster : Type := {
  sm_squat : SquatStateMachine.t;
  sm_bench : BenchPressStateMachine.t;
  sm_deadlift : DeadliftStateMachine.t;
  sm_pushup : PushUpStateMachine.t;
  sm_pullup : PullUpStateMachine.t;
  sm_shoulderpress : ShoulderPressStateMachine.t;
  sm_lateralraise : LateralRaiseStateMachine.t;
  sm_lunge : LungeStateMachine.t
}.

(** [stateMachinesRef.current[k]] *)
Definition get (r : Roster) (k : exerciseKind) : Machine.t :=
  match k with
  | squat => Machine.Squat (sm_squat r)
  | bench => Machine.BenchPress (sm_bench r)
  | deadlift => Machine.Deadlift (sm_deadlift r)
  | pushup => Machine.PushUp (sm_pushup r)
  | pullup => Machine.PullUp (sm_pullup r)
  | shoulderpress => Machine.ShoulderPress (sm_shoulderpress r)
  | lateralraise => Machine.LateralRaise (sm_lateralraise r)
  | lunge => Machine.Lunge (sm_lunge r)
  end.

(** The roster after the instance of one class was mutated in place. *)
Definition put (sm : Machine.t) (r : Roster) : Roster :=
  match sm with
  | Machine.Squat m =>
      {| sm_squat := m; sm_bench := sm_bench r; sm_deadlift := sm_deadlift r;
         sm_pushup := sm_pushup r; sm_pullup := sm_pullup r;
         sm_shoulderpress := sm_shoulderpress r;
         sm_lateralraise := sm_lateralraise r; sm_lunge := sm_lunge r |}
  | Machine.BenchPress m =>
      {| sm_squat := sm_squat r; sm_bench := m; sm_deadlift := sm_deadlift r;
         sm_pushup := sm_pushup r; sm_pullup := sm_pullup r;
         sm_shoulderpress := sm_shoulderpress r;
         sm_lateralraise := sm_lateralraise r; sm_lunge := sm_lunge r |}
  | Machine.Deadlift m =>
      {| sm_squat := sm_squat r; sm_bench := sm_bench r; sm_deadlift := m;
         sm_pushup := sm_pushup r; sm_pullup := sm_pullup r;
         sm_shoulderpress := sm_shoulderpress r;
         sm_lateralraise := sm_lateralraise r; sm_lunge := sm_lunge r |}
  | Machine.PushUp m =>
      {| sm_squat := sm_squat r; sm_bench := sm_bench r; sm_deadlift := sm_deadlift r;
         sm_pushup := m; sm_pullup := sm_pullup r;
         sm_shoulderpress := sm_shoulderpress r;
         sm_lateralraise := sm_lateralraise r; sm_lunge := sm_lunge r |}
  | Machine.PullUp m =>
      {| sm_squat := sm_squat r; sm_bench := sm_bench r; sm_deadlift := sm_deadlift r;
         sm_pushup := sm_pushup r; sm_pullup := m;
         sm_shoulderpress := sm_shoulderpress r;
         sm_lateralraise := sm_lateralraise r; sm_lunge := sm_lunge r |}
  | Machine.ShoulderPress m =>
      {| sm_squat := sm_squat r; sm_bench := sm_bench r; sm_deadlift := sm_deadlift r;
         sm_pushup := sm_pushup r; sm_pullup := sm_pullup r;
         sm_shoulderpress := m;
         sm_lateralraise := sm_lateralraise r; sm_lunge := sm_lunge r |}
  | Machine.LateralRaise m =>
      {| sm_squat := sm_squat r; sm_bench := sm_bench r; sm_deadlift := sm_deadlift r;
         sm_pushup := sm_pushup r; sm_pullup := sm_pullup r;
         sm_shoulderpress := sm_shoulderpress r;
         sm_lateralraise := m; sm_lunge := sm_lunge r |}
  | Machine.Lunge m =>
      {| sm_squat := sm_squat r; sm_bench := sm_bench r; sm_deadlift := sm_deadlift r;
         sm_pushup := sm_pushup r; sm_pullup := sm_pullup r;
         sm_shoulderpress := sm_shoulderpress r;
         sm_lateralraise := sm_lateralraise r; sm_lunge := m |}
  end.

(** The component's hooks and refs that the handlers read and write,
    with the two things outside it they touch: the [ttsEnabled] flag of
    the voice service and what was handed to its [speak].  A handler
    runs on the values of the last render, and a render separates two
    events, so each handler is a function on this record.
    [stateMachineRef.current] aliases one instance of the roster: it is
    kept as the key of that instance ([None] before the roster exists). *)
Record Tracker : Type := {
  isCounting : bool;
  currentExercise : exerciseKind;
  repCount : nat;
  currentState : string;
  formQuality : string;
  workoutLog : list LogEntry;
  stateMachines : option Roster;
  stateMachine : option exerciseKind;
  ttsEnabled : bool;
  spoken : list string
}.

(** The component as first rendered, before the model has loaded. *)
Definition mount (tts : bool) : Tracker :=
  {| isCounting := false; currentExercise := squat; repCount := 0;
     currentState := "Standing"; formQuality := "Perfect";
     workoutLog := []; stateMachines := None; stateMachine := None;
     ttsEnabled := tts; spoken := [] |}.

Definition set_isCounting (b : bool) (s : Tracker) : Tracker :=
  {| isCounting := b; currentExercise := currentExercise s;
     repCount := repCount s; currentState := currentState s;
     formQuality := formQuality s; workoutLog := workoutLog s;
     stateMachines := stateMachines s; stateMachine := stateMachine s;
     ttsEnabled := ttsEnabled s; spoken := spoken s |}.

Definition set_currentExercise (k : exerciseKind) (s : Tracker) : Tracker :=
  {| isCounting := isCounting s; currentExercise := k;
     repCount := repCount s; currentState := currentState s;
     formQuality := formQuality s; workoutLog := workoutLog s;
     stateMachines := stateMachines s; stateMachine := stateMachine s;
     ttsEnabled := ttsEnabled s; spoken := spoken s |}.

Definition set_repCount (n : nat) (s : Tracker) : Tracker :=
  {| isCounting := isCounting s; currentExercise := currentExercise s;
     repCount := n; currentState := currentState s;
     formQuality := formQuality s; workoutLog := workoutLog s;
     stateMachines := stateMachines s; stateMachine := stateMachine s;
     ttsEnabled := ttsEnabled s; spoken := spoken s |}.

Definition set_currentState (p : string) (s : Tracker) : Tracker :=
  {| isCounting := isCounting s; currentExercise := currentExercise s;
     repCount := repCount s; currentState := p;
     formQuality := formQuality s; workoutLog := workoutLog s;
     stateMachines := stateMachines s; stateMachine := stateMachine s;
     ttsEnabled := ttsEnabled s; spoken := spoken s |}.

Definition set_formQuality (q : string) (s : Tracker) : Tracker :=
  {| isCounting := isCounting s; currentExercise := currentExercise s;
     repCount := repCount s; currentState := currentState s;
     formQuality := q; workoutLog := workoutLog s;
     stateMachines := stateMachines s; stateMachine := stateMachine s;
     ttsEnabled := ttsEnabled s; spoken := spoken s |}.

Definition set_workoutLog (l : list LogEntry) (s : Tracker) : Tracker :=
  {| isCounting := isCounting s; currentExercise := currentExercise s;
     repCount := repCount s; currentState := currentState s;
     formQuality := formQuality s; workoutLog := l;
     stateMachines := stateMachines s; stateMachine := stateMachine s;
     ttsEnabled := ttsEnabled s; spoken := spoken s |}.

Definition set_stateMachines (r : option Roster) (s : Tracker) : Tracker :=
  {| isCounting := isCounting s; currentExercise := currentExercise s;
     repCount := repCount s; currentState := currentState s;
     formQuality := formQuality s; workoutLog := workoutLog s;
     stateMachines := r; stateMachine := stateMachine s;
     ttsEnabled := ttsEnabled s; spoken := spoken s |}.

Definition set_stateMachine (k : option exerciseKind) (s : Tracker) : Tracker :=
  {| isCounting := isCounting s; currentExercise := currentExercise s;
     repCount := repCount s; currentState := currentState s;
     formQuality := formQuality s; workoutLog := workoutLog s;
     stateMachines := stateMachines s; stateMachine := k;
     ttsEnabled := ttsEnabled s; spoken := spoken s |}.

Definition set_spoken (l : list string) (s : Tracker) : Tracker :=
  {| isCounting := isCounting s; currentExercise := currentExercise s;
     repCount := repCount s; currentState := currentState s;
     formQuality := formQuality s; workoutLog := workoutLog s;
     stateMachines := stateMachines s; stateMachine := stateMachine s;
     ttsEnabled := ttsEnabled s; spoken := l |}.

(** [speakFeedback(message)] *)
Definition speakFeedback (message : string) (s : Tracker) : Tracker :=
  if ttsEnabled s then set_spoken (spoken s ++ [message]) s else s.

(** [initializeStateMachines()] *)
Definition initializeStateMachines (s : Tracker) : Tracker :=
  set_stateMachine (Some squat)
    (set_stateMachines
       (Some {| sm_squat := SquatStateMachine.new;
                sm_bench := BenchPressStateMachine.new;
                sm_deadlift := DeadliftStateMachine.new;
                sm_pushup := PushUpStateMachine.new;
                sm_pullup := PullUpStateMachine.new;
                sm_shoulderpress := ShoulderPressStateMachine.new;
                sm_lateralraise := LateralRaiseStateMachine.new;
                sm_lunge := LungeStateMachine.new |}) s).

(** The instance [stateMachineRef.current] points to, if any. *)
Definition active (s : Tracker) : option Machine.t :=
  match stateMachines s, stateMachine s with
  | Some r, Some k => Some (get r k)
  | _, _ => None
  end.

(** *** Handlers *)

(** [handleExerciseChange(exercise)] *)
Definition handleExerciseChange (k : exerciseKind) (s : Tracker) : Tracker :=
  if isCounting s then
    speakFeedback "Please stop counting before changing exercise." s
  else
    let s := set_currentExercise k s in
    let s := set_stateMachine
               (match stateMachines s with
                | Some _ => Some k
                | None => None
                end) s in
    let s := set_repCount 0 s in
    let s := set_currentState "Standing" s in
    set_formQuality "Perfect" s.

(** [handleStartCounting()] *)
Definition handleStartCounting (s : Tracker) : Tracker :=
  speakFeedback ("Starting " ++ EXERCISES_name (currentExercise s) ++ ". Let's go!")
    (set_isCounting true s).

(** [workoutLog.find(log => log.exercise === k)] *)
Definition findLog (k : exerciseKind) (log : list LogEntry) : option LogEntry :=
  find (fun e => exerciseKind_eqb (exercise e) k) log.

(** [existingLog.reps += n] on the entry [find] returned, in place. *)
Fixpoint addReps (k : exerciseKind) (n : nat) (log : list LogEntry) : list LogEntry :=
  match log with
  | [] => []
  | e :: rest =>
      if exerciseKind_eqb (exercise e) k then
        {| exercise := exercise e; reps := (reps e + n)%nat; log_name := log_name e |} :: rest
      else e :: addReps k n rest
  end.

(** The logging step of [handleStopCounting]: add to the entry of the
    exercise when there is one, else append a new entry. *)
Definition logReps (k : exerciseKind) (n : nat) (log : list LogEntry) : list LogEntry :=
  match findLog k log with
  | Some _ => addReps k n log
  | None => log ++ [{| exercise := k; reps := n; log_name := EXERCISES_name k |}]
  end.

(** [handleStopCounting()] *)
Definition handleStopCounting (s : Tracker) : Tracker :=
  let s :=
    if isCounting s && (0 <? repCount s)%nat then
      set_workoutLog (logReps (currentExercise s) (repCount s) (workoutLog s)) s
    else s in
  speakFeedback "Counting paused." (set_isCounting false s).

(** The decimal digits of a count, as a template literal prints it. *)
Definition decimal (n : nat) : string := NilZero.string_of_uint (Nat.to_uint n).

(** [setFormQuality] as the end of [updateExerciseState] decides it. *)
Definition gradeForm (feedback : list FeedbackMessage) (s : Tracker) : Tracker :=
  match feedback with
  | [] => s
  | _ =>
      if existsb (fun f => String.eqb (type f) "error") feedback then
        set_formQuality "Poor" s
      else if existsb (fun f => String.eqb (type f) "warning") feedback then
        set_formQuality "Good" s
      else set_formQuality "Perfect" s
  end.

(** The second half of [updateExerciseState], from 'Update state
    machine' on: call [update] on the referenced instance and react to
    the rep count. *)
Definition feedStateMachine (f : frame) (s : Tracker) : Tracker :=
  match stateMachines s, stateMachine s with
  | Some r, Some k =>
      let sm := get r k in
      let prevRepCount := Machine.repCount sm in
      let sm := Machine.update f sm in
      let s := set_stateMachines (Some (put sm r)) s in
      let newState := Machine.state sm in
      let newRepCount := Machine.repCount sm in
      let s :=
        if (prevRepCount <? newRepCount)%nat then
          speakFeedback ("Rep " ++ decimal newRepCount) (set_repCount newRepCount s)
        else s in
      let s := set_currentState newState s in
      gradeForm (Machine.feedbackMessages sm) s
  | _, _ => s
  end.

(** The reset of every instance in [resetWorkout]. *)
Definition resetAll (r : Roster) : Roster :=
  {| sm_squat := SquatStateMachine.reset (sm_squat r);
     sm_bench := BenchPressStateMachine.reset (sm_bench r);
     sm_deadlift := DeadliftStateMachine.reset (sm_deadlift r);
     sm_pushup := PushUpStateMachine.reset (sm_pushup r);
     sm_pullup := PullUpStateMachine.reset (sm_pullup r);
     sm_shoulderpress := ShoulderPressStateMachine.reset (sm_shoulderpress r);
     sm_lateralraise := LateralRaiseStateMachine.reset (sm_lateralraise r);
     sm_lunge := LungeStateMachine.reset (sm_lunge r) |}.

(** [resetWorkout()] ([caloriesResult] is not part of this record). *)
Definition resetWorkout (s : Tracker) : Tracker :=
  let s := set_workoutLog [] s in
  let s := set_repCount 0 s in
  let s := set_currentState "Standing" s in
  let s := set_formQuality "Perfect" s in
  set_stateMachines (option_map resetAll (stateMachines s)) s.

Section Frames.

Variable angleDegrees : point -> point -> point -> number.
Variable verticalDegrees : point -> point -> number.

(** [updateExerciseState(pose)] at clock reading [t]. *)
Definition updateExerciseState (t : nat) (keypoints : list Keypoint) (s : Tracker)
  : Tracker :=
  match stateMachine s with
  | None => s
  | Some _ =>
      let '(a, d) :=
        computeAngles angleDegrees verticalDegrees (currentExercise s) keypoints in
      feedStateMachine {| now := t; angles := a; distances := Some d |} s
  end.

(** The counting part of one pass of [detect]: [poses[0]] when a pose
    was found, and only while counting. *)
Definition detect (t : nat) (poses : list (list Keypoint)) (s : Tracker) : Tracker :=
  match poses with
  | [] => s
  | pose :: _ => if isCounting s then updateExerciseState t pose s else s
  end.

End Frames.

(** The [workouts] that [handleEndWorkout] sends: a copy of the log with
    the displayed count added for the current exercise when it is
    positive (to its entry, or as a new last entry). *)
Definition finalLog (s : Tracker) : list LogEntry :=
  if (0 <? repCount s)%nat
  then logReps (currentExercise s) (repCount s) (workoutLog s)
  else workoutLog s.

(** [s.includes(sub)] *)
Fixpoint includes (s sub : string) : bool :=
  String.prefix sub s ||
  match s with
  | EmptyString => false
  | String _ rest => includes rest sub
  end.

(** The tracker with the [isWorkoutActive] hook, which the voice
    commands read. *)
Record Session : Type := {
  tracker : Tracker;
  isWorkoutActive : bool
}.

(** The [workouts] of [handleEndWorkout] when the [repCount] its closure
    holds is [seen]; [finalLog] is the case of the displayed count. *)
Definition sentLog (seen : nat) (s : Tracker) : list LogEntry :=
  if (0 <? seen)%nat
  then logReps (currentExercise s) seen (workoutLog s)
  else workoutLog s.

(** [handleEndWorkout], up to the point where it awaits the calorie
    request, for a closure that holds [seen] as [repCount]: counting and
    the session are switched off and the request carries [sentLog].
    [finalLog] is a shallow copy of the log, so the addition to an
    existing entry is written into the entry the log state holds; a new
    entry goes to the copy only.  What follows the request is not part
    of this: the result and the cookie are not modelled, the delayed
    [resetWorkout] is [handleEndWorkoutTimer]. *)
Definition handleEndWorkoutStart (seen : nat) (v : Session) : Session * list LogEntry :=
  let s := tracker v in
  let written :=
    if (0 <? seen)%nat then
      match findLog (currentExercise s) (workoutLog s) with
      | Some _ => addReps (currentExercise s) seen (workoutLog s)
      | None => workoutLog s
      end
    else workoutLog s in
  ({| tracker := set_workoutLog written (set_isCounting false s);
      isWorkoutActive := false |},
   sentLog seen s).

(** [handleVoiceCommand], from [lowerCommand] on: the argument is the
    transcript already put in lower case.  The second component tells
    that the command called [handleEndWorkout]; the session is then
    returned as it was, and the call itself is [handleEndWorkoutStart]. *)
Definition handleVoiceCommand (lowerCommand : string) (v : Session)
  : Session * option unit :=
  let s := tracker v in
  if includes lowerCommand "initiate workout"
     || includes lowerCommand "start workout session" then
    if negb (isWorkoutActive v) then
      ({| tracker :=
            speakFeedback "Workout session initiated. Select an exercise to begin." s;
          isWorkoutActive := true |}, None)
    else (v, None)
  else if includes lowerCommand "start workout"
          || includes lowerCommand "begin counting" then
    if isWorkoutActive v && negb (isCounting s) then
      ({| tracker :=
            speakFeedback
              ("Starting " ++ EXERCISES_name (currentExercise s) ++ ". Let's go!")
              (set_isCounting true s);
          isWorkoutActive := isWorkoutActive v |}, None)
    else (v, None)
  else if includes lowerCommand "stop counting"
          || includes lowerCommand "pause counting" then
    if isCounting s then
      ({| tracker := speakFeedback "Counting paused." (set_isCounting false s);
          isWorkoutActive := isWorkoutActive v |}, None)
    else (v, None)
  else if includes lowerCommand "end workout"
          || includes lowerCommand "finish workout" then
    if isWorkoutActive v then (v, Some tt)
    else (v, None)
  else (v, None).

(** A final transcript as the installed handler treats it, for a
    signed-in user.  The handler is installed by an effect that runs
    again when [currentUser],
    [isWorkoutActive], [isCounting], [currentExercise] or [workoutLog]
    change, not when [repCount] does: the [handleEndWorkout] it calls
    holds the [repCount] of the render of the last run, [seen]. *)
Definition runVoiceCommand (seen : nat) (lowerCommand : string) (v : Session)
  : Session * option (list LogEntry) :=
  match handleVoiceCommand lowerCommand v with
  | (v', None) => (v', None)
  | (v', Some _) =>
      let '(v'', request) := handleEndWorkoutStart seen v' in (v'', Some request)
  end.

(** The timer [handleEndWorkout] sets once the response has arrived,
    five seconds later: [setShowResult(false); resetWorkout()]
    ([showResult] is not part of this record).  No timer is set when the
    request fails. *)
Definition handleEndWorkoutTimer (v : Session) : Session :=
  {| tracker := resetWorkout (tracker v); isWorkoutActive := isWorkoutActive v |}.

(** What can happen to the mounted component, one event at a time. *)
Inductive event : Type :=
  | ModelLoaded
  | ExerciseChange (k : exerciseKind)
  | StartCounting
  | StopCounting
  | Counted (f : frame).

(** [Counted f] is a detected pose whose angles came out as [f]. *)
Definition handle (e : event) (s : Tracker) : Tracker :=
  match e with
  | ModelLoaded => initializeStateMachines s
  | ExerciseChange k => handleExerciseChange k s
  | StartCounting => handleStartCounting s
  | StopCounting => handleStopCounting s
  | Counted f => if isCounting s then feedStateMachine f s else s
  end.

Definition play (es : list event) (s : Tracker) : Tracker :=
  fold_left (fun s e => handle e s) es s.

End WorkoutTracker.

(** The angle(s) the machine of each exercise tests in its first guard. *)
Definition drivingAngles (k : exerciseKind) (a : AngleSet) : list value :=
  match k with
  | squat | lunge => [knee a]
  | bench | pushup | pullup => [elbow a]
  | deadlift => [hip a]
  | shoulderpress => [leftElbow a; rightElbow a]
  | lateralraise => [shoulder a]
  end.

(** A driving angle that is not there: [null], or a slot never assigned. *)
Definition nullish (v : value) : bool :=
  match v with
  | Undefined | Null => true
  | Num _ => false
  end.

(** A driving angle that is there and is the number zero. *)
Definition isZero (v : value) : bool :=
  match v with
  | Num (Fin q) => Qeq_bool q 0
  | _ => false
  end.

(** The summary of a machine that a caller can compare across instances:
    its class, phase, count and, for the squat, the depth flag. *)
Definition observe (sm : Machine.t) : exerciseKind * string * nat * option bool :=
  (Machine.kind sm, Machine.state sm, Machine.repCount sm, Machine.minDepthReached sm).

(** The warning each class pushes when its guard finds no driving angle. *)
Definition cannotDetect (k : exerciseKind) : FeedbackMessage :=
  match k with
  | squat => warning "Cannot detect legs"
  | shoulderpress => warning "Face camera - ensure arms visible"
  | bench | deadlift | pushup | pullup | lateralraise | lunge =>
      warning "Cannot detect pose"
  end.

(** A detected reading strictly below, or strictly above, a cutoff. *)
Definition below (v : value) (t : Q) : bool := truthy v && js_lt v t.
Definition above (v : value) (t : Q) : bool := truthy v && js_gt v t.

(** The full threshold sequence of an exercise, with the cutoffs of the
    table of phase cycles: one reading at rest, then one reading past
    each transition cutoff, in cycle order.  The shoulder press reads the
    mean of its two elbows (or the visible one). *)
Definition thresholdSequence (k : exerciseKind) (fs : list frame) : bool :=
  match k with
  | squat =>
      match map (fun f => knee (angles f)) fs with
      | [r; a; b; c; d] =>
          above r 150 && below a 150 && below b 110 && above c (110 + 15) && above d 150
      | _ => false
      end
  | bench | pushup | pullup =>
      match map (fun f => elbow (angles f)) fs with
      | [r; a; b; c; d] =>
          above r 160 && below a 120 && below b 90 && above c (90 + 10) && above d 160
      | _ => false
      end
  | deadlift =>
      match map (fun f => hip (angles f)) fs with
      | [r; a; b; c; d] =>
          above r 160 && below a 120 && below b 90 && above c (90 + 10) && above d 160
      | _ => false
      end
  | lunge =>
      match map (fun f => knee (angles f)) fs with
      | [r; a; b; c; d] =>
          above r 160 && below a 120 && below b 90 && above c (90 + 10) && above d 160
      | _ => false
      end
  | lateralraise =>
      match map (fun f => shoulder (angles f)) fs with
      | [r; a; b; c; d] =>
          below r 30 && above a 60 && above b 90 && below c (90 - 10) && below d 30
      | _ => false
      end
  | shoulderpress =>
      match map (fun f => ShoulderPressStateMachine.avgElbow (angles f)) fs with
      | [r; a; b] => below r 100 && above a 160 && below b 100
      | _ => false
      end
  end.

(** The squat instances a session can hold: the constructed one, and
    whatever [update] and [reset] make of it. *)
Inductive squatReachable : SquatStateMachine.t -> Prop :=
  | reach_new : squatReachable SquatStateMachine.new
  | reach_update (f : frame) (m : SquatStateMachine.t) :
      squatReachable m -> squatReachable (SquatStateMachine.update f m)
  | reach_reset (m : SquatStateMachine.t) :
      squatReachable m -> squatReachable (SquatStateMachine.reset m).

(** The reps the log holds for an exercise ([0] without an entry). *)
Definition loggedReps (k : exerciseKind) (log : list WorkoutTracker.LogEntry) : nat :=
  match WorkoutTracker.findLog k log with
  | Some e => WorkoutTracker.reps e
  | None => 0%nat
  end.

(** The keypoint names of the pose model, in index order. *)
Definition keypointNames : list string :=
  [ "nose"; "left_eye"; "right_eye"; "left_ear"; "right_ear";
    "left_shoulder"; "right_shoulder"; "left_elbow"; "right_elbow";
    "left_wrist"; "right_wrist"; "left_hip"; "right_hip";
    "left_knee"; "right_knee"; "left_ankle"; "right_ankle" ].

(** A pose of the seventeen keypoints, with one score on the left-side
    joints (odd indices from 5 on), another on the right-side joints
    (even indices from 6 on), and score 1 on the face. *)
Definition sidedPose (leftScore rightScore : Q) : list WorkoutTracker.Keypoint :=
  map (fun '(i, nm) =>
         {| WorkoutTracker.kp_x := Fin (inject_Z (Z.of_nat (10 * i)));
            WorkoutTracker.kp_y := Fin (inject_Z (Z.of_nat (i * i)));
            WorkoutTracker.score :=
              Fin (if (i <? 5)%nat then 1
                   else if Nat.odd i then leftScore else rightScore);
            WorkoutTracker.name := nm |})
      (combine (seq 0 17) keypointNames).

(** A slot that holds a number. *)
Definition present (v : value) : bool := negb (nullish v).

(** What a call leaves of a machine when its guard finds no usable
    driving angle: everything but [feedbackMessages], which holds the one
    warning of the class. *)
Definition frozen (before after : Machine.t) : Prop :=
  Machine.kind after = Machine.kind before /\
  Machine.state after = Machine.state before /\
  Machine.repCount after = Machine.repCount before /\
  Machine.minDepthReached after = Machine.minDepthReached before /\
  Machine.lastRepTime after = Machine.lastRepTime before /\
  Machine.feedbackMessages after = [cannotDetect (Machine.kind before)].

(** The flag is set whenever the squat is at the bottom or on the way up. *)
Definition deepEnough (m : SquatStateMachine.t) : Prop :=
  SquatStateMachine.state m = SquatStateMachine.bottom \/
  SquatStateMachine.state m = SquatStateMachine.ascending ->
  SquatStateMachine.minDepthReached m = true.

(** How many phases the cycle of an exercise has. *)
Definition cycleLength (k : exerciseKind) : nat :=
  match k with
  | shoulderpress => 2
  | _ => 4
  end.

(** The place of the current phase in its cycle, the initial phase
    being 0. *)
Definition phaseIndex (sm : Machine.t) : nat :=
  match sm with
  | Machine.Squat m =>
      match SquatStateMachine.state m with
      | SquatStateMachine.standing => 0
      | SquatStateMachine.descending => 1
      | SquatStateMachine.bottom => 2
      | SquatStateMachine.ascending => 3
      end
  | Machine.BenchPress m =>
      match Fields.state m with
      | BenchPressStateMachine.extended => 0
      | BenchPressStateMachine.descending => 1
      | BenchPressStateMachine.bottom => 2
      | BenchPressStateMachine.ascending => 3
      end
  | Machine.Deadlift m =>
      match Fields.state m with
      | DeadliftStateMachine.standing => 0
      | DeadliftStateMachine.bending => 1
      | DeadliftStateMachine.bottom => 2
      | DeadliftStateMachine.lifting => 3
      end
  | Machine.PushUp m =>
      match Fields.state m with
      | PushUpStateMachine.up => 0
      | PushUpStateMachine.descending => 1
      | PushUpStateMachine.bottom => 2
      | PushUpStateMachine.ascending => 3
      end
  | Machine.PullUp m =>
      match Fields.state m with
      | PullUpStateMachine.hanging => 0
      | PullUpStateMachine.pulling => 1
      | PullUpStateMachine.top => 2
      | PullUpStateMachine.descending => 3
      end
  | Machine.ShoulderPress m =>
      match ShoulderPressStateMachine.state m with
      | ShoulderPressStateMachine.down => 0
      | ShoulderPressStateMachine.up => 1
      end
  | Machine.LateralRaise m =>
      match Fields.state m with
      | LateralRaiseStateMachine.down => 0
      | LateralRaiseStateMachine.raising => 1
      | LateralRaiseStateMachine.top => 2
      | LateralRaiseStateMachine.lowering => 3
      end
  | Machine.Lunge m =>
      match Fields.state m with
      | LungeStateMachine.standing => 0
      | LungeStateMachine.descending => 1
      | LungeStateMachine.bottom => 2
      | LungeStateMachine.ascending => 3
      end
  end%nat.

(** Phases passed since construction or the last reset, if every rep
    took a whole cycle: whole cycles counted, plus the place in the
    current one. *)
Definition progress (sm : Machine.t) : nat :=
  (cycleLength (Machine.kind sm) * Machine.repCount sm + phaseIndex sm)%nat.

(** A squat instance carries its depth flag whenever it is past the
    bottom; the other classes have nothing to carry. *)
Definition sound (sm : Machine.t) : Prop :=
  match sm with
  | Machine.Squat m => deepEnough m
  | _ => True
  end.

(** Two numbers that are the same number, whatever fraction writes it. *)
Definition num_same (a b : number) : Prop :=
  match a, b with
  | NaN, NaN | NegInf, NegInf | PosInf, PosInf => True
  | Fin p, Fin q => p == q
  | _, _ => False
  end.

(** The keypoint at an index is there and scores at least the
    confidence threshold. *)
Definition confident (keypoints : list WorkoutTracker.Keypoint) (i : nat) : bool :=
  match nth_error keypoints i with
  | Some kp => num_ge (WorkoutTracker.score kp) (Fin (3 # 10))
  | None => false
  end.

(** The frame loop over a list of passes of [detect], each with its
    clock reading and the poses found. *)
Definition detectAll
  (angleDegrees : point -> point -> point -> number)
  (verticalDegrees : point -> point -> number)
  (passes : list (nat * list (list WorkoutTracker.Keypoint)))
  (s : WorkoutTracker.Tracker) : WorkoutTracker.Tracker :=
  fold_left
    (fun s p => WorkoutTracker.detect angleDegrees verticalDegrees (fst p) (snd p) s)
    passes s.

(** The squat of the roster is sound, and the form was not graded
    'Poor'. *)
Definition neverPoor (s : WorkoutTracker.Tracker) : Prop :=
  WorkoutTracker.formQuality s <> "Poor" /\
  forall r, WorkoutTracker.stateMachines s = Some r ->
            deepEnough (WorkoutTracker.sm_squat r).

(** Every entry carries the display name of its exercise and a positive
    count, and no exercise has two entries. *)
Definition tidy (log : list WorkoutTracker.LogEntry) : Prop :=
  NoDup (map WorkoutTracker.exercise log) /\
  Forall (fun e => WorkoutTracker.log_name e
                   = WorkoutTracker.EXERCISES_name (WorkoutTracker.exercise e) /\
                   (0 < WorkoutTracker.reps e)%nat) log.

(** The reading of a frame passes the cutoff at which the movement
    turns: the bottom of a squat, press, lift, push-up or lunge, the top
    of a pull-up or lateral raise, the raised arms of a shoulder press. *)
Definition reachesTurn (k : exerciseKind) (a : AngleSet) : bool :=
  match k with
  | squat => below (knee a) 110
  | bench | pushup | pullup => below (elbow a) 90
  | deadlift => below (hip a) 90
  | lunge => below (knee a) 90
  | lateralraise => above (shoulder a) 90
  | shoulderpress => above (ShoulderPressStateMachine.avgElbow a) 160
  end.

(* ================================================================== *)
(** ** Comparisons *)
(* ================================================================== *)

Lemma Qltb_lt (p q : Q) : Qltb p q = true <-> p < q.
Proof.
  unfold Qltb. rewrite negb_true_iff, <- not_true_iff_false, Qle_bool_iff.
  split; intro H; [apply Qnot_le_lt | apply Qlt_not_le]; exact H.
Qed.

Lemma Qltb_ge (p q : Q) : Qltb p q = false <-> q <= p.
Proof.
  unfold Qltb. rewrite negb_false_iff. apply Qle_bool_iff.
Qed.

(** A reading below a threshold is below every larger one. *)
Lemma js_lt_weaken (v : value) (p q : Q) :
  p <= q -> js_lt v p = true -> js_lt v q = true.
Proof.
  unfold js_lt. intros Hpq.
  destruct (toNumber v) as [| |r|]; simpl; auto.
  rewrite !Qltb_lt. intro H. eapply Qlt_le_trans; eauto.
Qed.

(** A reading above a threshold is not below a smaller or equal one. *)
Lemma js_gt_not_lt (v : value) (p q : Q) :
  q <= p -> js_gt v p = true -> js_lt v q = false.
Proof.
  unfold js_gt, js_lt. intros Hpq.
  destruct (toNumber v) as [| |r|]; simpl; auto; try discriminate.
  rewrite Qltb_lt, Qltb_ge. intro H.
  apply Qlt_le_weak. eapply Qle_lt_trans; eauto.
Qed.

Lemma js_lt_not_gt (v : value) (p q : Q) :
  p <= q -> js_lt v p = true -> js_gt v q = false.
Proof.
  unfold js_gt, js_lt. intros Hpq.
  destruct (toNumber v) as [| |r|]; simpl; auto; try discriminate.
  rewrite Qltb_lt, Qltb_ge. intro H.
  apply Qlt_le_weak. eapply Qlt_le_trans; eauto.
Qed.

(** Anything above a non-negative threshold is truthy. *)
Lemma js_gt_truthy (v : value) (p : Q) :
  0 <= p -> js_gt v p = true -> truthy v = true.
Proof.
  unfold js_gt. intros Hp.
  destruct v as [| |[| |r|]]; simpl; auto.
  - rewrite Qltb_lt. intro H. exfalso.
    apply (Qlt_irrefl 0). eapply Qle_lt_trans; eauto.
  - rewrite Qltb_lt. intro H.
    rewrite negb_true_iff, <- not_true_iff_false, Qeq_bool_iff.
    intro E. rewrite E in H.
    apply (Qlt_irrefl 0). eapply Qle_lt_trans; eauto.
Qed.

Lemma nullish_falsy (v : value) : nullish v = true -> truthy v = false.
Proof. destruct v; simpl; congruence. Qed.

Lemma isZero_falsy (v : value) : isZero v = true -> truthy v = false.
Proof.
  destruct v as [| |[| |q|]]; simpl; try congruence.
  intros ->. reflexivity.
Qed.

(* ================================================================== *)
(** ** One call of [update] *)
(* ================================================================== *)

(** Split every test an unfolded [update] makes. *)
Ltac split_tests :=
  repeat match goal with
         | |- context [if ?b then _ else _] => destruct b eqn:?
         | |- context [match ?p with _ => _ end] => destruct p eqn:?
         end.

Ltac unfold_updates :=
  unfold Machine.update, SquatStateMachine.update, BenchPressStateMachine.update,
    DeadliftStateMachine.update, PushUpStateMachine.update,
    PullUpStateMachine.update, ShoulderPressStateMachine.update,
    LateralRaiseStateMachine.update, LungeStateMachine.update.

Lemma update_kind (f : frame) (sm : Machine.t) :
  Machine.kind (Machine.update f sm) = Machine.kind sm.
Proof. destruct sm; reflexivity. Qed.

Lemma run_kind (fs : list frame) (sm : Machine.t) :
  Machine.kind (Machine.run fs sm) = Machine.kind sm.
Proof.
  revert sm. induction fs as [|f fs IH]; intro sm; simpl; [reflexivity|].
  unfold Machine.run in IH. rewrite IH. apply update_kind.
Qed.

(** C3.  For every machine of the eight classes, in every state, and for
    every call of [update] whatever its angles and distances, [repCount]
    after the call is [repCount] before it or exactly one more. *)
Theorem update_repCount_same_or_succ (f : frame) (sm : Machine.t) :
  Machine.repCount (Machine.update f sm) = Machine.repCount sm \/
  Machine.repCount (Machine.update f sm) = S (Machine.repCount sm).
Proof.
  destruct sm as [m|m|m|m|m|m|m|m]; unfold_updates; simpl;
    split_tests; simpl; auto.
Qed.

Lemma update_falsy_angle (f : frame) (sm : Machine.t) :
  forallb (fun v => negb (truthy v)) (drivingAngles (Machine.kind sm) (angles f)) = true ->
  frozen sm (Machine.update f sm).
Proof.
  unfold frozen.
  destruct sm as [m|m|m|m|m|m|m|m]; simpl; rewrite ?andb_true_r;
    intro H; unfold_updates.
  all: rewrite H; simpl; repeat split; reflexivity.
Qed.

(** C2.  For each of the eight machines, in every state, a call of
    [update] whose driving angle is null or was never set (for the
    shoulder press: both elbow angles) keeps the phase and [repCount]
    (and the depth flag and [lastRepTime]) and leaves [feedbackMessages]
    holding exactly one entry, replacing whatever it held: the warning
    'Cannot detect legs' for the squat, 'Face camera - ensure arms
    visible' for the shoulder press, 'Cannot detect pose' for the
    others. *)
Theorem update_missing_angle_warns (f : frame) (sm : Machine.t) :
  forallb nullish (drivingAngles (Machine.kind sm) (angles f)) = true ->
  Machine.state (Machine.update f sm) = Machine.state sm /\
  Machine.repCount (Machine.update f sm) = Machine.repCount sm /\
  Machine.minDepthReached (Machine.update f sm) = Machine.minDepthReached sm /\
  Machine.lastRepTime (Machine.update f sm) = Machine.lastRepTime sm /\
  Machine.feedbackMessages (Machine.update f sm) =
    [ {| type := "warning";
         text := match Machine.kind sm with
                 | squat => "Cannot detect legs"
                 | shoulderpress => "Face camera - ensure arms visible"
                 | _ => "Cannot detect pose"
                 end |} ].
Proof.
  intro H.
  assert (F : frozen sm (Machine.update f sm)).
  { apply update_falsy_angle.
    rewrite forallb_forall in *. intros v Hv.
    rewrite (nullish_falsy v (H v Hv)). reflexivity. }
  destruct F as (_ & Hs & Hr & Hd & Ht & Hf).
  repeat split; try assumption.
  rewrite Hf. destruct sm; reflexivity.
Qed.

(** A squat instance in mid-descent, still holding a message, called with
    an empty angle object. *)
Lemma update_missing_angle_warns_witness :
  let sm := Machine.Squat
              (SquatStateMachine.push (success "Good rep!")
                 (SquatStateMachine.set_state SquatStateMachine.descending
                    SquatStateMachine.new)) in
  let f := {| now := 7; angles := noAngles; distances := None |} in
  Machine.state (Machine.update f sm) = "descending" /\
  Machine.repCount (Machine.update f sm) = 0%nat /\
  Machine.feedbackMessages (Machine.update f sm) = [warning "Cannot detect legs"].
Proof.
  intros sm f.
  destruct (update_missing_angle_warns f sm eq_refl) as (Hs & Hr & _ & _ & Hf).
  rewrite Hs, Hr, Hf. repeat split; reflexivity.
Defined.

(** C10.  For every machine, a call of [update] whose driving angle is
    present and equal to zero (for the shoulder press: both elbow angles)
    gives the very machine that a call with the angle missing gives: the
    phase, [repCount], depth flag and [lastRepTime] are kept and
    [feedbackMessages] holds only the missing-angle warning of the class.
    The guards test truthiness, and zero is falsy. *)
Theorem update_zero_angle_as_missing (f g : frame) (sm : Machine.t) :
  forallb isZero (drivingAngles (Machine.kind sm) (angles f)) = true ->
  forallb nullish (drivingAngles (Machine.kind sm) (angles g)) = true ->
  Machine.update f sm = Machine.update g sm /\
  Machine.state (Machine.update f sm) = Machine.state sm /\
  Machine.repCount (Machine.update f sm) = Machine.repCount sm /\
  Machine.feedbackMessages (Machine.update f sm) = [cannotDetect (Machine.kind sm)] /\
  type (cannotDetect (Machine.kind sm)) = "warning".
Proof.
  intros Hf Hg.
  assert (Ff : forallb (fun v => negb (truthy v))
                 (drivingAngles (Machine.kind sm) (angles f)) = true).
  { rewrite forallb_forall in *. intros v Hv.
    rewrite (isZero_falsy v (Hf v Hv)). reflexivity. }
  assert (Fg : forallb (fun v => negb (truthy v))
                 (drivingAngles (Machine.kind sm) (angles g)) = true).
  { rewrite forallb_forall in *. intros v Hv.
    rewrite (nullish_falsy v (Hg v Hv)). reflexivity. }
  destruct (update_falsy_angle f sm Ff) as (_ & Hs & Hr & _ & _ & Hm).
  repeat split; try assumption; [| destruct sm; reflexivity].
  clear Hs Hr Hm.
  destruct sm as [m|m|m|m|m|m|m|m]; simpl in Ff, Fg;
    rewrite ?andb_true_r in Ff, Fg; unfold_updates.
  all: rewrite Ff, Fg; reflexivity.
Qed.

(** A lateral raise at the top of the movement, read at 0 degrees. *)
Lemma update_zero_angle_as_missing_witness :
  let sm := Machine.LateralRaise
              (Fields.set_state LateralRaiseStateMachine.top
                 LateralRaiseStateMachine.new) in
  let f := {| now := 3; angles := WorkoutTracker.set_shoulder (deg 0) noAngles;
              distances := None |} in
  let g := {| now := 3; angles := WorkoutTracker.set_shoulder Null noAngles;
              distances := None |} in
  Machine.update f sm = Machine.update g sm /\
  Machine.state (Machine.update f sm) = "top" /\
  Machine.feedbackMessages (Machine.update f sm) = [warning "Cannot detect pose"].
Proof.
  intros sm f g.
  destruct (update_zero_angle_as_missing f g sm eq_refl eq_refl)
    as (He & Hs & _ & Hm & _).
  rewrite Hs, Hm. split; [exact He | split; reflexivity].
Defined.
(* ================================================================== *)
(** ** A full cycle *)
(* ================================================================== *)

Lemma Qle_by_bool (p q : Q) : Qle_bool p q = true -> p <= q.
Proof. apply Qle_bool_iff. Qed.

Lemma below_elim (v : value) (t : Q) :
  below v t = true -> truthy v = true /\ js_lt v t = true.
Proof. unfold below. apply andb_true_iff. Qed.

Lemma above_elim (v : value) (t : Q) :
  above v t = true -> truthy v = true /\ js_gt v t = true.
Proof. unfold above. apply andb_true_iff. Qed.

(** Take a threshold sequence apart into the facts about its readings. *)
Ltac open_sequence H :=
  repeat match type of H with
         | (_ && _)%bool = true =>
             let H' := fresh "G" in
             apply andb_true_iff in H; destruct H as [H H'];
             first [apply below_elim in H' | apply above_elim in H'];
             destruct H' as [? ?]
         end;
  first [apply below_elim in H | apply above_elim in H];
  destruct H as [? ?].

(** Evaluate the innermost pending [update] call, whose receiver is
    already a record, with the facts known about the readings. *)
Ltac settle_tests E :=
  cbn -[js_lt js_gt truthy Qplus Qminus] in E;
  repeat (progress
            (repeat match goal with
                    | H : ?b = true |- _ =>
                        match type of E with context [b] => rewrite H in E end
                    | H : ?b = false |- _ =>
                        match type of E with context [b] => rewrite H in E end
                    end;
             cbn -[js_lt js_gt truthy Qplus Qminus] in E)).

Ltac innermost upd :=
  match goal with
  | |- context [upd ?f ?m] =>
      lazymatch m with
      | context [upd _ _] => fail
      | _ =>
          let x := fresh "x" in
          let E := fresh "E" in
          remember (upd f m) as x eqn:E;
          unfold upd in E; settle_tests E; subst x
      end
  end.

Ltac rest_above f t :=
  assert (js_lt f t = false)
    by (eapply js_gt_not_lt; [|eassumption]; now apply Qle_by_bool).

Lemma squat_full_cycle (fs : list frame) (m : SquatStateMachine.t) :
  SquatStateMachine.state m = SquatStateMachine.standing ->
  thresholdSequence squat fs = true ->
  Machine.repCount (Machine.run fs (Machine.Squat m)) = S (SquatStateMachine.repCount m) /\
  Machine.state (Machine.run fs (Machine.Squat m)) = "standing".
Proof.
  intros Hst Hseq.
  destruct fs as [|f0 [|f1 [|f2 [|f3 [|f4 [|? ?]]]]]]; try discriminate Hseq.
  cbn [thresholdSequence map] in Hseq. open_sequence Hseq.
  rest_above (knee (angles f0)) 150.
  assert (js_lt (knee (angles f2)) 130 = true)
    by (eapply js_lt_weaken; [|eassumption]; now apply Qle_by_bool).
  destruct m as [st rc fb lt md]. cbn in Hst. subst st.
  unfold Machine.run; cbn [fold_left Machine.update].
  do 5 innermost SquatStateMachine.update. split; reflexivity.
Qed.

Lemma bench_full_cycle (fs : list frame) (m : BenchPressStateMachine.t) :
  Fields.state m = BenchPressStateMachine.extended ->
  thresholdSequence bench fs = true ->
  Machine.repCount (Machine.run fs (Machine.BenchPress m)) = S (Fields.repCount m) /\
  Machine.state (Machine.run fs (Machine.BenchPress m)) = "extended".
Proof.
  intros Hst Hseq.
  destruct fs as [|f0 [|f1 [|f2 [|f3 [|f4 [|? ?]]]]]]; try discriminate Hseq.
  cbn [thresholdSequence map] in Hseq. open_sequence Hseq.
  rest_above (elbow (angles f0)) 120.
  destruct m as [st rc fb]. cbn in Hst. subst st.
  unfold Machine.run; cbn [fold_left Machine.update].
  do 5 innermost BenchPressStateMachine.update. split; reflexivity.
Qed.

Lemma deadlift_full_cycle (fs : list frame) (m : DeadliftStateMachine.t) :
  Fields.state m = DeadliftStateMachine.standing ->
  thresholdSequence deadlift fs = true ->
  Machine.repCount (Machine.run fs (Machine.Deadlift m)) = S (Fields.repCount m) /\
  Machine.state (Machine.run fs (Machine.Deadlift m)) = "standing".
Proof.
  intros Hst Hseq.
  destruct fs as [|f0 [|f1 [|f2 [|f3 [|f4 [|? ?]]]]]]; try discriminate Hseq.
  cbn [thresholdSequence map] in Hseq. open_sequence Hseq.
  rest_above (hip (angles f0)) 120.
  destruct m as [st rc fb]. cbn in Hst. subst st.
  unfold Machine.run; cbn [fold_left Machine.update].
  do 5 innermost DeadliftStateMachine.update. split; reflexivity.
Qed.

Lemma pushup_full_cycle (fs : list frame) (m : PushUpStateMachine.t) :
  Fields.state m = PushUpStateMachine.up ->
  thresholdSequence pushup fs = true ->
  Machine.repCount (Machine.run fs (Machine.PushUp m)) = S (Fields.repCount m) /\
  Machine.state (Machine.run fs (Machine.PushUp m)) = "up".
Proof.
  intros Hst Hseq.
  destruct fs as [|f0 [|f1 [|f2 [|f3 [|f4 [|? ?]]]]]]; try discriminate Hseq.
  cbn [thresholdSequence map] in Hseq. open_sequence Hseq.
  rest_above (elbow (angles f0)) 120.
  destruct m as [st rc fb]. cbn in Hst. subst st.
  unfold Machine.run; cbn [fold_left Machine.update].
  do 5 innermost PushUpStateMachine.update. split; reflexivity.
Qed.

Lemma pullup_full_cycle (fs : list frame) (m : PullUpStateMachine.t) :
  Fields.state m = PullUpStateMachine.hanging ->
  thresholdSequence pullup fs = true ->
  Machine.repCount (Machine.run fs (Machine.PullUp m)) = S (Fields.repCount m) /\
  Machine.state (Machine.run fs (Machine.PullUp m)) = "hanging".
Proof.
  intros Hst Hseq.
  destruct fs as [|f0 [|f1 [|f2 [|f3 [|f4 [|? ?]]]]]]; try discriminate Hseq.
  cbn [thresholdSequence map] in Hseq. open_sequence Hseq.
  rest_above (elbow (angles f0)) 120.
  destruct m as [st rc fb]. cbn in Hst. subst st.
  unfold Machine.run; cbn [fold_left Machine.update].
  do 5 innermost PullUpStateMachine.update. split; reflexivity.
Qed.

Lemma lunge_full_cycle (fs : list frame) (m : LungeStateMachine.t) :
  Fields.state m = LungeStateMachine.standing ->
  thresholdSequence lunge fs = true ->
  Machine.repCount (Machine.run fs (Machine.Lunge m)) = S (Fields.repCount m) /\
  Machine.state (Machine.run fs (Machine.Lunge m)) = "standing".
Proof.
  intros Hst Hseq.
  destruct fs as [|f0 [|f1 [|f2 [|f3 [|f4 [|? ?]]]]]]; try discriminate Hseq.
  cbn [thresholdSequence map] in Hseq. open_sequence Hseq.
  rest_above (knee (angles f0)) 120.
  destruct m as [st rc fb]. cbn in Hst. subst st.
  unfold Machine.run; cbn [fold_left Machine.update].
  do 5 innermost LungeStateMachine.update. split; reflexivity.
Qed.

Lemma lateralraise_full_cycle (fs : list frame) (m : LateralRaiseStateMachine.t) :
  Fields.state m = LateralRaiseStateMachine.down ->
  thresholdSequence lateralraise fs = true ->
  Machine.repCount (Machine.run fs (Machine.LateralRaise m)) = S (Fields.repCount m) /\
  Machine.state (Machine.run fs (Machine.LateralRaise m)) = "down".
Proof.
  intros Hst Hseq.
  destruct fs as [|f0 [|f1 [|f2 [|f3 [|f4 [|? ?]]]]]]; try discriminate Hseq.
  cbn [thresholdSequence map] in Hseq. open_sequence Hseq.
  assert (js_gt (shoulder (angles f0)) 60 = false)
    by (eapply js_lt_not_gt; [|eassumption]; now apply Qle_by_bool).
  destruct m as [st rc fb]. cbn in Hst. subst st.
  unfold Machine.run; cbn [fold_left Machine.update].
  do 5 innermost LateralRaiseStateMachine.update. split; reflexivity.
Qed.

(** A truthy [avgElbow] means at least one elbow angle passed the guard. *)
Lemma avgElbow_guard (a : AngleSet) :
  truthy (ShoulderPressStateMachine.avgElbow a) = true ->
  negb (truthy (leftElbow a)) && negb (truthy (rightElbow a)) = false.
Proof.
  unfold ShoulderPressStateMachine.avgElbow, js_or.
  destruct (truthy (leftElbow a)) eqn:L; simpl; [reflexivity|].
  intros ->. reflexivity.
Qed.

(** One call of the shoulder press [update] past its guard: the phase
    moves on the mean elbow angle alone. *)
Lemma shoulderpress_step (f : frame) (m : ShoulderPressStateMachine.t) :
  truthy (ShoulderPressStateMachine.avgElbow (angles f)) = true ->
  let avg := ShoulderPressStateMachine.avgElbow (angles f) in
  let m' := ShoulderPressStateMachine.update f m in
  match ShoulderPressStateMachine.state m with
  | ShoulderPressStateMachine.down =>
      ShoulderPressStateMachine.repCount m' = ShoulderPressStateMachine.repCount m /\
      ShoulderPressStateMachine.state m' =
        if js_gt avg 160 then ShoulderPressStateMachine.up
        else ShoulderPressStateMachine.down
  | ShoulderPressStateMachine.up =>
      if js_lt avg 100 then
        ShoulderPressStateMachine.repCount m' = S (ShoulderPressStateMachine.repCount m) /\
        ShoulderPressStateMachine.state m' = ShoulderPressStateMachine.down
      else
        ShoulderPressStateMachine.repCount m' = ShoulderPressStateMachine.repCount m /\
        ShoulderPressStateMachine.state m' = ShoulderPressStateMachine.up
  end.
Proof.
  intros Ht avg m'. subst m'. unfold ShoulderPressStateMachine.update.
  rewrite (avgElbow_guard _ Ht). fold avg.
  destruct m as [st rc fb lt].
  cbn -[js_lt js_gt truthy ShoulderPressStateMachine.avgElbow
        ShoulderPressStateMachine.unbalanced].
  destruct (truthy (leftElbow (angles f)) && truthy (rightElbow (angles f)));
    [destruct (ShoulderPressStateMachine.unbalanced (angles f))|];
    destruct st; cbn -[js_lt js_gt avg];
    try destruct (js_gt avg 160); try destruct (js_lt avg 100); split; reflexivity.
Qed.

Lemma shoulderpress_full_cycle (fs : list frame) (m : ShoulderPressStateMachine.t) :
  ShoulderPressStateMachine.state m = ShoulderPressStateMachine.down ->
  thresholdSequence shoulderpress fs = true ->
  Machine.repCount (Machine.run fs (Machine.ShoulderPress m)) =
    S (ShoulderPressStateMachine.repCount m) /\
  Machine.state (Machine.run fs (Machine.ShoulderPress m)) = "down".
Proof.
  intros Hst Hseq.
  destruct fs as [|f0 [|f1 [|f2 [|? ?]]]]; try discriminate Hseq.
  cbn [thresholdSequence map] in Hseq. open_sequence Hseq.
  assert (js_gt (ShoulderPressStateMachine.avgElbow (angles f0)) 160 = false)
    by (eapply js_lt_not_gt; [|eassumption]; now apply Qle_by_bool).
  unfold Machine.run; cbn [fold_left Machine.update Machine.repCount Machine.state].
  pose proof (shoulderpress_step f0 m) as S0.
  set (m0 := ShoulderPressStateMachine.update f0 m) in *.
  pose proof (shoulderpress_step f1 m0) as S1.
  set (m1 := ShoulderPressStateMachine.update f1 m0) in *.
  pose proof (shoulderpress_step f2 m1) as S2.
  set (m2 := ShoulderPressStateMachine.update f2 m1) in *.
  cbv zeta in S0, S1, S2.
  rewrite Hst in S0. destruct S0 as [R0 P0]; [assumption|].
  match type of P0 with context [js_gt ?v 160] =>
    replace (js_gt v 160) with false in P0 end.
  rewrite P0 in S1. destruct S1 as [R1 P1]; [assumption|].
  match type of P1 with context [js_gt ?v 160] =>
    replace (js_gt v 160) with true in P1 end.
  rewrite P1 in S2.
  match type of S2 with context [js_lt ?v 100] =>
    replace (js_lt v 100) with true in S2 end.
  destruct S2 as [R2 P2]; [assumption|].
  rewrite R2, R1, R0, P2. split; reflexivity.
Qed.

(** The mean the shoulder press reads is the double the code computes:
    the sum of elbows at 160 + 2^-45 and at 160 rounds to 320, so their
    mean is 160, which is not above the cutoff.  A press that rises to
    these readings is no threshold sequence, and a new machine stays
    'down' on it without counting. *)
Remark shoulderpress_mean_is_rounded :
  let elbows (l r : Q) :=
    {| now := 1;
       angles := WorkoutTracker.set_rightElbow (Num (Fin r))
                   (WorkoutTracker.set_leftElbow (Num (Fin l)) noAngles);
       distances := None |} in
  let high := elbows (160 + (1 # 2 ^ 45)) 160 in
  let fs := [elbows 99 99; high; elbows 99 99] in
  ShoulderPressStateMachine.avgElbow (angles high) = Num (Fin 160) /\
  thresholdSequence shoulderpress fs = false /\
  Machine.repCount (Machine.run fs (Machine.new shoulderpress)) = 0%nat /\
  Machine.state (Machine.run fs (Machine.new shoulderpress)) = "down".
Proof.
  cbv zeta.
  repeat match goal with |- _ /\ _ => split end; vm_compute; reflexivity.
Qed.

(** C1, as the code has it.  For each of the eight machines, in its
    initial phase with whatever count, a full threshold sequence (a
    detected reading at rest, then one detected reading past each
    transition cutoff in cycle order; for the squat 170, 140, 100, 130,
    170, the fourth above 110 + 15) leaves [repCount] exactly one higher
    and the phase back at the initial one. *)
Theorem full_threshold_sequence_counts_one (fs : list frame) (sm : Machine.t) :
  Machine.state sm = Machine.state (Machine.new (Machine.kind sm)) ->
  thresholdSequence (Machine.kind sm) fs = true ->
  Machine.repCount (Machine.run fs sm) = S (Machine.repCount sm) /\
  Machine.state (Machine.run fs sm) = Machine.state (Machine.new (Machine.kind sm)).
Proof.
  destruct sm as [m|m|m|m|m|m|m|m]; cbn [Machine.kind Machine.new Machine.state];
    intros Hst Hseq.
  - apply squat_full_cycle; [|exact Hseq].
    destruct (SquatStateMachine.state m); (reflexivity || discriminate Hst).
  - apply bench_full_cycle; [|exact Hseq].
    destruct (Fields.state m); (reflexivity || discriminate Hst).
  - apply deadlift_full_cycle; [|exact Hseq].
    destruct (Fields.state m); (reflexivity || discriminate Hst).
  - apply pushup_full_cycle; [|exact Hseq].
    destruct (Fields.state m); (reflexivity || discriminate Hst).
  - apply pullup_full_cycle; [|exact Hseq].
    destruct (Fields.state m); (reflexivity || discriminate Hst).
  - apply shoulderpress_full_cycle; [|exact Hseq].
    destruct (ShoulderPressStateMachine.state m); (reflexivity || discriminate Hst).
  - apply lateralraise_full_cycle; [|exact Hseq].
    destruct (Fields.state m); (reflexivity || discriminate Hst).
  - apply lunge_full_cycle; [|exact Hseq].
    destruct (Fields.state m); (reflexivity || discriminate Hst).
Qed.

(** The squat sequence 170, 140, 100, 130, 170 on a new machine. *)
Lemma full_threshold_sequence_counts_one_witness :
  let fs := map kneeFrame [170; 140; 100; 130; 170]%Z in
  thresholdSequence squat fs = true /\
  Machine.repCount (Machine.run fs (Machine.new squat)) = 1%nat /\
  Machine.state (Machine.run fs (Machine.new squat)) = "standing".
Proof.
  intro fs. split; [reflexivity|].
  exact (full_threshold_sequence_counts_one fs (Machine.new squat) eq_refl eq_refl).
Defined.

(** C1, as written, fails on the squat's own example: after the calls
    with knee 170, 140, 100, 115, 170 the machine is in 'ascending' and
    has counted nothing, because 115 is not above 110 + 15. *)
Lemma squat_170_140_100_115_170_counts_nothing :
  let sm := Machine.run (map kneeFrame [170; 140; 100; 115; 170]%Z) (Machine.new squat) in
  Machine.state sm = "ascending" /\
  Machine.repCount sm = 0%nat /\
  ~ (Machine.repCount sm = S (Machine.repCount (Machine.new squat)) /\
     Machine.state sm = Machine.state (Machine.new squat)).
Proof.
  cbv zeta. split; [reflexivity|]. split; [reflexivity|].
  intros [H _]. vm_compute in H. discriminate H.
Qed.

(* ================================================================== *)
(** ** The squat depth flag *)
(* ================================================================== *)

Lemma squat_update_deepEnough (f : frame) (m : SquatStateMachine.t) :
  deepEnough m -> deepEnough (SquatStateMachine.update f m).
Proof.
  unfold deepEnough, SquatStateMachine.update.
  destruct m as [st rc fb lt md]. cbn -[js_lt js_gt truthy Qplus].
  intro Inv.
  destruct (truthy (knee (angles f))); cbn -[js_lt js_gt Qplus]; [|exact Inv].
  destruct st; cbn -[js_lt js_gt Qplus].
  - destruct (js_lt (knee (angles f)) 150); cbn; intros [H|H]; discriminate H.
  - destruct (js_lt (knee (angles f)) 130) eqn:D;
      destruct (js_lt (knee (angles f)) 110) eqn:B; cbn;
      intros [H|H]; try discriminate H; try reflexivity.
    apply (js_lt_weaken _ 110 130) in B; [congruence | now apply Qle_by_bool].
  - destruct (js_gt (knee (angles f)) (110 + 15)); cbn; intros _; apply Inv; auto.
  - destruct (js_gt (knee (angles f)) 150); cbn; [|exact Inv].
    destruct md; cbn; intros [H|H]; discriminate H.
Qed.

Lemma squatReachable_deepEnough (m : SquatStateMachine.t) :
  squatReachable m -> deepEnough m.
Proof.
  induction 1 as [|f m _ IH|m _ _].
  - intros [H|H]; discriminate H.
  - apply squat_update_deepEnough, IH.
  - intros [H|H]; discriminate H.
Qed.

(** C4.  In every squat instance reachable from the constructed one by
    calls of [update] (and [reset]), phase 'bottom' or 'ascending' comes
    with [minDepthReached = true]: the call that enters 'bottom' has
    knee < 110 and so has already set the flag on its knee < 130 test.
    Hence no call ever pushes the 'Too shallow' error, and every call
    that takes 'ascending' back to 'standing' adds one to [repCount]. *)
Theorem squat_too_shallow_unreachable (m : SquatStateMachine.t) :
  squatReachable m ->
  (SquatStateMachine.state m = SquatStateMachine.bottom \/
   SquatStateMachine.state m = SquatStateMachine.ascending ->
   SquatStateMachine.minDepthReached m = true) /\
  (forall f : frame,
     ~ In (error "Too shallow")
          (SquatStateMachine.feedbackMessages (SquatStateMachine.update f m))) /\
  (forall f : frame,
     SquatStateMachine.state m = SquatStateMachine.ascending ->
     SquatStateMachine.state (SquatStateMachine.update f m) = SquatStateMachine.standing ->
     SquatStateMachine.repCount (SquatStateMachine.update f m) =
       S (SquatStateMachine.repCount m)).
Proof.
  intro R. pose proof (squatReachable_deepEnough m R) as Inv.
  split; [exact Inv|]. unfold deepEnough in Inv.
  destruct m as [st rc fb lt md]. cbn in Inv.
  split; intro f; unfold SquatStateMachine.update; cbn -[js_lt js_gt truthy Qplus].
  - destruct (truthy (knee (angles f))); cbn -[js_lt js_gt Qplus].
    + destruct st; cbn -[js_lt js_gt Qplus];
        try (rewrite Inv by (right; reflexivity));
        split_tests; cbn; try tauto; intros [H|[]]; discriminate H.
    + intros [H|[]]; discriminate H.
  - intros ->. rewrite Inv by auto.
    destruct (truthy (knee (angles f))); cbn -[js_lt js_gt Qplus];
      [|discriminate].
    destruct (js_gt (knee (angles f)) 150); cbn; [reflexivity | discriminate].
Qed.

(** The squat after knee 140, 100, 130: on the way up. *)
Lemma squat_too_shallow_unreachable_witness :
  let m := SquatStateMachine.update (kneeFrame 130)
             (SquatStateMachine.update (kneeFrame 100)
                (SquatStateMachine.update (kneeFrame 140) SquatStateMachine.new)) in
  SquatStateMachine.state m = SquatStateMachine.ascending /\
  SquatStateMachine.minDepthReached m = true /\
  SquatStateMachine.repCount (SquatStateMachine.update (kneeFrame 170) m) = 1%nat.
Proof.
  intro m.
  assert (R : squatReachable m) by (repeat constructor).
  destruct (squat_too_shallow_unreachable m R) as (Hd & _ & Hc).
  split; [reflexivity|]. split; [apply Hd; right; reflexivity|].
  exact (Hc (kneeFrame 170) eq_refl eq_refl).
Defined.

(** C5, as written, fails: after the calls with knee 170, 140, 125, 170
    the squat is not back in 'standing' with a 'Too shallow' entry. *)
Lemma squat_170_140_125_170_not_rejected :
  let sm := Machine.run (map kneeFrame [170; 140; 125; 170]%Z) (Machine.new squat) in
  ~ (Machine.state sm = "standing" /\
     Machine.repCount sm = 0%nat /\
     In (error "Too shallow") (Machine.feedbackMessages sm)).
Proof.
  cbv zeta. intros (H & _ & _). vm_compute in H. discriminate H.
Qed.

(** C5, as the code has it.  From the constructed squat, the calls with
    knee 170, 140, 125, 170 complete no cycle: the phase goes 'standing',
    'descending', 'descending', 'descending'; 125 is below 130 and sets
    the depth flag but is not below 110, so 'bottom' is never entered;
    [repCount] stays 0 and [feedbackMessages] is empty after every call. *)
Theorem squat_170_140_125_170_stays_descending :
  map (fun sm => (Machine.state sm, Machine.repCount sm,
                  Machine.minDepthReached sm, Machine.feedbackMessages sm))
      (Machine.trace (map kneeFrame [170; 140; 125; 170]%Z) (Machine.new squat))
  = [ ("standing", 0%nat, Some false, []);
      ("descending", 0%nat, Some false, []);
      ("descending", 0%nat, Some true, []);
      ("descending", 0%nat, Some true, []) ].
Proof. vm_compute. reflexivity. Qed.

(* ================================================================== *)
(** ** Bench press hysteresis *)
(* ================================================================== *)

(** At the bottom, a reading at or under 100 degrees changes nothing but
    the (emptied) feedback list. *)
Lemma bench_bottom_holds (f : frame) (m : BenchPressStateMachine.t) :
  Fields.state m = BenchPressStateMachine.bottom ->
  js_gt (elbow (angles f)) (90 + 10) = false ->
  Fields.state (BenchPressStateMachine.update f m) = BenchPressStateMachine.bottom /\
  Fields.repCount (BenchPressStateMachine.update f m) = Fields.repCount m.
Proof.
  intros Hst Hle. destruct m as [st rc fb]. cbn in Hst. subst st.
  unfold BenchPressStateMachine.update. cbn -[js_gt truthy Qplus].
  destruct (truthy (elbow (angles f))); cbn -[js_gt Qplus];
    [rewrite Hle|]; split; reflexivity.
Qed.

(** C9.  A bench press machine in phase 'bottom', called any number of
    times with elbow angles of 95 and 85 degrees in any order, is in
    phase 'bottom' with its [repCount] unchanged after every one of the
    calls: neither reading exceeds 90 + 10, so 'ascending' is never
    entered. *)
Theorem bench_bottom_hysteresis (fs : list frame) (m : BenchPressStateMachine.t) :
  Fields.state m = BenchPressStateMachine.bottom ->
  Forall (fun f => elbow (angles f) = deg 95 \/ elbow (angles f) = deg 85) fs ->
  Forall (fun sm => Machine.state sm = "bottom" /\
                    Machine.repCount sm = Fields.repCount m)
         (Machine.trace fs (Machine.BenchPress m)).
Proof.
  intros Hst Hfs. revert m Hst.
  induction Hfs as [|f fs Hf _ IH]; intros m Hst; cbn [Machine.trace Machine.update].
  - constructor.
  - assert (Hle : js_gt (elbow (angles f)) (90 + 10) = false)
      by (destruct Hf as [-> | ->]; reflexivity).
    destruct (bench_bottom_holds f m Hst Hle) as [Hs Hr].
    constructor.
    + cbn [Machine.state Machine.repCount]. rewrite Hs, Hr. split; reflexivity.
    + rewrite <- Hr. apply IH. exact Hs.
Qed.

(** Elbow 95, 85, 95, 85 on a machine just arrived at the bottom. *)
Lemma bench_bottom_hysteresis_witness :
  let m := Fields.set_state BenchPressStateMachine.bottom BenchPressStateMachine.new in
  let fs := map elbowFrame [95; 85; 95; 85]%Z in
  Forall (fun sm => Machine.state sm = "bottom" /\ Machine.repCount sm = 0%nat)
         (Machine.trace fs (Machine.BenchPress m)).
Proof.
  intros m fs.
  apply (bench_bottom_hysteresis fs m eq_refl).
  repeat constructor; (left; reflexivity) || (right; reflexivity).
Defined.

(* ================================================================== *)
(** ** [reset] *)
(* ================================================================== *)

(** [update] reads nothing of a machine but what [observe] shows. *)
Lemma update_observe (f : frame) (a b : Machine.t) :
  observe a = observe b ->
  observe (Machine.update f a) = observe (Machine.update f b) /\
  Machine.feedbackMessages (Machine.update f a) =
    Machine.feedbackMessages (Machine.update f b).
Proof.
  unfold observe.
  destruct a as [a|a|a|a|a|a|a|a], b as [b|b|b|b|b|b|b|b];
    intro H; try discriminate H; destruct a, b.
  all: repeat match goal with
              | p : SquatStateMachine.phase |- _ => destruct p
              | p : BenchPressStateMachine.phase |- _ => destruct p
              | p : DeadliftStateMachine.phase |- _ => destruct p
              | p : PushUpStateMachine.phase |- _ => destruct p
              | p : PullUpStateMachine.phase |- _ => destruct p
              | p : ShoulderPressStateMachine.phase |- _ => destruct p
              | p : LateralRaiseStateMachine.phase |- _ => destruct p
              | p : LungeStateMachine.phase |- _ => destruct p
              end;
    cbn in H; try discriminate H; injection H; intros; subst.
  all: unfold_updates;
    repeat (cbn -[js_lt js_gt truthy Qplus Qminus
                  ShoulderPressStateMachine.avgElbow
                  ShoulderPressStateMachine.unbalanced];
            match goal with
            | |- context [if ?t then _ else _] =>
                lazymatch type of t with bool => destruct t end
            end);
    split; reflexivity.
Qed.

Lemma run_observe (fs : list frame) (a b : Machine.t) :
  observe a = observe b ->
  observe (Machine.run fs a) = observe (Machine.run fs b) /\
  (fs <> [] ->
   Machine.feedbackMessages (Machine.run fs a) =
     Machine.feedbackMessages (Machine.run fs b)).
Proof.
  revert a b. induction fs as [|f fs IH] using rev_ind; intros a b H.
  - split; [exact H | congruence].
  - unfold Machine.run. rewrite !fold_left_app. cbn [fold_left].
    destruct (IH a b H) as [Ho _].
    destruct (update_observe f _ _ Ho) as [Ho' Hf'].
    split; [exact Ho' | intros _; exact Hf'].
Qed.

Lemma reset_observe (sm : Machine.t) :
  observe (Machine.reset sm) = observe (Machine.new (Machine.kind sm)).
Proof. destruct sm; reflexivity. Qed.

(** C8.  For every machine and every list of [update] calls made on it,
    [reset()] afterwards gives the phase, [repCount] and (squat) depth
    flag of a newly constructed machine of the same class: the initial
    phase, 0, and the flag cleared.  A second [reset()] changes nothing,
    and under any later calls the reset machine and a new one stay equal
    in phase, count and flag and produce the same feedback. *)
Theorem reset_restores_new (fs : list frame) (sm : Machine.t) :
  let r := Machine.reset (Machine.run fs sm) in
  let fresh := Machine.new (Machine.kind sm) in
  Machine.kind r = Machine.kind sm /\
  Machine.state r = Machine.state fresh /\
  Machine.repCount r = 0%nat /\
  Machine.repCount fresh = 0%nat /\
  Machine.minDepthReached r = Machine.minDepthReached fresh /\
  Machine.minDepthReached r =
    (match Machine.kind sm with squat => Some false | _ => None end) /\
  Machine.reset r = r /\
  forall gs : list frame,
    observe (Machine.run gs r) = observe (Machine.run gs fresh) /\
    (gs <> [] ->
     Machine.feedbackMessages (Machine.run gs r) =
       Machine.feedbackMessages (Machine.run gs fresh)).
Proof.
  intros r fresh.
  assert (K : Machine.kind (Machine.run fs sm) = Machine.kind sm) by apply run_kind.
  assert (O : observe r = observe fresh).
  { subst r fresh. rewrite <- K. apply reset_observe. }
  pose proof O as O'. unfold observe in O'.
  injection O' as Hk Hs Hn Hd.
  repeat split; try assumption.
  - rewrite Hk. subst fresh. destruct (Machine.kind sm); reflexivity.
  - rewrite Hn. subst fresh. destruct (Machine.kind sm); reflexivity.
  - subst fresh. destruct (Machine.kind sm); reflexivity.
  - rewrite Hd. subst fresh. destruct (Machine.kind sm); reflexivity.
  - subst r. destruct (Machine.run fs sm); reflexivity.
  - apply run_observe, O.
  - apply run_observe, O.
Qed.

(** [reset] writes [repCount], [state] and the squat flag only: a message
    and a rep time left by the last call stay. *)
Remark reset_keeps_feedback_and_time :
  let sm := Machine.run (map kneeFrame [140; 100; 130; 170]%Z) (Machine.new squat) in
  Machine.feedbackMessages (Machine.reset sm) = [success "Good rep!"] /\
  Machine.lastRepTime (Machine.reset sm) = Some 1%nat /\
  Machine.feedbackMessages (Machine.new squat) = [] /\
  Machine.lastRepTime (Machine.new squat) = Some 0%nat.
Proof. vm_compute. repeat split; reflexivity. Qed.

(* ================================================================== *)
(** ** From keypoints to angles *)
(* ================================================================== *)

Section KeypointLookup.

Variable angleDegrees : point -> point -> point -> number.
Variable verticalDegrees : point -> point -> number.

(** A keypoint name finds nothing in the keypoint array. *)
Lemma getPoint_by_name (keypoints : list WorkoutTracker.Keypoint) (s : string) :
  WorkoutTracker.getPoint keypoints (WorkoutTracker.Name s) = None.
Proof. reflexivity. Qed.

(** On a pose whose left side is under the confidence threshold, the
    exercises that look joints up by index fall back to the right side
    and get their driving angle. *)
Lemma right_side_fallback (k : exerciseKind) :
  In k [squat; pullup; shoulderpress; lateralraise; lunge] ->
  existsb present
    (drivingAngles k (fst (WorkoutTracker.computeAngles angleDegrees verticalDegrees k (sidedPose (1 # 10) (9 # 10))))) = true.
Proof.
  intros [<-|[<-|[<-|[<-|[<-|[]]]]]]; reflexivity.
Qed.

(** C6, where the code departs from it.  Bench press, push-up and
    deadlift look their joints up by name (['left_shoulder'], ...) in
    the keypoint array, where the other exercises use the index; a name
    finds nothing, so for every pose their angle object stays empty and
    the driving angle is missing, also on a pose whose right side (or
    every joint) is above the confidence threshold. *)
Theorem named_lookup_yields_no_angles (keypoints : list WorkoutTracker.Keypoint) :
  WorkoutTracker.computeAngles angleDegrees verticalDegrees bench keypoints = (noAngles, noDistances) /\
  WorkoutTracker.computeAngles angleDegrees verticalDegrees pushup keypoints = (noAngles, noDistances) /\
  WorkoutTracker.computeAngles angleDegrees verticalDegrees deadlift keypoints = (noAngles, noDistances) /\
  map (fun k => existsb present
                  (drivingAngles k (fst (WorkoutTracker.computeAngles angleDegrees verticalDegrees k (sidedPose (1 # 10) (9 # 10))))))
      [squat; bench; deadlift; pushup; pullup; shoulderpress; lateralraise; lunge]
  = [true; false; false; false; true; true; true; true] /\
  existsb present
    (drivingAngles bench (fst (WorkoutTracker.computeAngles angleDegrees verticalDegrees bench (sidedPose (9 # 10) (9 # 10))))) = false.
Proof. repeat split; reflexivity. Qed.

End KeypointLookup.

(* ================================================================== *)
(** ** Switching exercise and logging reps *)
(* ================================================================== *)

Lemma exerciseKind_eqb_eq (a b : exerciseKind) :
  exerciseKind_eqb a b = true <-> a = b.
Proof. destruct a, b; simpl; split; congruence. Qed.

Lemma exerciseKind_eqb_neq (a b : exerciseKind) :
  exerciseKind_eqb a b = false <-> a <> b.
Proof. destruct a, b; simpl; split; congruence. Qed.

(** After the in-place addition the entry of the exercise holds the sum. *)
Lemma loggedReps_addReps (k : exerciseKind) (n : nat) (log : list WorkoutTracker.LogEntry) :
  WorkoutTracker.findLog k log <> None ->
  loggedReps k (WorkoutTracker.addReps k n log) = (loggedReps k log + n)%nat.
Proof.
  unfold loggedReps, WorkoutTracker.findLog.
  induction log as [|e log IH]; cbn [find WorkoutTracker.addReps]; [congruence|].
  destruct (exerciseKind_eqb (WorkoutTracker.exercise e) k) eqn:E.
  - intros _. cbn [find WorkoutTracker.exercise]. rewrite E. reflexivity.
  - intro H. cbn [find]. rewrite E. apply IH, H.
Qed.

Lemma loggedReps_addReps_other (k k' : exerciseKind) (n : nat)
  (log : list WorkoutTracker.LogEntry) :
  k' <> k ->
  loggedReps k' (WorkoutTracker.addReps k n log) = loggedReps k' log.
Proof.
  intro Hne. unfold loggedReps, WorkoutTracker.findLog.
  induction log as [|e log IH]; cbn [find WorkoutTracker.addReps]; [reflexivity|].
  destruct (exerciseKind_eqb (WorkoutTracker.exercise e) k) eqn:E.
  - apply exerciseKind_eqb_eq in E. cbn [find WorkoutTracker.exercise].
    rewrite E. apply not_eq_sym, exerciseKind_eqb_neq in Hne. rewrite Hne.
    reflexivity.
  - cbn [find].
    destruct (exerciseKind_eqb (WorkoutTracker.exercise e) k'); [reflexivity | exact IH].
Qed.

Lemma find_app_none {A : Type} (p : A -> bool) (l : list A) (x : A) :
  find p l = None -> find p (l ++ [x]) = if p x then Some x else None.
Proof.
  induction l as [|a l IH]; cbn [find app]; [reflexivity|].
  destruct (p a); [discriminate | exact IH].
Qed.

Lemma find_app_some {A : Type} (p : A -> bool) (l : list A) (x : A) :
  find p l <> None -> find p (l ++ [x]) = find p l.
Proof.
  induction l as [|a l IH]; cbn [find app]; [congruence|].
  destruct (p a); [reflexivity | exact IH].
Qed.

(** [logReps] adds the count to what the log held for the exercise... *)
Lemma loggedReps_logReps (k : exerciseKind) (n : nat) (log : list WorkoutTracker.LogEntry) :
  loggedReps k (WorkoutTracker.logReps k n log) = (loggedReps k log + n)%nat.
Proof.
  unfold WorkoutTracker.logReps.
  destruct (WorkoutTracker.findLog k log) eqn:F.
  - apply loggedReps_addReps. congruence.
  - unfold loggedReps. rewrite F. unfold WorkoutTracker.findLog in *.
    rewrite (find_app_none _ _ _ F). cbn [WorkoutTracker.exercise].
    replace (exerciseKind_eqb k k) with true
      by (symmetry; apply exerciseKind_eqb_eq; reflexivity).
    reflexivity.
Qed.

(** ... and leaves the other exercises' entries alone. *)
Lemma loggedReps_logReps_other (k k' : exerciseKind) (n : nat)
  (log : list WorkoutTracker.LogEntry) :
  k' <> k ->
  loggedReps k' (WorkoutTracker.logReps k n log) = loggedReps k' log.
Proof.
  intro Hne. unfold WorkoutTracker.logReps.
  destruct (WorkoutTracker.findLog k log) eqn:F.
  - apply loggedReps_addReps_other, Hne.
  - unfold loggedReps, WorkoutTracker.findLog.
    destruct (find (fun e => exerciseKind_eqb (WorkoutTracker.exercise e) k') log) eqn:F'.
    + rewrite find_app_some by congruence. rewrite F'. reflexivity.
    + rewrite (find_app_none _ _ _ F'). cbn [WorkoutTracker.exercise].
      apply not_eq_sym, exerciseKind_eqb_neq in Hne. rewrite Hne. reflexivity.
Qed.

(** What the two handlers do to the log.  [handleExerciseChange] never
    writes to the log or to the machines.  While counting is off it makes the chosen
    exercise and its machine the active ones and sets the displayed count
    to 0; while counting is on it changes nothing, and speaks 'Please
    stop counting before changing exercise.' when text-to-speech is
    enabled.  The displayed count reaches the log in [handleStopCounting]:
    when counting is on and the count is positive it is added to what the
    log held for the current exercise (a new entry when there was none),
    other entries untouched; otherwise the log is left as it was. *)
Lemma exercise_change_and_rep_logging (k : exerciseKind) (s : WorkoutTracker.Tracker) :
  let s' := WorkoutTracker.handleExerciseChange k s in
  let p := WorkoutTracker.handleStopCounting s in
  WorkoutTracker.workoutLog s' = WorkoutTracker.workoutLog s /\
  WorkoutTracker.stateMachines s' = WorkoutTracker.stateMachines s /\
  WorkoutTracker.isCounting s' = WorkoutTracker.isCounting s /\
  (if WorkoutTracker.isCounting s then
     WorkoutTracker.currentExercise s' = WorkoutTracker.currentExercise s /\
     WorkoutTracker.stateMachine s' = WorkoutTracker.stateMachine s /\
     WorkoutTracker.repCount s' = WorkoutTracker.repCount s /\
     WorkoutTracker.spoken s' =
       (if WorkoutTracker.ttsEnabled s
        then (WorkoutTracker.spoken s
              ++ ["Please stop counting before changing exercise."])%list
        else WorkoutTracker.spoken s)
   else
     WorkoutTracker.currentExercise s' = k /\
     WorkoutTracker.active s' =
       option_map (fun r => WorkoutTracker.get r k) (WorkoutTracker.stateMachines s) /\
     WorkoutTracker.repCount s' = 0%nat /\
     WorkoutTracker.spoken s' = WorkoutTracker.spoken s) /\
  WorkoutTracker.isCounting p = false /\
  (if WorkoutTracker.isCounting s && (0 <? WorkoutTracker.repCount s)%nat then
     loggedReps (WorkoutTracker.currentExercise s) (WorkoutTracker.workoutLog p) =
       (loggedReps (WorkoutTracker.currentExercise s) (WorkoutTracker.workoutLog s)
        + WorkoutTracker.repCount s)%nat /\
     forall k' : exerciseKind,
       k' <> WorkoutTracker.currentExercise s ->
       loggedReps k' (WorkoutTracker.workoutLog p) =
         loggedReps k' (WorkoutTracker.workoutLog s)
   else
     WorkoutTracker.workoutLog p = WorkoutTracker.workoutLog s).
Proof.
  destruct s as [ic ce rc cs fq wl sms sm tts sp].
  unfold WorkoutTracker.handleExerciseChange, WorkoutTracker.handleStopCounting,
    WorkoutTracker.speakFeedback, WorkoutTracker.active.
  cbn -[Nat.ltb loggedReps WorkoutTracker.logReps].
  destruct ic; cbn -[Nat.ltb loggedReps WorkoutTracker.logReps].
  - destruct tts, (0 <? rc)%nat; cbn -[loggedReps WorkoutTracker.logReps];
      repeat split; auto using loggedReps_logReps, loggedReps_logReps_other.
  - destruct tts, sms; cbn; repeat split; reflexivity.
Qed.

(** C7, where the code departs from it.  A session counts one squat; the
    counting is then paused by voice ('pause counting') and the exercise
    switched to bench press.  The spoken pause does not log, the switch
    does not either and clears the display: the squat is neither in the
    log nor in the list an end of the workout would send.  On the
    sibling path, with the pause button in place of the
    voice command, the same rep is in the log when the new machine
    becomes active. *)
Theorem voice_pause_then_switch_drops_reps :
  let counted := map (fun z => WorkoutTracker.Counted (kneeFrame z)) [140; 100; 130; 170]%Z in
  let t := WorkoutTracker.play
             ([WorkoutTracker.ModelLoaded; WorkoutTracker.StartCounting] ++ counted)
             (WorkoutTracker.mount true) in
  let v := {| WorkoutTracker.tracker := t; WorkoutTracker.isWorkoutActive := true |} in
  let paused := WorkoutTracker.tracker (fst (WorkoutTracker.handleVoiceCommand "pause counting" v)) in
  let switched := WorkoutTracker.handleExerciseChange bench paused in
  let byButton := WorkoutTracker.handleExerciseChange bench (WorkoutTracker.handleStopCounting t) in
  (WorkoutTracker.isCounting t = true /\
   WorkoutTracker.currentExercise t = squat /\
   WorkoutTracker.repCount t = 1%nat /\
   WorkoutTracker.workoutLog t = []) /\
  (WorkoutTracker.isCounting paused = false /\
   WorkoutTracker.repCount paused = 1%nat /\
   WorkoutTracker.workoutLog paused = []) /\
  (WorkoutTracker.currentExercise switched = bench /\
   WorkoutTracker.stateMachine switched = Some bench /\
   WorkoutTracker.repCount switched = 0%nat /\
   WorkoutTracker.workoutLog switched = [] /\
   WorkoutTracker.finalLog switched = []) /\
  (WorkoutTracker.currentExercise byButton = bench /\
   WorkoutTracker.workoutLog byButton
   = [ {| WorkoutTracker.exercise := squat; WorkoutTracker.reps := 1;
          WorkoutTracker.log_name := "Squats" |} ]).
Proof.
  cbv zeta.
  repeat match goal with |- _ /\ _ => split end; vm_compute; reflexivity.
Qed.

(* ================================================================== *)
(** ** Progress through the cycle *)
(* ================================================================== *)

(** Split the boolean tests of an unfolded [update], reducing between
    the splits. *)
Ltac split_bool_tests :=
  repeat (cbn -[js_lt js_gt truthy Qplus Qminus Nat.mul
                ShoulderPressStateMachine.avgElbow
                ShoulderPressStateMachine.unbalanced];
          match goal with
          | |- context [if ?t then _ else _] =>
              lazymatch type of t with bool => destruct t eqn:? end
          end);
  cbn -[js_lt js_gt truthy Qplus Qminus Nat.mul
        ShoulderPressStateMachine.avgElbow
        ShoulderPressStateMachine.unbalanced].

Ltac destruct_phases :=
  repeat match goal with
         | p : SquatStateMachine.phase |- _ => destruct p
         | p : BenchPressStateMachine.phase |- _ => destruct p
         | p : DeadliftStateMachine.phase |- _ => destruct p
         | p : PushUpStateMachine.phase |- _ => destruct p
         | p : PullUpStateMachine.phase |- _ => destruct p
         | p : ShoulderPressStateMachine.phase |- _ => destruct p
         | p : LateralRaiseStateMachine.phase |- _ => destruct p
         | p : LungeStateMachine.phase |- _ => destruct p
         end.

Lemma update_sound (f : frame) (sm : Machine.t) :
  sound sm -> sound (Machine.update f sm).
Proof.
  destruct sm; cbn [sound Machine.update]; auto using squat_update_deepEnough.
Qed.

Lemma run_sound (fs : list frame) (sm : Machine.t) :
  sound sm -> sound (Machine.run fs sm).
Proof.
  revert sm. induction fs as [|f fs IH]; intros sm H; [exact H|].
  apply (IH (Machine.update f sm)), update_sound, H.
Qed.

Lemma new_sound (k : exerciseKind) : sound (Machine.new k).
Proof. destruct k; cbn; auto. intros [H|H]; discriminate H. Qed.

Lemma update_progress_cases (f : frame) (sm : Machine.t) :
  sound sm ->
  progress (Machine.update f sm) = progress sm \/
  progress (Machine.update f sm) = S (progress sm).
Proof.
  intro Hs. unfold progress. rewrite update_kind.
  destruct sm as [m|m|m|m|m|m|m|m]; destruct m; destruct_phases;
    cbn [sound] in Hs;
    try (match type of Hs with deepEnough _ =>
           unfold deepEnough in Hs; cbn in Hs;
           try (rewrite Hs in * by (auto; right; reflexivity))
         end);
    unfold_updates; split_bool_tests; lia.
Qed.

(** X1.  One call of [update] moves a machine by at most one phase of
    its cycle, never backwards: [progress] stays or grows by one.  A rep
    is counted only by the call that closes the cycle. *)
Theorem update_progress_step (f : frame) (sm : Machine.t) :
  sound sm ->
  progress (Machine.update f sm) = progress sm \/
  progress (Machine.update f sm) = S (progress sm).
Proof. exact (update_progress_cases f sm). Qed.

(** A squat that went down to the bottom and halfway up. *)
Lemma update_progress_step_witness :
  let sm := Machine.run (map kneeFrame [140; 100; 130]%Z) (Machine.new squat) in
  progress sm = 3%nat /\
  progress (Machine.update (kneeFrame 170) sm) = 4%nat.
Proof.
  intro sm.
  assert (Hs : sound sm) by (apply run_sound, new_sound).
  split; [reflexivity|].
  destruct (update_progress_step (kneeFrame 170) sm Hs) as [H|H];
    [vm_compute in H; discriminate H | rewrite H; reflexivity].
Defined.

Lemma phaseIndex_lt_cycleLength (sm : Machine.t) :
  (phaseIndex sm < cycleLength (Machine.kind sm))%nat.
Proof.
  destruct sm as [m|m|m|m|m|m|m|m]; destruct m; destruct_phases; cbn; lia.
Qed.

Lemma progress_nondecreasing (f : frame) (sm : Machine.t) :
  sound sm -> (progress sm <= progress (Machine.update f sm) <= S (progress sm))%nat.
Proof.
  intro Hs. destruct (update_progress_cases f sm Hs) as [H|H]; rewrite H; lia.
Qed.

Lemma run_progress (fs : list frame) (sm : Machine.t) :
  sound sm ->
  (progress sm <= progress (Machine.run fs sm) <= progress sm + List.length fs)%nat.
Proof.
  revert sm. induction fs as [|f fs IH]; intros sm Hs; cbn [List.length].
  - cbn. lia.
  - change (Machine.run (f :: fs) sm) with (Machine.run fs (Machine.update f sm)).
    pose proof (progress_nondecreasing f sm Hs).
    pose proof (IH _ (update_sound f sm Hs)). lia.
Qed.

(** X2.  Over any list of calls the rep count never goes down, and
    every rep gained took a whole cycle of calls: the gain times the
    cycle length is at most the number of calls plus the phases the
    machine was already into its cycle. *)
Theorem run_counts_whole_cycles (fs : list frame) (sm : Machine.t) :
  sound sm ->
  (Machine.repCount sm <= Machine.repCount (Machine.run fs sm))%nat /\
  (cycleLength (Machine.kind sm)
   * (Machine.repCount (Machine.run fs sm) - Machine.repCount sm)
   <= phaseIndex sm + List.length fs)%nat.
Proof.
  intro Hs. pose proof (run_progress fs sm Hs) as [Hlo Hhi].
  unfold progress in Hlo, Hhi. rewrite run_kind in Hlo, Hhi.
  pose proof (phaseIndex_lt_cycleLength (Machine.run fs sm)) as Hi.
  rewrite run_kind in Hi.
  destruct (Machine.kind sm); cbn [cycleLength] in *; lia.
Qed.

(** A bench press already at the bottom: three more calls give the rep,
    and no more than that one. *)
Lemma run_counts_whole_cycles_witness :
  let sm := Machine.run (map elbowFrame [110; 80]%Z) (Machine.new bench) in
  let fs := map elbowFrame [105; 170; 110]%Z in
  (Machine.repCount sm <= Machine.repCount (Machine.run fs sm))%nat /\
  (4 * (Machine.repCount (Machine.run fs sm) - Machine.repCount sm) <= 2 + 3)%nat.
Proof.
  intros sm fs.
  exact (run_counts_whole_cycles fs sm (run_sound _ _ (new_sound bench))).
Defined.

(** X3.  A machine that is new, or was just reset, has counted at most
    one rep for every four calls made on it since (every two calls for
    the shoulder press), whatever the readings. *)
Theorem new_machine_reps_bounded_by_calls (k : exerciseKind) (fs gs : list frame) :
  (cycleLength k * Machine.repCount (Machine.run fs (Machine.new k)) <= List.length fs)%nat /\
  (cycleLength k
   * Machine.repCount (Machine.run fs (Machine.reset (Machine.run gs (Machine.new k))))
   <= List.length fs)%nat.
Proof.
  split.
  - pose proof (run_progress fs (Machine.new k) (new_sound k)) as [_ H].
    unfold progress in H. rewrite run_kind in H.
    destruct k; cbn in H |- *; lia.
  - set (r := Machine.reset (Machine.run gs (Machine.new k))).
    assert (Hk : Machine.kind r = k).
    { subst r. destruct (Machine.run gs (Machine.new k)) eqn:E;
        pose proof (run_kind gs (Machine.new k)) as K; rewrite E in K;
        destruct k; cbn in K; try discriminate K; reflexivity. }
    assert (Hs : sound r).
    { subst r. destruct (Machine.run gs (Machine.new k)); cbn; auto.
      intros [H|H]; discriminate H. }
    assert (Hp : progress r = 0%nat).
    { unfold progress. subst r.
      destruct (Machine.run gs (Machine.new k)); reflexivity. }
    pose proof (run_progress fs r Hs) as [_ H]. rewrite Hp in H.
    unfold progress in H. rewrite run_kind, Hk in H.
    destruct k; cbn [cycleLength] in *; lia.
Qed.

(** X4.  After any call of [update], on any machine in any state, the
    feedback holds the success entry 'Good rep!' exactly when that call
    raised [repCount]. *)
Theorem good_rep_iff_counted (f : frame) (sm : Machine.t) :
  In (success "Good rep!") (Machine.feedbackMessages (Machine.update f sm)) <->
  Machine.repCount (Machine.update f sm) = S (Machine.repCount sm).
Proof.
  destruct sm as [m|m|m|m|m|m|m|m]; destruct m; destruct_phases;
    unfold_updates; split_bool_tests;
    (split; intro H);
    try reflexivity; try (exfalso; lia);
    try (cbn in H; intuition discriminate);
    cbn; auto.
Qed.

(* ================================================================== *)
(** ** Feedback *)
(* ================================================================== *)

(** X5.  Whatever the frame, the feedback left by [update] has at most
    one entry (two for the shoulder press), each of them the
    missing-angle warning of the class, 'Good rep!', the squat's 'Too
    shallow' or the shoulder press's 'Balance both arms evenly'.  The
    squat form warnings of [checkSquatForm] are never among them:
    [update] does not run the form check. *)
Theorem update_feedback_vocabulary (f : frame) (sm : Machine.t) (msg : FeedbackMessage) :
  (List.length (Machine.feedbackMessages (Machine.update f sm))
   <= match Machine.kind sm with shoulderpress => 2 | _ => 1 end)%nat /\
  (In msg (Machine.feedbackMessages (Machine.update f sm)) ->
   (msg = cannotDetect (Machine.kind sm) \/
    msg = success "Good rep!" \/
    (Machine.kind sm = squat /\ msg = error "Too shallow") \/
    (Machine.kind sm = shoulderpress /\ msg = warning "Balance both arms evenly")) /\
   msg <> warning "Keep knees behind toes" /\
   msg <> warning "Keep torso more upright").
Proof.
  destruct sm as [m|m|m|m|m|m|m|m]; destruct m; destruct_phases;
    unfold_updates; split_bool_tests;
    (split; [lia|]); intro H; cbn in H;
    repeat (destruct H as [H|H]; [subst msg|]); try contradiction;
    (split; [cbn; tauto | split; discriminate]).
Qed.

(** X6.  [checkSquatForm] is advisory: it keeps the phase, [repCount],
    the depth flag and [lastRepTime], and only adds to the messages
    already there, at most two warnings.  When the leg length is missing
    or zero no ratio is formed and no knee warning is given; when the
    torso lean is missing or zero too, nothing changes at all. *)
Theorem checkSquatForm_is_advisory
  (torsoLean kneeToe legLength : value) (m : SquatStateMachine.t) :
  let m' := SquatStateMachine.checkSquatForm torsoLean kneeToe legLength m in
  SquatStateMachine.state m' = SquatStateMachine.state m /\
  SquatStateMachine.repCount m' = SquatStateMachine.repCount m /\
  SquatStateMachine.minDepthReached m' = SquatStateMachine.minDepthReached m /\
  SquatStateMachine.lastRepTime m' = SquatStateMachine.lastRepTime m /\
  (exists added : list FeedbackMessage,
     SquatStateMachine.feedbackMessages m' =
       (SquatStateMachine.feedbackMessages m ++ added)%list /\
     (List.length added <= 2)%nat /\
     Forall (fun w => type w = "warning") added /\
     (truthy legLength = false -> ~ In (warning "Keep knees behind toes") added)) /\
  (truthy legLength = false -> truthy torsoLean = false -> m' = m).
Proof.
  destruct m as [st rc fb lt md].
  unfold SquatStateMachine.checkSquatForm.
  set (knees := truthy legLength
                && num_lt (Fin (SquatStateMachine.kneeToeRatio SquatStateMachine.thresholds))
                     (num_div (toNumber kneeToe) (toNumber legLength))).
  set (torso := truthy torsoLean
                && js_gt torsoLean
                     (SquatStateMachine.torsoLeanAngle SquatStateMachine.thresholds)).
  assert (K : truthy legLength = false -> knees = false)
    by (intro E; subst knees; rewrite E; reflexivity).
  assert (T : truthy torsoLean = false -> torso = false)
    by (intro E; subst torso; rewrite E; reflexivity).
  clearbody knees torso.
  cbv zeta. repeat match goal with |- _ /\ _ => split end.
  1-4: destruct knees, torso; reflexivity.
  - exists ((if knees then [warning "Keep knees behind toes"] else [])
            ++ (if torso then [warning "Keep torso more upright"] else []))%list.
    repeat match goal with |- _ /\ _ => split end.
    + destruct knees, torso; cbn; rewrite <- ?app_assoc, ?app_nil_r; reflexivity.
    + destruct knees, torso; cbn; lia.
    + destruct knees, torso; cbn; repeat constructor.
    + intros E. rewrite (K E). destruct torso; cbn; [|tauto].
      intros [H|[]]. discriminate H.
  - intros E1 E2. rewrite (K E1), (T E2). reflexivity.
Qed.

(* ================================================================== *)
(** ** Shoulder press: one arm or two *)
(* ================================================================== *)

(** X7.  A shoulder press call that carries only one usable elbow angle
    (the other null, unset, zero or NaN) is decided by that angle alone:
    no missing-angle and no balance warning, 'down' goes to 'up' when the
    angle is above 160, and 'up' goes back to 'down' with a counted rep
    when it is below 100. *)
Theorem shoulderpress_one_arm (f : frame) (m : ShoulderPressStateMachine.t) :
  xorb (truthy (leftElbow (angles f))) (truthy (rightElbow (angles f))) = true ->
  let seen := js_or (leftElbow (angles f)) (rightElbow (angles f)) in
  let m' := ShoulderPressStateMachine.update f m in
  truthy seen = true /\
  match ShoulderPressStateMachine.state m with
  | ShoulderPressStateMachine.down =>
      ShoulderPressStateMachine.repCount m' = ShoulderPressStateMachine.repCount m /\
      ShoulderPressStateMachine.feedbackMessages m' = [] /\
      ShoulderPressStateMachine.state m' =
        (if js_gt seen 160 then ShoulderPressStateMachine.up
         else ShoulderPressStateMachine.down)
  | ShoulderPressStateMachine.up =>
      if js_lt seen 100 then
        ShoulderPressStateMachine.repCount m' = S (ShoulderPressStateMachine.repCount m) /\
        ShoulderPressStateMachine.feedbackMessages m' = [success "Good rep!"] /\
        ShoulderPressStateMachine.state m' = ShoulderPressStateMachine.down /\
        ShoulderPressStateMachine.lastRepTime m' = now f
      else
        ShoulderPressStateMachine.repCount m' = ShoulderPressStateMachine.repCount m /\
        ShoulderPressStateMachine.feedbackMessages m' = [] /\
        ShoulderPressStateMachine.state m' = ShoulderPressStateMachine.up
  end.
Proof.
  intros X seen m'. subst seen m'.
  unfold ShoulderPressStateMachine.update, ShoulderPressStateMachine.avgElbow, js_or.
  destruct m as [st rc fb lt].
  destruct (truthy (leftElbow (angles f))) eqn:L,
           (truthy (rightElbow (angles f))) eqn:R; try discriminate X;
    (split; [assumption|]);
    destruct st; cbn -[js_lt js_gt];
    repeat match goal with
           | |- context [if ?t then _ else _] =>
               lazymatch type of t with bool => destruct t end
           end;
    cbn; repeat split; reflexivity.
Qed.

(** Only the right elbow, at 170 degrees, on a new machine. *)
Lemma shoulderpress_one_arm_witness :
  let f := {| now := 5;
              angles := WorkoutTracker.set_rightElbow (deg 170)
                          (WorkoutTracker.set_leftElbow Null noAngles);
              distances := None |} in
  let m' := ShoulderPressStateMachine.update f ShoulderPressStateMachine.new in
  ShoulderPressStateMachine.state m' = ShoulderPressStateMachine.up /\
  ShoulderPressStateMachine.feedbackMessages m' = [].
Proof.
  intros f m'.
  destruct (shoulderpress_one_arm f ShoulderPressStateMachine.new eq_refl)
    as (_ & _ & Hf & Hs).
  split; [exact Hs | exact Hf].
Defined.

(** X8.  With both elbow angles usable, the shoulder press moves on
    their mean: above 160 takes 'down' to 'up', below 100 takes 'up' to
    'down' and counts.  An imbalance of more than 20 degrees adds the
    warning 'Balance both arms evenly' and changes nothing else. *)
Theorem shoulderpress_two_arms (f : frame) (m : ShoulderPressStateMachine.t) :
  truthy (leftElbow (angles f)) = true ->
  truthy (rightElbow (angles f)) = true ->
  let l := toNumber (leftElbow (angles f)) in
  let r := toNumber (rightElbow (angles f)) in
  let mean := Num (num_half (num_add l r)) in
  let m' := ShoulderPressStateMachine.update f m in
  (In (warning "Balance both arms evenly") (ShoulderPressStateMachine.feedbackMessages m')
   <-> num_lt (Fin 20) (num_abs (num_sub l r)) = true) /\
  match ShoulderPressStateMachine.state m with
  | ShoulderPressStateMachine.down =>
      ShoulderPressStateMachine.repCount m' = ShoulderPressStateMachine.repCount m /\
      ShoulderPressStateMachine.state m' =
        (if js_gt mean 160 then ShoulderPressStateMachine.up
         else ShoulderPressStateMachine.down)
  | ShoulderPressStateMachine.up =>
      if js_lt mean 100 then
        ShoulderPressStateMachine.repCount m' = S (ShoulderPressStateMachine.repCount m) /\
        ShoulderPressStateMachine.state m' = ShoulderPressStateMachine.down
      else
        ShoulderPressStateMachine.repCount m' = ShoulderPressStateMachine.repCount m /\
        ShoulderPressStateMachine.state m' = ShoulderPressStateMachine.up
  end.
Proof.
  intros L R l r mean m'. subst m'.
  unfold ShoulderPressStateMachine.update, ShoulderPressStateMachine.avgElbow,
    ShoulderPressStateMachine.unbalanced.
  rewrite L, R. fold l r. fold mean.
  change (ShoulderPressStateMachine.armBalanceTolerance
            ShoulderPressStateMachine.thresholds) with (20 : Q).
  destruct m as [st rc fb lt].
  cbn -[js_lt js_gt num_lt mean].
  destruct (num_lt (Fin 20) (num_abs (num_sub l r))); destruct st;
    cbn -[js_lt js_gt mean];
    repeat match goal with
           | |- context [if ?t then _ else _] =>
               lazymatch type of t with bool => destruct t end
           end;
    cbn; (split; [split; intro H | split; reflexivity]);
    try reflexivity; try discriminate H; auto;
    cbn in H; intuition discriminate.
Qed.

(** Elbows at 175 and 150: the mean 162.5 raises the arms, with the
    balance warning. *)
Lemma shoulderpress_two_arms_witness :
  let f := {| now := 5;
              angles := WorkoutTracker.set_rightElbow (deg 150)
                          (WorkoutTracker.set_leftElbow (deg 175) noAngles);
              distances := None |} in
  let m' := ShoulderPressStateMachine.update f ShoulderPressStateMachine.new in
  ShoulderPressStateMachine.state m' = ShoulderPressStateMachine.up /\
  In (warning "Balance both arms evenly") (ShoulderPressStateMachine.feedbackMessages m').
Proof.
  intros f m'.
  destruct (shoulderpress_two_arms f ShoulderPressStateMachine.new eq_refl eq_refl)
    as (Hw & _ & Hs).
  split; [exact Hs | apply Hw; reflexivity].
Defined.

(* ================================================================== *)
(** ** Distances *)
(* ================================================================== *)

(** Equal rationals round to the same double. *)
Lemma round_Qeq (p q : Q) : p == q -> round p = round q.
Proof. intro E. unfold round. rewrite (Qred_complete p q E). reflexivity. Qed.

Lemma num_opp_involutive (a : number) : num_opp (num_opp a) = a.
Proof.
  destruct a as [| |[n d]|]; try reflexivity.
  cbn. unfold Qopp. cbn. rewrite Z.opp_involutive. reflexivity.
Qed.

(** Rounding commutes with the change of sign. *)
Lemma round_opp (q : Q) : round (- q) = num_opp (round q).
Proof.
  unfold round. rewrite Qred_opp.
  destruct (Qred q) as [[|n|n] d]; cbn [Qopp Qnum Qden Z.opp].
  - reflexivity.
  - reflexivity.
  - rewrite num_opp_involutive. reflexivity.
Qed.

Lemma num_same_sym (a b : number) : num_same a b -> num_same b a.
Proof.
  destruct a, b; cbn; auto. intro H. symmetry. exact H.
Qed.

Lemma num_abs_opp (a : number) : num_same (num_abs (num_opp a)) (num_abs a).
Proof.
  destruct a as [| |x|]; cbn -[Qabs]; auto. apply Qabs_opp.
Qed.

Lemma num_abs_nonneg (a : number) : num_lt (num_abs a) (Fin 0) = false.
Proof.
  destruct a as [| |x|]; cbn -[Qabs]; auto. apply Qltb_ge, Qabs_nonneg.
Qed.

(** X9.  [calculateHorizontalDistance] gives null exactly when a point
    is missing; on two points it gives the same number in either order,
    and never a negative one. *)
Theorem horizontal_distance_symmetric (p q : option point) :
  match WorkoutTracker.calculateHorizontalDistance p q,
        WorkoutTracker.calculateHorizontalDistance q p with
  | Num d, Num d' =>
      p <> None /\ q <> None /\ num_same d d' /\ num_lt d (Fin 0) = false
  | Null, Null => p = None \/ q = None
  | _, _ => False
  end.
Proof.
  destruct p as [[px py]|], q as [[qx qy]|];
    cbn [WorkoutTracker.calculateHorizontalDistance x]; auto.
  repeat match goal with |- _ /\ _ => split end; try discriminate.
  - destruct px as [| |a|], qx as [| |b|];
      cbn [num_sub num_add num_opp num_abs num_same]; auto.
    replace (round (b + - a)) with (num_opp (round (a + - b))).
    + apply num_same_sym, num_abs_opp.
    + rewrite <- round_opp. apply round_Qeq. ring.
  - apply num_abs_nonneg.
Qed.

(* ================================================================== *)
(** ** The roster and the frame loop *)
(* ================================================================== *)

Lemma kind_get (r : WorkoutTracker.Roster) (k : exerciseKind) :
  Machine.kind (WorkoutTracker.get r k) = k.
Proof. destruct k; reflexivity. Qed.

Lemma get_put_same (sm : Machine.t) (r : WorkoutTracker.Roster) :
  WorkoutTracker.get (WorkoutTracker.put sm r) (Machine.kind sm) = sm.
Proof. destruct sm; reflexivity. Qed.

Lemma get_put_other (sm : Machine.t) (r : WorkoutTracker.Roster) (k : exerciseKind) :
  k <> Machine.kind sm ->
  WorkoutTracker.get (WorkoutTracker.put sm r) k = WorkoutTracker.get r k.
Proof. destruct sm, k; cbn; intro H; try reflexivity; contradiction H; reflexivity. Qed.

(** The roster and the displayed count after [feedStateMachine]. *)
Lemma feedStateMachine_roster (f : frame) (s : WorkoutTracker.Tracker)
  (r : WorkoutTracker.Roster) (k : exerciseKind) :
  WorkoutTracker.stateMachines s = Some r ->
  WorkoutTracker.stateMachine s = Some k ->
  let sm := Machine.update f (WorkoutTracker.get r k) in
  let s' := WorkoutTracker.feedStateMachine f s in
  WorkoutTracker.stateMachines s' = Some (WorkoutTracker.put sm r) /\
  WorkoutTracker.stateMachine s' = Some k /\
  WorkoutTracker.isCounting s' = WorkoutTracker.isCounting s /\
  WorkoutTracker.currentExercise s' = WorkoutTracker.currentExercise s /\
  WorkoutTracker.workoutLog s' = WorkoutTracker.workoutLog s /\
  WorkoutTracker.ttsEnabled s' = WorkoutTracker.ttsEnabled s /\
  WorkoutTracker.currentState s' = Machine.state sm /\
  WorkoutTracker.repCount s' =
    (if (Machine.repCount (WorkoutTracker.get r k) <? Machine.repCount sm)%nat
     then Machine.repCount sm else WorkoutTracker.repCount s).
Proof.
  intros Hr Hk sm s'. subst s'. unfold WorkoutTracker.feedStateMachine.
  rewrite Hr, Hk. fold sm.
  destruct s as [ic ce rc cs fq wl sms smk tts sp]. cbn in Hr, Hk. subst.
  unfold WorkoutTracker.gradeForm, WorkoutTracker.speakFeedback.
  cbn -[Nat.ltb sm existsb].
  destruct (Machine.repCount (WorkoutTracker.get r k) <? Machine.repCount sm)%nat;
    destruct tts; cbn -[sm existsb];
    destruct (Machine.feedbackMessages sm); cbn -[sm existsb];
    repeat match goal with
           | |- context [if ?t then _ else _] =>
               lazymatch type of t with bool => destruct t end
           end; cbn -[sm]; repeat split; reflexivity.
Qed.

(** X10.  A counted frame touches one machine only: the instance the
    reference points to gets the [update], every other instance of the
    roster keeps its state, and the log is not written.  The displayed
    count follows the machine: when the call counts a rep the display
    shows the machine's own count, which runs on from before any
    exercise switch rather than from the 0 the switch displayed. *)
Theorem feedStateMachine_touches_active_only
  (f : frame) (s : WorkoutTracker.Tracker)
  (r : WorkoutTracker.Roster) (k : exerciseKind) :
  WorkoutTracker.stateMachines s = Some r ->
  WorkoutTracker.stateMachine s = Some k ->
  let s' := WorkoutTracker.feedStateMachine f s in
  exists r' : WorkoutTracker.Roster,
    WorkoutTracker.stateMachines s' = Some r' /\
    WorkoutTracker.get r' k = Machine.update f (WorkoutTracker.get r k) /\
    (forall k' : exerciseKind, k' <> k -> WorkoutTracker.get r' k' = WorkoutTracker.get r k') /\
    WorkoutTracker.workoutLog s' = WorkoutTracker.workoutLog s /\
    (Machine.repCount (WorkoutTracker.get r' k) = S (Machine.repCount (WorkoutTracker.get r k)) ->
     WorkoutTracker.repCount s' = Machine.repCount (WorkoutTracker.get r' k)) /\
    (Machine.repCount (WorkoutTracker.get r' k) = Machine.repCount (WorkoutTracker.get r k) ->
     WorkoutTracker.repCount s' = WorkoutTracker.repCount s).
Proof.
  intros Hr Hk s'.
  destruct (feedStateMachine_roster f s r k Hr Hk)
    as (Hr' & _ & _ & _ & Hl & _ & _ & Hd).
  set (sm := Machine.update f (WorkoutTracker.get r k)) in *.
  assert (Ksm : Machine.kind sm = k)
    by (subst sm; rewrite update_kind; apply kind_get).
  exists (WorkoutTracker.put sm r).
  assert (G : WorkoutTracker.get (WorkoutTracker.put sm r) k = sm)
    by (rewrite <- Ksm at 1; apply get_put_same).
  repeat match goal with |- _ /\ _ => split end.
  - exact Hr'.
  - exact G.
  - intros k' Hne. apply get_put_other. rewrite Ksm. exact Hne.
  - exact Hl.
  - rewrite G. intro E. fold s' in Hd. rewrite Hd, E.
    rewrite (proj2 (Nat.ltb_lt _ _)) by lia. reflexivity.
  - rewrite G. intro E. fold s' in Hd. rewrite Hd, E.
    rewrite Nat.ltb_irrefl. reflexivity.
Qed.

(** A session that counted a squat, switched to the lunge and back (the
    display then shows 0): the next squat shows 2. *)
Lemma feedStateMachine_touches_active_only_witness :
  let rep := map (fun z => WorkoutTracker.Counted (kneeFrame z)) [140; 100; 130; 170]%Z in
  let s := WorkoutTracker.play
             ([WorkoutTracker.ModelLoaded; WorkoutTracker.StartCounting] ++ rep
              ++ [WorkoutTracker.StopCounting; WorkoutTracker.ExerciseChange lunge;
                  WorkoutTracker.ExerciseChange squat; WorkoutTracker.StartCounting]
              ++ removelast rep)
             (WorkoutTracker.mount false) in
  WorkoutTracker.repCount s = 0%nat /\
  WorkoutTracker.repCount (WorkoutTracker.feedStateMachine (kneeFrame 170) s) = 2%nat.
Proof.
  intros rep s.
  destruct (WorkoutTracker.stateMachines s) as [r|] eqn:Hr;
    [|vm_compute in Hr; discriminate Hr].
  destruct (feedStateMachine_touches_active_only (kneeFrame 170) s r squat Hr eq_refl)
    as (r' & Hr' & Hg & _ & _ & Hup & _).
  split; [reflexivity|].
  rewrite Hup; rewrite Hg;
    vm_compute in Hr; injection Hr as <-; reflexivity.
Defined.

(** X11.  [resetWorkout] empties the log, shows a count of 0 and brings
    every machine of the roster back to the phase, count and depth flag
    of a new one.  It does not stop the counting, and the active
    exercise and machine stay. *)
Theorem resetWorkout_resets_every_machine (s : WorkoutTracker.Tracker) :
  let s' := WorkoutTracker.resetWorkout s in
  WorkoutTracker.workoutLog s' = [] /\
  WorkoutTracker.repCount s' = 0%nat /\
  WorkoutTracker.isCounting s' = WorkoutTracker.isCounting s /\
  WorkoutTracker.currentExercise s' = WorkoutTracker.currentExercise s /\
  WorkoutTracker.stateMachine s' = WorkoutTracker.stateMachine s /\
  match WorkoutTracker.stateMachines s, WorkoutTracker.stateMachines s' with
  | Some r, Some r' =>
      forall k : exerciseKind,
        WorkoutTracker.get r' k = Machine.reset (WorkoutTracker.get r k) /\
        observe (WorkoutTracker.get r' k) = observe (Machine.new k)
  | None, None => True
  | _, _ => False
  end.
Proof.
  destruct s as [ic ce rc cs fq wl [r|] smk tts sp]; cbn;
    repeat split; try reflexivity; destruct k; reflexivity.
Qed.

(** X12.  No handler changes the text-to-speech flag, and what was
    spoken is only ever added to; with the flag off nothing is spoken,
    whatever the events. *)
Theorem spoken_only_grows (es : list WorkoutTracker.event) (s : WorkoutTracker.Tracker) :
  WorkoutTracker.ttsEnabled (WorkoutTracker.play es s) = WorkoutTracker.ttsEnabled s /\
  exists more : list string,
    WorkoutTracker.spoken (WorkoutTracker.play es s)
    = (WorkoutTracker.spoken s ++ more)%list /\
    (WorkoutTracker.ttsEnabled s = false -> more = []).
Proof.
  revert s. induction es as [|e es IH]; intro s.
  - split; [reflexivity|]. exists []. rewrite app_nil_r. auto.
  - change (WorkoutTracker.play (e :: es) s)
      with (WorkoutTracker.play es (WorkoutTracker.handle e s)).
    assert (Step :
      WorkoutTracker.ttsEnabled (WorkoutTracker.handle e s) = WorkoutTracker.ttsEnabled s /\
      exists one : list string,
        WorkoutTracker.spoken (WorkoutTracker.handle e s)
        = (WorkoutTracker.spoken s ++ one)%list /\
        (WorkoutTracker.ttsEnabled s = false -> one = [])).
    { destruct s as [ic ce rc cs fq wl sms smk tts sp].
      destruct e as [|k| | |f]; cbn -[Nat.ltb Machine.update existsb].
      - split; [reflexivity|]. exists []. rewrite app_nil_r. auto.
      - unfold WorkoutTracker.handleExerciseChange, WorkoutTracker.speakFeedback.
        cbn. destruct ic, tts; cbn; (split; [reflexivity|]);
          first [ exists []; rewrite app_nil_r; split; [reflexivity | auto]
                | eexists [_]; split; [reflexivity | discriminate] ].
      - unfold WorkoutTracker.handleStartCounting, WorkoutTracker.speakFeedback.
        cbn. destruct tts; cbn; (split; [reflexivity|]);
          first [ exists []; rewrite app_nil_r; split; [reflexivity | auto]
                | eexists [_]; split; [reflexivity | discriminate] ].
      - unfold WorkoutTracker.handleStopCounting, WorkoutTracker.speakFeedback.
        cbn -[Nat.ltb WorkoutTracker.logReps].
        destruct (ic && (0 <? rc)%nat), tts; cbn; (split; [reflexivity|]);
          first [ exists []; rewrite app_nil_r; split; [reflexivity | auto]
                | eexists [_]; split; [reflexivity | discriminate] ].
      - destruct ic; [|split; [reflexivity|]; exists []; rewrite app_nil_r; auto].
        unfold WorkoutTracker.feedStateMachine, WorkoutTracker.gradeForm,
          WorkoutTracker.speakFeedback.
        cbn -[Nat.ltb Machine.update existsb].
        destruct sms as [r|], smk as [k|];
          try (split; [reflexivity|]; exists []; rewrite app_nil_r; auto; fail).
        destruct (Machine.repCount (WorkoutTracker.get r k)
                  <? Machine.repCount (Machine.update f (WorkoutTracker.get r k)))%nat;
          destruct tts; cbn -[Machine.update existsb];
          destruct (Machine.feedbackMessages (Machine.update f (WorkoutTracker.get r k)));
          cbn -[Machine.update existsb];
          repeat match goal with
                 | |- context [if ?t then _ else _] =>
                     lazymatch type of t with bool => destruct t end
                 end; cbn -[Machine.update];
          (split; [reflexivity|]);
          first [ exists []; rewrite app_nil_r; split; [reflexivity | auto]
                | eexists [_]; split; [reflexivity | discriminate] ]. }
    destruct Step as (Ht & one & Hone & Hoff).
    destruct (IH (WorkoutTracker.handle e s)) as (Ht' & more & Hmore & Hoff').
    split; [congruence|].
    exists (one ++ more)%list. split.
    + rewrite Hmore, Hone, app_assoc. reflexivity.
    + intro Off. rewrite (Hoff Off), Hoff' by congruence. reflexivity.
Qed.

(** A call without any angle leaves what [observe] shows. *)
Lemma update_noAngles_observe (t : nat) (d : option DistanceSet) (sm : Machine.t) :
  observe (Machine.update {| now := t; angles := noAngles; distances := d |} sm)
  = observe sm.
Proof.
  destruct (update_falsy_angle {| now := t; angles := noAngles; distances := d |} sm)
    as (Hk & Hs & Hr & Hd & _).
  - destruct sm; reflexivity.
  - unfold observe. rewrite Hk, Hs, Hr, Hd. reflexivity.
Qed.

Section NamedLookup.

Variable angleDegrees : point -> point -> point -> number.
Variable verticalDegrees : point -> point -> number.

(** One pass of the frame loop with an exercise whose joints are looked
    up by name. *)
Lemma detect_named_exercise
  (t : nat) (poses : list (list WorkoutTracker.Keypoint))
  (s : WorkoutTracker.Tracker) (r : WorkoutTracker.Roster) (k : exerciseKind) :
  In k [bench; pushup; deadlift] ->
  WorkoutTracker.currentExercise s = k ->
  WorkoutTracker.stateMachine s = Some k ->
  WorkoutTracker.stateMachines s = Some r ->
  let s' := WorkoutTracker.detect angleDegrees verticalDegrees t poses s in
  WorkoutTracker.currentExercise s' = k /\
  WorkoutTracker.stateMachine s' = Some k /\
  WorkoutTracker.repCount s' = WorkoutTracker.repCount s /\
  WorkoutTracker.workoutLog s' = WorkoutTracker.workoutLog s /\
  exists r' : WorkoutTracker.Roster,
    WorkoutTracker.stateMachines s' = Some r' /\
    forall k' : exerciseKind,
      observe (WorkoutTracker.get r' k') = observe (WorkoutTracker.get r k').
Proof.
  intros Hin Hce Hk Hr s'. subst s'.
  assert (Same : WorkoutTracker.currentExercise s = k /\
                 WorkoutTracker.stateMachine s = Some k /\
                 WorkoutTracker.repCount s = WorkoutTracker.repCount s /\
                 WorkoutTracker.workoutLog s = WorkoutTracker.workoutLog s /\
                 exists r', WorkoutTracker.stateMachines s = Some r' /\
                   forall k', observe (WorkoutTracker.get r' k')
                              = observe (WorkoutTracker.get r k'))
    by (repeat split; auto; exists r; auto).
  unfold WorkoutTracker.detect.
  destruct poses as [|pose _]; [exact Same|].
  destruct (WorkoutTracker.isCounting s); [|exact Same]. clear Same.
  unfold WorkoutTracker.updateExerciseState. rewrite Hk, Hce.
  assert (E : WorkoutTracker.computeAngles angleDegrees verticalDegrees k pose
              = (noAngles, noDistances))
    by (destruct Hin as [<-|[<-|[<-|[]]]]; reflexivity).
  rewrite E.
  set (f := {| now := t; angles := noAngles; distances := Some noDistances |}).
  destruct (feedStateMachine_roster f s r k Hr Hk)
    as (Hr' & Hk' & _ & Hce' & Hl & _ & _ & Hd).
  pose proof (update_noAngles_observe t (Some noDistances) (WorkoutTracker.get r k)) as O.
  fold f in O.
  assert (Rc : Machine.repCount (Machine.update f (WorkoutTracker.get r k))
               = Machine.repCount (WorkoutTracker.get r k))
    by (unfold observe in O; congruence).
  repeat match goal with |- _ /\ _ => split end.
  - congruence.
  - exact Hk'.
  - rewrite Hd, Rc, Nat.ltb_irrefl. reflexivity.
  - exact Hl.
  - eexists. split; [exact Hr'|]. intro k'.
    assert (Ksm : Machine.kind (Machine.update f (WorkoutTracker.get r k)) = k)
      by (rewrite update_kind; apply kind_get).
    destruct (exerciseKind_eqb k' k) eqn:Q.
    + apply exerciseKind_eqb_eq in Q. subst k'.
      pose proof (get_put_same (Machine.update f (WorkoutTracker.get r k)) r) as G.
      rewrite Ksm in G. rewrite G. exact O.
    + apply exerciseKind_eqb_neq in Q.
      rewrite get_put_other by (rewrite Ksm; exact Q). reflexivity.
Qed.

(** X13.  With bench press, push-up or deadlift as the active exercise,
    the frame loop never counts: after any number of passes, whatever
    poses they found, every machine has the phase and count it had, the
    displayed count is unchanged and nothing was logged.  The joints of
    these exercises are looked up by name, which finds none. *)
Theorem named_exercises_never_count
  (passes : list (nat * list (list WorkoutTracker.Keypoint)))
  (s : WorkoutTracker.Tracker) (r : WorkoutTracker.Roster) (k : exerciseKind) :
  In k [bench; pushup; deadlift] ->
  WorkoutTracker.currentExercise s = k ->
  WorkoutTracker.stateMachine s = Some k ->
  WorkoutTracker.stateMachines s = Some r ->
  let s' := detectAll angleDegrees verticalDegrees passes s in
  WorkoutTracker.repCount s' = WorkoutTracker.repCount s /\
  WorkoutTracker.workoutLog s' = WorkoutTracker.workoutLog s /\
  exists r' : WorkoutTracker.Roster,
    WorkoutTracker.stateMachines s' = Some r' /\
    forall k' : exerciseKind,
      Machine.state (WorkoutTracker.get r' k') = Machine.state (WorkoutTracker.get r k') /\
      Machine.repCount (WorkoutTracker.get r' k') = Machine.repCount (WorkoutTracker.get r k').
Proof.
  intros Hin. revert s r.
  induction passes as [|[t poses] passes IH]; intros s r Hce Hk Hr; cbv zeta.
  - repeat split; auto. exists r. auto.
  - change (detectAll angleDegrees verticalDegrees ((t, poses) :: passes) s)
      with (detectAll angleDegrees verticalDegrees passes
              (WorkoutTracker.detect angleDegrees verticalDegrees t poses s)).
    destruct (detect_named_exercise t poses s r k Hin Hce Hk Hr)
      as (Hce1 & Hk1 & Hd1 & Hl1 & r1 & Hr1 & O1).
    destruct (IH _ r1 Hce1 Hk1 Hr1) as (Hd2 & Hl2 & r2 & Hr2 & O2).
    repeat match goal with |- _ /\ _ => split end; try congruence.
    exists r2. split; [exact Hr2|]. intro k'.
    destruct (O2 k') as [S2 R2]. specialize (O1 k'). unfold observe in O1.
    split; congruence.
Qed.

End NamedLookup.

(** Bench press active and counting, two passes over a pose with every
    joint at score 0.9. *)
Lemma named_exercises_never_count_witness :
  let s := WorkoutTracker.play
             [WorkoutTracker.ModelLoaded; WorkoutTracker.ExerciseChange bench;
              WorkoutTracker.StartCounting]
             (WorkoutTracker.mount false) in
  let pose := sidedPose (9 # 10) (9 # 10) in
  let s' := detectAll (fun _ _ _ => Fin 80) (fun _ _ => Fin 0)
              [(1%nat, [pose]); (2%nat, [pose])] s in
  WorkoutTracker.isCounting s = true /\
  WorkoutTracker.repCount s' = 0%nat /\
  WorkoutTracker.workoutLog s' = [].
Proof.
  intros s pose s'.
  destruct (WorkoutTracker.stateMachines s) as [r|] eqn:Hr;
    [|vm_compute in Hr; discriminate Hr].
  destruct (named_exercises_never_count (fun _ _ _ => Fin 80) (fun _ _ => Fin 0)
              [(1%nat, [pose]); (2%nat, [pose])] s r bench
              (or_introl eq_refl) eq_refl eq_refl Hr) as (Hd & Hl & _).
  split; [reflexivity|]. split; [exact Hd | exact Hl].
Defined.

(* ================================================================== *)
(** ** What a session can show and log *)
(* ================================================================== *)

(** No call on a sound machine leaves an entry of type 'error'. *)
Lemma update_no_error (f : frame) (sm : Machine.t) :
  sound sm ->
  existsb (fun m => String.eqb (type m) "error")
          (Machine.feedbackMessages (Machine.update f sm)) = false.
Proof.
  intro Hs.
  destruct sm as [m|m|m|m|m|m|m|m]; destruct m; destruct_phases;
    cbn [sound] in Hs;
    try (match type of Hs with deepEnough _ =>
           unfold deepEnough in Hs; cbn in Hs;
           try (rewrite Hs in * by (auto; right; reflexivity))
         end);
    unfold_updates; split_bool_tests; reflexivity.
Qed.

Lemma handle_neverPoor (e : WorkoutTracker.event) (s : WorkoutTracker.Tracker) :
  neverPoor s -> neverPoor (WorkoutTracker.handle e s).
Proof.
  intros [Hq Hr].
  destruct e as [|k| | |f]; cbn [WorkoutTracker.handle].
  - split; [exact Hq|]. intros r E. cbn in E. injection E as <-.
    intros [H|H]; discriminate H.
  - unfold WorkoutTracker.handleExerciseChange, WorkoutTracker.speakFeedback.
    destruct s as [ic ce rc cs fq wl sms smk tts sp]; cbn in *.
    destruct ic, tts; cbn; split; auto; discriminate.
  - unfold WorkoutTracker.handleStartCounting, WorkoutTracker.speakFeedback.
    destruct s as [ic ce rc cs fq wl sms smk tts sp]; cbn in *.
    destruct tts; cbn; split; auto.
  - unfold WorkoutTracker.handleStopCounting, WorkoutTracker.speakFeedback.
    destruct s as [ic ce rc cs fq wl sms smk tts sp];
      cbn -[Nat.ltb WorkoutTracker.logReps] in *.
    destruct (ic && (0 <? rc)%nat), tts; cbn; split; auto.
  - destruct (WorkoutTracker.isCounting s); [|split; assumption].
    unfold WorkoutTracker.feedStateMachine, WorkoutTracker.gradeForm,
      WorkoutTracker.speakFeedback.
    destruct s as [ic ce rc cs fq wl [r|] [k|] tts sp]; cbn in Hq, Hr;
      try (split; [exact Hq | exact Hr]).
    cbn -[Nat.ltb Machine.update existsb].
    pose proof (Hr r eq_refl) as Hsq.
    assert (Hs : sound (WorkoutTracker.get r k)) by (destruct k; cbn; auto).
    pose proof (update_no_error f _ Hs) as Hne.
    pose proof (update_sound f _ Hs) as Hs'.
    set (sm := Machine.update f (WorkoutTracker.get r k)) in *.
    assert (Hput : deepEnough (WorkoutTracker.sm_squat (WorkoutTracker.put sm r))).
    { destruct sm; cbn; auto. }
    clearbody sm.
    destruct (Machine.repCount (WorkoutTracker.get r k) <? Machine.repCount sm)%nat;
      destruct tts; cbn -[existsb];
      destruct (Machine.feedbackMessages sm) eqn:F; cbn -[existsb];
      try rewrite Hne;
      repeat match goal with
             | |- context [if ?t then _ else _] =>
                 lazymatch type of t with bool => destruct t end
             end;
      (split; [cbn; first [exact Hq | discriminate]
              | cbn; intros ? E; injection E as <-; exact Hput]).
Qed.

(** X14.  In a session the form is never graded 'Poor': whatever events
    follow the mount, [formQuality] is 'Perfect' or 'Good'.  Only an
    entry of type 'error' grades it 'Poor', and the one error a machine
    has, the squat's 'Too shallow', is never pushed. *)
Theorem formQuality_never_poor (tts : bool) (es : list WorkoutTracker.event) :
  let s := WorkoutTracker.play es (WorkoutTracker.mount tts) in
  WorkoutTracker.formQuality s = "Perfect" \/ WorkoutTracker.formQuality s = "Good".
Proof.
  cbv zeta.
  assert (Inv : forall s,
            neverPoor s ->
            (WorkoutTracker.formQuality s = "Perfect" \/
             WorkoutTracker.formQuality s = "Good") ->
            let s' := WorkoutTracker.play es s in
            WorkoutTracker.formQuality s' = "Perfect" \/
            WorkoutTracker.formQuality s' = "Good").
  { induction es as [|e es IH]; intros s Hn Hq; [exact Hq|].
    apply (IH (WorkoutTracker.handle e s)); [apply handle_neverPoor, Hn|].
    destruct e as [|k| | |f]; cbn [WorkoutTracker.handle].
    - exact Hq.
    - unfold WorkoutTracker.handleExerciseChange, WorkoutTracker.speakFeedback.
      destruct s as [ic ce rc cs fq wl sms smk t sp]; cbn in *.
      destruct ic, t; cbn; auto.
    - unfold WorkoutTracker.handleStartCounting, WorkoutTracker.speakFeedback.
      destruct s as [ic ce rc cs fq wl sms smk t sp]; cbn in *.
      destruct t; cbn; auto.
    - unfold WorkoutTracker.handleStopCounting, WorkoutTracker.speakFeedback.
      destruct s as [ic ce rc cs fq wl sms smk t sp];
        cbn -[Nat.ltb WorkoutTracker.logReps] in *.
      destruct (ic && (0 <? rc)%nat), t; cbn; auto.
    - destruct (WorkoutTracker.isCounting s); [|exact Hq].
      destruct Hn as [_ Hr].
      unfold WorkoutTracker.feedStateMachine, WorkoutTracker.gradeForm,
        WorkoutTracker.speakFeedback.
      destruct s as [ic ce rc cs fq wl [r|] [k|] t sp]; cbn in Hq, Hr;
        try exact Hq.
      cbn -[Nat.ltb Machine.update existsb].
      assert (Hs : sound (WorkoutTracker.get r k))
        by (pose proof (Hr r eq_refl); destruct k; cbn; auto).
      pose proof (update_no_error f _ Hs) as Hne.
      set (sm := Machine.update f (WorkoutTracker.get r k)) in *. clearbody sm.
      destruct (Machine.repCount (WorkoutTracker.get r k) <? Machine.repCount sm)%nat;
        destruct t; cbn -[existsb];
        destruct (Machine.feedbackMessages sm) eqn:F; cbn -[existsb];
        try rewrite Hne;
        repeat match goal with
               | |- context [if ?t then _ else _] =>
                   lazymatch type of t with bool => destruct t end
               end; cbn; auto. }
  apply Inv; [|left; reflexivity].
  split; [discriminate | intros r E; discriminate E].
Qed.

Lemma addReps_exercises (k : exerciseKind) (n : nat) (log : list WorkoutTracker.LogEntry) :
  map WorkoutTracker.exercise (WorkoutTracker.addReps k n log)
  = map WorkoutTracker.exercise log.
Proof.
  induction log as [|e log IH]; cbn; [reflexivity|].
  destruct (exerciseKind_eqb (WorkoutTracker.exercise e) k); cbn; congruence.
Qed.

Lemma findLog_none_not_in (k : exerciseKind) (log : list WorkoutTracker.LogEntry) :
  WorkoutTracker.findLog k log = None ->
  ~ In k (map WorkoutTracker.exercise log).
Proof.
  unfold WorkoutTracker.findLog.
  induction log as [|e log IH]; cbn; [tauto|].
  destruct (exerciseKind_eqb (WorkoutTracker.exercise e) k) eqn:E; [discriminate|].
  apply exerciseKind_eqb_neq in E. intros H [H'|H']; [contradiction | exact (IH H H')].
Qed.

Lemma logReps_tidy (k : exerciseKind) (n : nat) (log : list WorkoutTracker.LogEntry) :
  (0 < n)%nat -> tidy log -> tidy (WorkoutTracker.logReps k n log).
Proof.
  intros Hn [Hd Hf]. unfold WorkoutTracker.logReps.
  destruct (WorkoutTracker.findLog k log) eqn:F.
  - split; [rewrite addReps_exercises; exact Hd|].
    clear F Hd. induction Hf as [|e log [He Hp] Hrest IH]; cbn; [constructor|].
    destruct (exerciseKind_eqb (WorkoutTracker.exercise e) k).
    + constructor; [cbn; split; [exact He | lia] | exact Hrest].
    + constructor; [split; assumption | exact IH].
  - split.
    + rewrite map_app. cbn.
      apply NoDup_app; [exact Hd | repeat constructor; tauto |].
      intros x Hx [<-|[]]. exact (findLog_none_not_in _ _ F Hx).
    + apply Forall_app. split; [exact Hf|].
      repeat constructor. exact Hn.
Qed.

(** X15.  The log of a session stays a map in list form: after any
    events no exercise has two entries, every entry has a positive count
    and carries the display name of its exercise. *)
Theorem workoutLog_one_entry_per_exercise (tts : bool) (es : list WorkoutTracker.event) :
  let log := WorkoutTracker.workoutLog (WorkoutTracker.play es (WorkoutTracker.mount tts)) in
  NoDup (map WorkoutTracker.exercise log) /\
  Forall (fun e => WorkoutTracker.log_name e
                   = WorkoutTracker.EXERCISES_name (WorkoutTracker.exercise e) /\
                   (0 < WorkoutTracker.reps e)%nat) log.
Proof.
  cbv zeta. change (tidy (WorkoutTracker.workoutLog
                            (WorkoutTracker.play es (WorkoutTracker.mount tts)))).
  assert (Inv : forall s, tidy (WorkoutTracker.workoutLog s) ->
                          tidy (WorkoutTracker.workoutLog (WorkoutTracker.play es s))).
  { induction es as [|e es IH]; intros s Ht; [exact Ht|].
    apply (IH (WorkoutTracker.handle e s)).
    destruct e as [|k| | |f]; cbn [WorkoutTracker.handle].
    - exact Ht.
    - unfold WorkoutTracker.handleExerciseChange, WorkoutTracker.speakFeedback.
      destruct s as [ic ce rc cs fq wl sms smk t sp]; cbn in *.
      destruct ic, t; exact Ht.
    - unfold WorkoutTracker.handleStartCounting, WorkoutTracker.speakFeedback.
      destruct s as [ic ce rc cs fq wl sms smk t sp]; cbn in *.
      destruct t; exact Ht.
    - unfold WorkoutTracker.handleStopCounting, WorkoutTracker.speakFeedback.
      destruct s as [ic ce rc cs fq wl sms smk t sp];
        cbn -[Nat.ltb WorkoutTracker.logReps] in *.
      destruct ic; cbn -[Nat.ltb WorkoutTracker.logReps];
        [|destruct t; exact Ht].
      destruct (0 <? rc)%nat eqn:P; destruct t; cbn -[WorkoutTracker.logReps];
        try exact Ht; apply logReps_tidy; auto; apply Nat.ltb_lt; exact P.
    - destruct (WorkoutTracker.isCounting s); [|exact Ht].
      destruct (WorkoutTracker.stateMachines s) as [r|] eqn:Hr;
        [destruct (WorkoutTracker.stateMachine s) as [k|] eqn:Hk|].
      + destruct (feedStateMachine_roster f s r k Hr Hk) as (_ & _ & _ & _ & Hl & _).
        rewrite Hl. exact Ht.
      + unfold WorkoutTracker.feedStateMachine. rewrite Hr, Hk. exact Ht.
      + unfold WorkoutTracker.feedStateMachine. rewrite Hr. exact Ht. }
  apply Inv. split; constructor.
Qed.

(** X16.  Pausing logs the displayed count and leaves it on display, and
    resuming does not clear it: pause, resume and pause again without a
    new rep adds the same count to the log a second time. *)
Theorem pause_resume_pause_logs_twice (s : WorkoutTracker.Tracker) :
  WorkoutTracker.isCounting s = true ->
  (0 < WorkoutTracker.repCount s)%nat ->
  let k := WorkoutTracker.currentExercise s in
  let paused := WorkoutTracker.handleStopCounting s in
  let again := WorkoutTracker.handleStopCounting
                 (WorkoutTracker.handleStartCounting paused) in
  WorkoutTracker.repCount paused = WorkoutTracker.repCount s /\
  loggedReps k (WorkoutTracker.workoutLog paused)
  = (loggedReps k (WorkoutTracker.workoutLog s) + WorkoutTracker.repCount s)%nat /\
  loggedReps k (WorkoutTracker.workoutLog again)
  = (loggedReps k (WorkoutTracker.workoutLog s) + 2 * WorkoutTracker.repCount s)%nat.
Proof.
  destruct s as [ic ce rc cs fq wl sms smk t sp]. cbn [WorkoutTracker.isCounting
    WorkoutTracker.repCount WorkoutTracker.currentExercise WorkoutTracker.workoutLog].
  intros -> Hp. apply Nat.ltb_lt in Hp.
  unfold WorkoutTracker.handleStopCounting, WorkoutTracker.handleStartCounting,
    WorkoutTracker.speakFeedback.
  cbn -[Nat.ltb WorkoutTracker.logReps loggedReps Nat.mul]. rewrite Hp.
  destruct t; cbn -[Nat.ltb WorkoutTracker.logReps loggedReps Nat.mul];
    rewrite ?Hp; cbn -[WorkoutTracker.logReps loggedReps Nat.mul];
    rewrite !loggedReps_logReps; repeat split; lia.
Qed.

(** One squat counted, then pause, resume, pause: the log holds 2. *)
Lemma pause_resume_pause_logs_twice_witness :
  let s := WorkoutTracker.play
             ([WorkoutTracker.ModelLoaded; WorkoutTracker.StartCounting]
              ++ map (fun z => WorkoutTracker.Counted (kneeFrame z)) [140; 100; 130; 170]%Z)
             (WorkoutTracker.mount false) in
  loggedReps squat
    (WorkoutTracker.workoutLog
       (WorkoutTracker.handleStopCounting
          (WorkoutTracker.handleStartCounting (WorkoutTracker.handleStopCounting s))))
  = 2%nat.
Proof.
  intro s.
  assert (P : (0 < WorkoutTracker.repCount s)%nat) by (vm_compute; lia).
  destruct (pause_resume_pause_logs_twice s eq_refl P) as (_ & _ & H).
  exact H.
Defined.

(** X17.  The log sent at the end of a workout holds, for every
    exercise, what the session log holds, plus the displayed count for
    the current exercise, whether or not counting was paused before:
    when the workout is ended right after a pause that logged the count,
    the count is sent twice. *)
Theorem finalLog_adds_displayed_count (s : WorkoutTracker.Tracker) (k : exerciseKind) :
  loggedReps k (WorkoutTracker.finalLog s)
  = (loggedReps k (WorkoutTracker.workoutLog s)
     + (if exerciseKind_eqb k (WorkoutTracker.currentExercise s)
        then WorkoutTracker.repCount s else 0))%nat /\
  loggedReps (WorkoutTracker.currentExercise s)
    (WorkoutTracker.finalLog (WorkoutTracker.handleStopCounting s))
  = (loggedReps (WorkoutTracker.currentExercise s) (WorkoutTracker.workoutLog s)
     + (if WorkoutTracker.isCounting s then 2 * WorkoutTracker.repCount s
        else WorkoutTracker.repCount s))%nat.
Proof.
  assert (Base : forall s k,
    loggedReps k (WorkoutTracker.finalLog s)
    = (loggedReps k (WorkoutTracker.workoutLog s)
       + (if exerciseKind_eqb k (WorkoutTracker.currentExercise s)
          then WorkoutTracker.repCount s else 0))%nat).
  { clear. intros s k. unfold WorkoutTracker.finalLog.
    destruct (0 <? WorkoutTracker.repCount s)%nat eqn:P.
    - destruct (exerciseKind_eqb k (WorkoutTracker.currentExercise s)) eqn:E.
      + apply exerciseKind_eqb_eq in E. subst k. apply loggedReps_logReps.
      + apply exerciseKind_eqb_neq in E.
        rewrite loggedReps_logReps_other by exact E. lia.
    - apply Nat.ltb_ge in P.
      destruct (exerciseKind_eqb k (WorkoutTracker.currentExercise s)); lia. }
  split; [apply Base|].
  rewrite Base.
  destruct s as [ic ce rc cs fq wl sms smk t sp].
  unfold WorkoutTracker.handleStopCounting, WorkoutTracker.speakFeedback.
  cbn -[Nat.ltb WorkoutTracker.logReps loggedReps Nat.mul exerciseKind_eqb].
  assert (Q : exerciseKind_eqb ce ce = true) by (apply exerciseKind_eqb_eq; reflexivity).
  destruct ic, (0 <? rc)%nat eqn:P; destruct t;
    cbn -[WorkoutTracker.logReps loggedReps Nat.mul exerciseKind_eqb];
    rewrite ?loggedReps_logReps, Q;
    try lia; apply Nat.ltb_ge in P; lia.
Qed.

(* ================================================================== *)
(** ** Which joints an angle needs *)
(* ================================================================== *)

Lemma getPoint_confident (keypoints : list WorkoutTracker.Keypoint) (i : nat) :
  confident keypoints i
  = match WorkoutTracker.getPoint keypoints (WorkoutTracker.Idx i) with
    | Some _ => true
    | None => false
    end.
Proof.
  unfold confident, WorkoutTracker.getPoint, WorkoutTracker.at_index,
    WorkoutTracker.minConfidence.
  destruct (nth_error keypoints i) as [kp|]; [|reflexivity].
  destruct (num_ge (WorkoutTracker.score kp) (Fin (3 # 10))); reflexivity.
Qed.

(** X18.  Which keypoints each index-based exercise needs for its
    driving angle: every joint of the angle must score at least 0.3 on
    the left or on the right side, joint by joint, so the sides may be
    mixed; the squat also needs a shoulder although only the knee angle
    drives it; the shoulder press needs all three joints of one arm for
    that arm's angle. *)
Theorem driving_angle_needs_joints
  (angleDegrees : point -> point -> point -> number)
  (verticalDegrees : point -> point -> number)
  (keypoints : list WorkoutTracker.Keypoint) :
  let c := confident keypoints in
  let a := fun k => fst (WorkoutTracker.computeAngles angleDegrees verticalDegrees k keypoints) in
  (present (knee (a squat))
  = (c 11 || c 12) && (c 13 || c 14) && (c 15 || c 16) && (c 5 || c 6) /\
  present (elbow (a pullup)) = (c 5 || c 6) && (c 7 || c 8) && (c 9 || c 10) /\
  present (shoulder (a lateralraise)) = (c 5 || c 6) && (c 7 || c 8) && (c 11 || c 12) /\
  present (knee (a lunge)) = (c 11 || c 12) && (c 13 || c 14) && (c 15 || c 16) /\
  present (leftElbow (a shoulderpress)) = c 5 && c 7 && c 9 /\
  present (rightElbow (a shoulderpress)) = c 6 && c 8 && c 10)%nat.
Proof.
  intros c a. subst c a. cbv beta.
  rewrite !getPoint_confident.
  unfold WorkoutTracker.computeAngles. cbv zeta.
  repeat match goal with |- _ /\ _ => split end;
    repeat match goal with
           | |- context [WorkoutTracker.getPoint keypoints (WorkoutTracker.Idx ?n)] =>
               destruct (WorkoutTracker.getPoint keypoints (WorkoutTracker.Idx n))
           end;
    reflexivity.
Qed.

(* ================================================================== *)
(** ** Voice commands *)
(* ================================================================== *)

(** X19.  Up to the point where the calorie request is awaited, a voice
    command never writes the machines, the displayed count or the
    current exercise, and it writes the log in one case only: when it
    ends the workout.  [handleEndWorkout] then works on
    the count [seen] its closure holds, which need not be the displayed
    one: the list it sends is the log with [seen] added for the current
    exercise, and because the list is a shallow copy of the log, [seen]
    is also added in place to the entry the log holds for that exercise,
    if it holds one. *)
Theorem voice_commands_write_log_only_at_end
  (seen : nat) (lowerCommand : string) (v : WorkoutTracker.Session) :
  let t := WorkoutTracker.tracker v in
  let r := WorkoutTracker.runVoiceCommand seen lowerCommand v in
  let t' := WorkoutTracker.tracker (fst r) in
  WorkoutTracker.stateMachines t' = WorkoutTracker.stateMachines t /\
  WorkoutTracker.stateMachine t' = WorkoutTracker.stateMachine t /\
  WorkoutTracker.repCount t' = WorkoutTracker.repCount t /\
  WorkoutTracker.currentExercise t' = WorkoutTracker.currentExercise t /\
  match snd r with
  | None => WorkoutTracker.workoutLog t' = WorkoutTracker.workoutLog t
  | Some request =>
      forall k : exerciseKind,
        loggedReps k request
        = (loggedReps k (WorkoutTracker.workoutLog t)
           + (if exerciseKind_eqb k (WorkoutTracker.currentExercise t)
              then seen else 0))%nat /\
        loggedReps k (WorkoutTracker.workoutLog t')
        = (loggedReps k (WorkoutTracker.workoutLog t)
           + (if exerciseKind_eqb k (WorkoutTracker.currentExercise t) then
                match WorkoutTracker.findLog k (WorkoutTracker.workoutLog t) with
                | Some _ => seen
                | None => 0
                end
              else 0))%nat
  end.
Proof.
  destruct v as [[ic ce rc cs fq wl sms smk tts sp] wa].
  unfold WorkoutTracker.runVoiceCommand, WorkoutTracker.handleVoiceCommand,
    WorkoutTracker.handleEndWorkoutStart, WorkoutTracker.sentLog,
    WorkoutTracker.speakFeedback.
  cbn -[WorkoutTracker.includes Nat.ltb WorkoutTracker.logReps
        WorkoutTracker.addReps WorkoutTracker.findLog loggedReps exerciseKind_eqb].
  repeat match goal with
         | |- context [if ?t then _ else _] =>
             lazymatch t with
             | (0 <? seen)%nat => fail
             | exerciseKind_eqb _ _ => fail
             | _ => lazymatch type of t with bool => destruct t end
             end
         end;
    cbn -[Nat.ltb WorkoutTracker.logReps WorkoutTracker.addReps
          WorkoutTracker.findLog loggedReps exerciseKind_eqb];
    repeat match goal with |- _ /\ _ => split end; try reflexivity.
  intro k.
  destruct (exerciseKind_eqb k ce) eqn:E.
  - apply exerciseKind_eqb_eq in E. subst k.
    destruct (0 <? seen)%nat eqn:P.
    + split; [apply loggedReps_logReps|].
      destruct (WorkoutTracker.findLog ce wl) eqn:F.
      * apply loggedReps_addReps. congruence.
      * lia.
    + apply Nat.ltb_ge in P.
      split; [lia | destruct (WorkoutTracker.findLog ce wl); lia].
  - apply exerciseKind_eqb_neq in E.
    destruct (0 <? seen)%nat.
    + split; [rewrite loggedReps_logReps_other by exact E; lia|].
      destruct (WorkoutTracker.findLog ce wl).
      * rewrite loggedReps_addReps_other by exact E. lia.
      * lia.
    + split; lia.
Qed.

(** Two sessions ended by voice.  One squat is counted after the handler
    was installed at the start of counting, where the count was 0: the
    list sent is empty, while the displayed count would have given one
    squat.  And with two squats logged by a pause and a third counted
    since, a handler that holds the count 2 sends four squats and leaves
    four in the log, until the timer that follows a response clears the
    log, the display and the machines. *)
Remark voice_end_sends_the_count_it_holds :
  let rep := map (fun z => WorkoutTracker.Counted (kneeFrame z)) [140; 100; 130; 170]%Z in
  let one := WorkoutTracker.play
               ([WorkoutTracker.ModelLoaded; WorkoutTracker.StartCounting] ++ rep)
               (WorkoutTracker.mount true) in
  let three := WorkoutTracker.play
                 ([WorkoutTracker.ModelLoaded; WorkoutTracker.StartCounting] ++ rep ++ rep
                  ++ [WorkoutTracker.StopCounting; WorkoutTracker.StartCounting] ++ rep)
                 (WorkoutTracker.mount true) in
  let session t := {| WorkoutTracker.tracker := t; WorkoutTracker.isWorkoutActive := true |} in
  let squats n := [ {| WorkoutTracker.exercise := squat; WorkoutTracker.reps := n;
                       WorkoutTracker.log_name := "Squats" |} ] in
  (WorkoutTracker.repCount one = 1%nat /\
   WorkoutTracker.finalLog one = squats 1%nat /\
   snd (WorkoutTracker.runVoiceCommand 0 "end workout" (session one)) = Some []) /\
  (WorkoutTracker.repCount three = 3%nat /\
   WorkoutTracker.workoutLog three = squats 2%nat /\
   snd (WorkoutTracker.runVoiceCommand 2 "end workout" (session three))
   = Some (squats 4%nat) /\
   WorkoutTracker.workoutLog
     (WorkoutTracker.tracker
        (fst (WorkoutTracker.runVoiceCommand 2 "end workout" (session three))))
   = squats 4%nat /\
   WorkoutTracker.tracker
     (WorkoutTracker.handleEndWorkoutTimer
        (fst (WorkoutTracker.runVoiceCommand 2 "end workout" (session three))))
   = WorkoutTracker.resetWorkout (WorkoutTracker.set_isCounting false three)).
Proof.
  cbv zeta.
  repeat match goal with |- _ /\ _ => split end; vm_compute; reflexivity.
Qed.

Lemma prefix_trans (a b s : string) :
  String.prefix a b = true -> String.prefix b s = true -> String.prefix a s = true.
Proof.
  revert b s. induction a as [|x a IH]; intros b s Hab Hbs; [destruct s; reflexivity|].
  destruct b as [|y b]; [discriminate Hab|].
  destruct s as [|z s]; [discriminate Hbs|].
  cbn in *.
  destruct (Ascii.ascii_dec x y) as [->|]; [|discriminate Hab].
  destruct (Ascii.ascii_dec y z) as [->|]; [|discriminate Hbs].
  eapply IH; eassumption.
Qed.

(** A text that holds a phrase holds every phrase that one starts with. *)
Lemma includes_prefix (s a b : string) :
  String.prefix a b = true ->
  WorkoutTracker.includes s b = true -> WorkoutTracker.includes s a = true.
Proof.
  intro Hab. induction s as [|ch rest IH]; cbn -[String.prefix];
    rewrite !orb_true_iff; intros [H|H].
  - left. eapply prefix_trans; eassumption.
  - discriminate H.
  - left. eapply prefix_trans; eassumption.
  - right. exact (IH H).
Qed.

(** X20.  The spoken pause differs from the pause button in one thing:
    it does not log.  For a command routed to the pause branch while
    counting, the tracker it leaves is the one the button leaves with
    the log put back as it was, so reps on display are not logged. *)
Theorem voice_pause_skips_the_log (lowerCommand : string) (v : WorkoutTracker.Session) :
  WorkoutTracker.includes lowerCommand "initiate workout" = false ->
  WorkoutTracker.includes lowerCommand "start workout" = false ->
  WorkoutTracker.includes lowerCommand "begin counting" = false ->
  WorkoutTracker.includes lowerCommand "stop counting"
  || WorkoutTracker.includes lowerCommand "pause counting" = true ->
  WorkoutTracker.isCounting (WorkoutTracker.tracker v) = true ->
  let t := WorkoutTracker.tracker v in
  WorkoutTracker.handleVoiceCommand lowerCommand v
  = ({| WorkoutTracker.tracker :=
          WorkoutTracker.set_workoutLog (WorkoutTracker.workoutLog t)
            (WorkoutTracker.handleStopCounting t);
        WorkoutTracker.isWorkoutActive := WorkoutTracker.isWorkoutActive v |}, None).
Proof.
  intros H1 H2 H3 H4 Hc.
  assert (H0 : WorkoutTracker.includes lowerCommand "start workout session" = false).
  { destruct (WorkoutTracker.includes lowerCommand "start workout session") eqn:Q;
      [|reflexivity].
    rewrite (includes_prefix lowerCommand "start workout" "start workout session"
               eq_refl Q) in H2. discriminate H2. }
  destruct v as [[ic ce rc cs fq wl sms smk tts sp] wa]. cbn in Hc. subst ic.
  unfold WorkoutTracker.handleVoiceCommand. rewrite H1, H0, H2, H3, H4.
  unfold WorkoutTracker.handleStopCounting, WorkoutTracker.speakFeedback.
  cbn -[Nat.ltb WorkoutTracker.logReps].
  destruct (0 <? rc)%nat, tts; reflexivity.
Qed.

(** 'jarvis pause counting' with two reps on display. *)
Lemma voice_pause_skips_the_log_witness :
  let t := WorkoutTracker.set_repCount 2
             (WorkoutTracker.play [WorkoutTracker.ModelLoaded; WorkoutTracker.StartCounting]
                (WorkoutTracker.mount false)) in
  let v := {| WorkoutTracker.tracker := t; WorkoutTracker.isWorkoutActive := true |} in
  let v' := fst (WorkoutTracker.handleVoiceCommand "jarvis pause counting" v) in
  WorkoutTracker.isCounting (WorkoutTracker.tracker v') = false /\
  WorkoutTracker.workoutLog (WorkoutTracker.tracker v') = [] /\
  loggedReps squat (WorkoutTracker.workoutLog (WorkoutTracker.handleStopCounting t)) = 2%nat.
Proof.
  intros t v v'. subst v'.
  rewrite (voice_pause_skips_the_log "jarvis pause counting" v
             eq_refl eq_refl eq_refl eq_refl eq_refl).
  repeat split; reflexivity.
Defined.

(** X21.  The phrases are tried in a fixed order, so a command that
    holds 'initiate workout' or 'start workout session' is always taken
    as opening the session, although the second holds 'start workout'
    too: it never starts or stops the counting and never ends the
    workout. *)
Theorem voice_session_phrase_wins (lowerCommand : string) (v : WorkoutTracker.Session) :
  WorkoutTracker.includes lowerCommand "initiate workout"
  || WorkoutTracker.includes lowerCommand "start workout session" = true ->
  let r := WorkoutTracker.handleVoiceCommand lowerCommand v in
  snd r = None /\
  WorkoutTracker.isWorkoutActive (fst r) = true /\
  WorkoutTracker.isCounting (WorkoutTracker.tracker (fst r))
  = WorkoutTracker.isCounting (WorkoutTracker.tracker v) /\
  (WorkoutTracker.isWorkoutActive v = true -> fst r = v).
Proof.
  intros H r. subst r. unfold WorkoutTracker.handleVoiceCommand. rewrite H.
  destruct v as [[ic ce rc cs fq wl sms smk tts sp] wa].
  unfold WorkoutTracker.speakFeedback. cbn.
  destruct wa, tts; cbn; repeat split; try reflexivity; discriminate.
Qed.

(** 'start workout session' said while the session is open and the
    counting is off: nothing happens. *)
Lemma voice_session_phrase_wins_witness :
  let v := {| WorkoutTracker.tracker := WorkoutTracker.mount true;
              WorkoutTracker.isWorkoutActive := true |} in
  WorkoutTracker.includes "start workout session" "start workout" = true /\
  WorkoutTracker.handleVoiceCommand "start workout session" v = (v, None).
Proof.
  intro v. split; [reflexivity|].
  destruct (voice_session_phrase_wins "start workout session" v eq_refl)
    as (Hn & _ & _ & Hv).
  destruct (WorkoutTracker.handleVoiceCommand "start workout session" v) as [v' o].
  cbn in Hn, Hv. rewrite Hn, (Hv eq_refl). reflexivity.
Defined.

(* ================================================================== *)
(** ** What a call reads *)
(* ================================================================== *)

(** X22.  A call of [update] reads the driving angle(s) of its class and
    the clock, nothing else: two frames that agree on those give the
    same machine, whatever their other angles and their distances or
    positions.  The squat's hip and torso-lean angles and the knee-toe
    and leg-length distances do not enter the counting, nor do the
    wrist and shoulder positions of the shoulder press. *)
Theorem update_reads_driving_angles_only (f g : frame) (sm : Machine.t) :
  drivingAngles (Machine.kind sm) (angles f) = drivingAngles (Machine.kind sm) (angles g) ->
  now f = now g ->
  Machine.update f sm = Machine.update g sm.
Proof.
  intros Ha Hn.
  destruct sm as [m|m|m|m|m|m|m|m]; cbn in Ha; injection Ha; intros;
    unfold_updates;
    unfold ShoulderPressStateMachine.avgElbow, ShoulderPressStateMachine.unbalanced;
    repeat match goal with
           | E : _ = _ |- _ => rewrite E; clear E
           end;
    reflexivity.
Qed.

(** The same knee reading with and without hip, torso lean and
    distances. *)
Lemma update_reads_driving_angles_only_witness :
  let bare := kneeFrame 140 in
  let full := {| now := 1;
                 angles := WorkoutTracker.set_torsoLean (deg 80)
                             (WorkoutTracker.set_hip (deg 45) (justKnee (deg 140)));
                 distances := Some {| kneeToe := deg 90; legLength := deg 100;
                                      leftWrist := None; rightWrist := None;
                                      leftShoulder := None; rightShoulder := None |} |} in
  Machine.update full (Machine.new squat) = Machine.update bare (Machine.new squat).
Proof.
  intros bare full.
  exact (update_reads_driving_angles_only full bare (Machine.new squat) eq_refl eq_refl).
Defined.

(* ================================================================== *)
(** ** Range of motion *)
(* ================================================================== *)

(** The phases before the turn: the first two of a four-phase cycle, the
    first of the shoulder press. *)
Lemma partial_step (f : frame) (sm : Machine.t) :
  reachesTurn (Machine.kind sm) (angles f) = false ->
  (2 * phaseIndex sm < cycleLength (Machine.kind sm))%nat ->
  (2 * phaseIndex (Machine.update f sm) < cycleLength (Machine.kind sm))%nat /\
  Machine.repCount (Machine.update f sm) = Machine.repCount sm.
Proof.
  unfold reachesTurn, below, above.
  destruct sm as [m|m|m|m|m|m|m|m]; destruct m; destruct_phases;
    cbn [Machine.kind cycleLength phaseIndex Fields.state
         SquatStateMachine.state ShoulderPressStateMachine.state];
    intros Hr Hp; try lia; unfold_updates;
    cbn -[js_lt js_gt truthy Qplus Qminus Nat.mul
          ShoulderPressStateMachine.avgElbow ShoulderPressStateMachine.unbalanced].
  all: try (destruct (truthy _) eqn:T; cbn -[js_lt js_gt Nat.mul] in Hr |- *;
            [|split; [lia | reflexivity]];
            try rewrite Hr;
            repeat match goal with
                   | |- context [if ?t then _ else _] =>
                       lazymatch type of t with bool => destruct t end
                   end; cbn; split; (lia || reflexivity)).
  (* shoulder press *)
  destruct (negb (truthy (leftElbow (angles f))) && negb (truthy (rightElbow (angles f))))
    eqn:G; cbn -[js_gt Nat.mul ShoulderPressStateMachine.avgElbow
                 ShoulderPressStateMachine.unbalanced];
    [split; [lia | reflexivity]|].
  assert (J : js_gt (ShoulderPressStateMachine.avgElbow (angles f)) 160 = false).
  { destruct (js_gt (ShoulderPressStateMachine.avgElbow (angles f)) 160) eqn:J;
      [|reflexivity].
    rewrite (js_gt_truthy _ 160) in Hr by (assumption || now apply Qle_by_bool).
    discriminate Hr. }
  destruct (truthy (leftElbow (angles f)) && truthy (rightElbow (angles f)));
    [destruct (ShoulderPressStateMachine.unbalanced (angles f))|];
    cbn -[js_gt Nat.mul ShoulderPressStateMachine.avgElbow];
    rewrite J; cbn; split; (lia || reflexivity).
Qed.

(** X23.  A rep needs the full range of motion.  From a new machine, if
    no call carries a reading past the cutoff at which the movement
    turns (for the squat: knee below 110; for bench press, push-up,
    pull-up, deadlift and lunge: the angle below 90; for the lateral
    raise: above 90; for the shoulder press: mean elbow above 160), no
    rep is counted and the machine stays in the phases before the turn,
    however many calls are made. *)
Theorem partial_movement_never_counts (k : exerciseKind) (fs : list frame) :
  Forall (fun f => reachesTurn k (angles f) = false) fs ->
  Machine.repCount (Machine.run fs (Machine.new k)) = 0%nat /\
  (2 * phaseIndex (Machine.run fs (Machine.new k)) < cycleLength k)%nat.
Proof.
  intro Hfs.
  assert (Inv : forall sm,
            Machine.kind sm = k ->
            (2 * phaseIndex sm < cycleLength k)%nat ->
            Machine.repCount (Machine.run fs sm) = Machine.repCount sm /\
            (2 * phaseIndex (Machine.run fs sm) < cycleLength k)%nat).
  { induction Hfs as [|f fs Hf _ IH]; intros sm Hk Hp; [split; [reflexivity | exact Hp]|].
    change (Machine.run (f :: fs) sm) with (Machine.run fs (Machine.update f sm)).
    rewrite <- Hk in Hf, Hp.
    destruct (partial_step f sm Hf Hp) as [Hp' Hr'].
    rewrite Hk in Hp'.
    destruct (IH (Machine.update f sm)) as [Hr'' Hp''];
      [rewrite update_kind; exact Hk | exact Hp' |].
    split; [congruence | exact Hp'']. }
  destruct (Inv (Machine.new k)) as [Hr Hp].
  - destruct k; reflexivity.
  - destruct k; cbn; lia.
  - split; [rewrite Hr; destruct k; reflexivity | exact Hp].
Qed.

(** A lunge that only ever bends to 95 degrees. *)
Lemma partial_movement_never_counts_witness :
  let fs := map kneeFrame [170; 110; 95; 130; 170; 100; 95; 170]%Z in
  Machine.repCount (Machine.run fs (Machine.new lunge)) = 0%nat.
Proof.
  intro fs.
  refine (proj1 (partial_movement_never_counts lunge fs _)).
  repeat constructor.
Defined.
